(** * Cultural Bias Shield: the scoring and aggregation pipeline

  A shallow embedding of the Python scoring code
  ([cultural_analyzer.py], [script_2.py] (the bias detector),
  [cultural_scorer.py] and [app.py]) together with the properties the
  specification states about it.

  Modelling conventions.
  - Python [float] values are modelled as exact rationals ([Q]); equality
    of scores is [Qeq] ([==]).  Binary64 rounding is not part of this
    model.  Module [Binary64] repeats the scalar formulas over IEEE
    binary64 floats, and the concrete scenarios are evaluated there too:
    their comparisons come out the same way with rounding.
  - Python [int] values are [Z]; [int / int] is true division into [Q].
  - Python [str] is [string] (bytes); [str.lower] folds ASCII letters.
  - A Python [dict] used as a keyed lookup is a [gmap string _]; an
    optional key read with [.get(key, default)] is an [option] field
    read with [default].  A dict that is iterated is kept as the list
    of its items, in insertion order.
  - Loops that append to a list or store into a dict are left folds
    over the iterated sequence, threading the mutated values. *)

From Stdlib Require Import QArith Qabs Qminmax Qround Lqa ZArith Ascii String List.
From Stdlib Require Import PrimFloat.
From stdpp Require Import gmap strings list fin_maps.
Import ListNotations.

Local Open Scope string_scope.
Local Open Scope list_scope.
Local Open Scope Z_scope.
Local Open Scope Q_scope.

(** ** Python primitives *)

Module Py.

(** [str.lower] on one ASCII character.  Texts and keywords are taken to be
    ASCII: the keyword tables are, and on other characters [str.lower] is
    not a byte-wise map. *)
Definition lower_ascii (c : ascii) : ascii :=
  let n := nat_of_ascii c in
  if ((65 <=? n)%nat && (n <=? 90)%nat)%bool then ascii_of_nat (n + 32) else c.

Fixpoint lower (s : string) : string :=
  match s with
  | EmptyString => EmptyString
  | String c rest => String (lower_ascii c) (lower rest)
  end.

(** [sub in s] for strings: [sub] occurs at some offset of [s]. *)
Fixpoint contains (sub s : string) : bool :=
  if String.prefix sub s then true
  else match s with
       | EmptyString => false
       | String _ rest => contains sub rest
       end.

(** [sum(1 for word in keywords if word.lower() in content.lower())] *)
Definition count_keywords (keywords : list string) (content : string) : Z :=
  fold_left
    (fun acc word =>
       if contains (lower word) (lower content) then (acc + 1)%Z else acc)
    keywords 0%Z.

(** [int(x)] on a float: truncation towards zero. *)
Definition int (x : Q) : Z := Z.quot (Qnum x) (Zpos (Qden x)).

(** [x < y] and [x > y] on numbers, as booleans. *)
Definition lt (x y : Q) : bool := negb (Qle_bool y x).
Definition gt (x y : Q) : bool := lt y x.
Definition ge (x y : Q) : bool := Qle_bool y x.

(** [sum(xs)] and [numpy.mean(xs)] on a list of floats, as the exact sum
    and quotient.  In binary64 the mean of several scores agrees with it up
    to rounding only (the mean of six equal scores can differ from them in
    the last digit), so the overall score is compared with a threshold only
    where both agree: for one score, whose mean is the score itself, or
    with slack. *)
Definition sum (xs : list Q) : Q := fold_left Qplus xs 0.
Definition mean (xs : list Q) : Q := sum xs / inject_Z (Z.of_nat (length xs)).

(** [d.get(key, dflt)] *)
Definition get {V : Type} (d : gmap string V) (key : string) (dflt : V) : V :=
  default dflt (d !! key).

(** [key in d] *)
Definition mem {V : Type} (key : string) (d : gmap string V) : bool :=
  match d !! key with Some _ => true | None => false end.

(** [not d] for a dict: it has no entries. *)
Definition is_empty {V : Type} (d : gmap string V) : bool :=
  match map_to_list d with [] => true | _ :: _ => false end.

End Py.

(** ** cultural_analyzer.py *)

Module CulturalAnalyzer.

Definition _load_hofstede_data : gmap string (gmap string Q) :=
  list_to_map
    [ ("US", list_to_map [("PDI", 40); ("IDV", 91); ("MAS", 62); ("UAI", 46); ("LTO", 26); ("IVR", 68)]);
      ("UK", list_to_map [("PDI", 35); ("IDV", 89); ("MAS", 66); ("UAI", 35); ("LTO", 51); ("IVR", 69)]);
      ("JP", list_to_map [("PDI", 54); ("IDV", 46); ("MAS", 95); ("UAI", 92); ("LTO", 88); ("IVR", 42)]);
      ("CN", list_to_map [("PDI", 80); ("IDV", 20); ("MAS", 66); ("UAI", 30); ("LTO", 87); ("IVR", 24)]);
      ("DE", list_to_map [("PDI", 35); ("IDV", 67); ("MAS", 66); ("UAI", 65); ("LTO", 83); ("IVR", 40)]);
      ("FR", list_to_map [("PDI", 68); ("IDV", 71); ("MAS", 43); ("UAI", 86); ("LTO", 63); ("IVR", 48)]);
      ("IN", list_to_map [("PDI", 77); ("IDV", 48); ("MAS", 56); ("UAI", 40); ("LTO", 51); ("IVR", 26)]);
      ("BR", list_to_map [("PDI", 69); ("IDV", 38); ("MAS", 49); ("UAI", 76); ("LTO", 44); ("IVR", 59)]) ].

Definition hofstede_data : gmap string (gmap string Q) := _load_hofstede_data.

(** The keyword tables, local to each [_analyze_*] method in the source. *)
Definition high_pd_keywords : list string :=
  ["hierarchy"; "authority"; "boss"; "leader"; "executive"; "management"].
Definition low_pd_keywords : list string :=
  ["equality"; "peer"; "team"; "collaborative"; "democratic"; "accessible"].
Definition individualistic_keywords : list string :=
  ["individual"; "personal"; "self"; "independence"; "freedom"; "choice"].
Definition collectivistic_keywords : list string :=
  ["community"; "team"; "together"; "family"; "group"; "collective"].
Definition masculine_keywords : list string :=
  ["compete"; "win"; "achieve"; "success"; "performance"; "ambitious"].
Definition feminine_keywords : list string :=
  ["caring"; "quality"; "cooperation"; "relationships"; "supportive"; "nurturing"].
Definition high_uai_keywords : list string :=
  ["security"; "certainty"; "rules"; "structure"; "planning"; "reliable"].
Definition low_uai_keywords : list string :=
  ["flexible"; "adaptable"; "innovation"; "risk"; "experiment"; "spontaneous"].
Definition long_term_keywords : list string :=
  ["future"; "tradition"; "persistence"; "patience"; "investment"; "sustainable"].
Definition short_term_keywords : list string :=
  ["immediate"; "quick"; "now"; "instant"; "current"; "present"].
Definition indulgent_keywords : list string :=
  ["enjoy"; "fun"; "pleasure"; "freedom"; "happiness"; "celebration"].
Definition restrained_keywords : list string :=
  ["control"; "discipline"; "modest"; "serious"; "formal"; "conservative"].

Definition _analyze_power_distance (content : string) (pdi_value : Q) : Q :=
  let high_pd_count := Py.count_keywords high_pd_keywords content in
  let low_pd_count := Py.count_keywords low_pd_keywords content in
  let content_pd_tendency :=
    inject_Z (high_pd_count - low_pd_count)
    / inject_Z (Z.max 1 (high_pd_count + low_pd_count)) in
  let country_pd_tendency := (pdi_value - 50) / 50 in
  let alignment := 1 - Qabs (content_pd_tendency - country_pd_tendency) / 2 in
  Qmax 0 alignment.

Definition _analyze_individualism (content : string) (idv_value : Q) : Q :=
  let ind_count := Py.count_keywords individualistic_keywords content in
  let col_count := Py.count_keywords collectivistic_keywords content in
  let content_idv_tendency :=
    inject_Z (ind_count - col_count) / inject_Z (Z.max 1 (ind_count + col_count)) in
  let country_idv_tendency := (idv_value - 50) / 50 in
  let alignment := 1 - Qabs (content_idv_tendency - country_idv_tendency) / 2 in
  Qmax 0 alignment.

Definition _analyze_masculinity (content : string) (mas_value : Q) : Q :=
  let mas_count := Py.count_keywords masculine_keywords content in
  let fem_count := Py.count_keywords feminine_keywords content in
  let content_mas_tendency :=
    inject_Z (mas_count - fem_count) / inject_Z (Z.max 1 (mas_count + fem_count)) in
  let country_mas_tendency := (mas_value - 50) / 50 in
  let alignment := 1 - Qabs (content_mas_tendency - country_mas_tendency) / 2 in
  Qmax 0 alignment.

Definition _analyze_uncertainty_avoidance (content : string) (uai_value : Q) : Q :=
  let high_uai_count := Py.count_keywords high_uai_keywords content in
  let low_uai_count := Py.count_keywords low_uai_keywords content in
  let content_uai_tendency :=
    inject_Z (high_uai_count - low_uai_count)
    / inject_Z (Z.max 1 (high_uai_count + low_uai_count)) in
  let country_uai_tendency := (uai_value - 50) / 50 in
  let alignment := 1 - Qabs (content_uai_tendency - country_uai_tendency) / 2 in
  Qmax 0 alignment.

Definition _analyze_long_term_orientation (content : string) (lto_value : Q) : Q :=
  let lt_count := Py.count_keywords long_term_keywords content in
  let st_count := Py.count_keywords short_term_keywords content in
  let content_lto_tendency :=
    inject_Z (lt_count - st_count) / inject_Z (Z.max 1 (lt_count + st_count)) in
  let country_lto_tendency := (lto_value - 50) / 50 in
  let alignment := 1 - Qabs (content_lto_tendency - country_lto_tendency) / 2 in
  Qmax 0 alignment.

Definition _analyze_indulgence (content : string) (ivr_value : Q) : Q :=
  let ind_count := Py.count_keywords indulgent_keywords content in
  let res_count := Py.count_keywords restrained_keywords content in
  let content_ivr_tendency :=
    inject_Z (ind_count - res_count) / inject_Z (Z.max 1 (ind_count + res_count)) in
  let country_ivr_tendency := (ivr_value - 50) / 50 in
  let alignment := 1 - Qabs (content_ivr_tendency - country_ivr_tendency) / 2 in
  Qmax 0 alignment.

(** The dict is built by six successive stores into an empty dict. *)
Definition _analyze_dimensions (content : string) (dimensions : gmap string Q)
    (country : string) : gmap string Q :=
  let dimension_scores : gmap string Q := ∅ in
  let pdi_score := _analyze_power_distance content (Py.get dimensions "PDI" 50) in
  let dimension_scores := <["power_distance" := pdi_score]> dimension_scores in
  let idv_score := _analyze_individualism content (Py.get dimensions "IDV" 50) in
  let dimension_scores := <["individualism" := idv_score]> dimension_scores in
  let mas_score := _analyze_masculinity content (Py.get dimensions "MAS" 50) in
  let dimension_scores := <["masculinity" := mas_score]> dimension_scores in
  let uai_score := _analyze_uncertainty_avoidance content (Py.get dimensions "UAI" 50) in
  let dimension_scores := <["uncertainty_avoidance" := uai_score]> dimension_scores in
  let lto_score := _analyze_long_term_orientation content (Py.get dimensions "LTO" 50) in
  let dimension_scores := <["long_term_orientation" := lto_score]> dimension_scores in
  let ivr_score := _analyze_indulgence content (Py.get dimensions "IVR" 50) in
  let dimension_scores := <["indulgence" := ivr_score]> dimension_scores in
  dimension_scores.

(** The [weights] dict literal, as its items in order. *)
Definition weights : list (string * Q) :=
  [ ("power_distance", 0.20); ("individualism", 0.25); ("masculinity", 0.15);
    ("uncertainty_avoidance", 0.20); ("long_term_orientation", 0.10);
    ("indulgence", 0.10) ].

Definition _calculate_cultural_score (dimension_scores : gmap string Q) : Q :=
  if Py.is_empty dimension_scores then 0
  else
    let weighted_score :=
      Py.sum (map (fun '(dim, weight) => Py.get dimension_scores dim 0.5 * weight)
                  weights) in
    weighted_score.

(** [insights]: the summary label and the notes.  The two fields
    [strongest_alignment] and [weakest_alignment] are formatted display
    strings that nothing downstream reads; they are not modelled. *)
Record Insights := {
  alignment_summary : string;
  cultural_notes : list string
}.

(** Hofstede codes in the insertion order of every row of the table. *)
Definition dimension_codes : list string :=
  ["PDI"; "IDV"; "MAS"; "UAI"; "LTO"; "IVR"].

(** The loop over [dimensions.items()].  Only rows of the table reach this
    function, and every row holds the six codes in the order of
    [dimension_codes]; the loop is written over that order. *)
Definition _get_cultural_notes (country : string) (dimensions : gmap string Q)
    : list string :=
  fold_left
    (fun notes dim_code =>
       match dimensions !! dim_code with
       | None => notes
       | Some value =>
           if Py.gt value 80 then
             notes ++ ["Very high " +:+ dim_code
                       +:+ ": Consider strong alignment with this cultural trait"]
           else if Py.lt value 20 then
             notes ++ ["Very low " +:+ dim_code
                       +:+ ": Avoid assumptions related to this cultural trait"]
           else notes
       end)
    dimension_codes [].

Definition _generate_insights (content : string) (dimensions : gmap string Q)
    (scores : gmap string Q) (country : string) : Insights :=
  let alignment_summary := "" in
  let alignment_summary :=
    if negb (Py.is_empty scores) then
      let overall_score := _calculate_cultural_score scores in
      if Py.gt overall_score 0.8 then
        "Excellent cultural alignment with " +:+ country
      else if Py.gt overall_score 0.6 then
        "Good cultural alignment with " +:+ country
      else
        "Cultural misalignment detected for " +:+ country
    else alignment_summary in
  {| alignment_summary := alignment_summary;
     cultural_notes := _get_cultural_notes country dimensions |}.

Definition _dimension_code_map : gmap string string :=
  list_to_map
    [ ("power_distance", "PDI"); ("individualism", "IDV"); ("masculinity", "MAS");
      ("uncertainty_avoidance", "UAI"); ("long_term_orientation", "LTO");
      ("indulgence", "IVR") ].

Definition _get_country_tendency (dimension country : string) : string :=
  let dimensions := Py.get hofstede_data country ∅ in
  let value := Py.get dimensions (Py.get _dimension_code_map dimension dimension) 50 in
  if Py.gt value 50 then "high" else "low".

Definition suggestions_map : gmap string (gmap string string) :=
  list_to_map
    [ ("power_distance", list_to_map
         [ ("high", "Consider emphasizing hierarchy, authority, and formal structures");
           ("low", "Focus on equality, accessibility, and collaborative approaches") ]);
      ("individualism", list_to_map
         [ ("high", "Highlight personal choice, individual benefits, and self-expression");
           ("low", "Emphasize community, family, and collective benefits") ]);
      ("masculinity", list_to_map
         [ ("high", "Focus on achievement, competition, and performance metrics");
           ("low", "Emphasize cooperation, quality of life, and relationships") ]);
      ("uncertainty_avoidance", list_to_map
         [ ("high", "Provide security, guarantees, and detailed information");
           ("low", "Embrace flexibility, innovation, and risk-taking") ]);
      ("long_term_orientation", list_to_map
         [ ("high", "Emphasize tradition, patience, and long-term benefits");
           ("low", "Focus on immediate results and current trends") ]);
      ("indulgence", list_to_map
         [ ("high", "Highlight enjoyment, freedom, and positive emotions");
           ("low", "Emphasize control, modesty, and serious benefits") ]) ].

Definition _get_dimension_suggestion (dimension country industry : string) : string :=
  let dimension_suggestions := Py.get suggestions_map dimension ∅ in
  let country_tendency := _get_country_tendency dimension country in
  Py.get dimension_suggestions country_tendency
         ("Adjust " +:+ dimension +:+ " alignment for " +:+ country).

(** Dimension names in the order [_analyze_dimensions] stores them, which
    is the order [scores.items()] yields for the only dict that reaches
    [_generate_suggestions]. *)
Definition dimension_names : list string := map fst weights.

(** The loop over [scores.items()].  The dict [_analyze_dimensions]
    returns is the only one that reaches this function, and its six items
    come in the order of [dimension_names]; the loop is written over that
    order, and says nothing about a dict with other keys or another order. *)
Definition _generate_suggestions (scores : gmap string Q) (country industry : string)
    : list string :=
  fold_left
    (fun suggestions dimension =>
       match scores !! dimension with
       | None => suggestions
       | Some score =>
           if Py.lt score 0.6 then
             let suggestion := _get_dimension_suggestion dimension country industry in
             if negb (String.eqb suggestion "") then suggestions ++ [suggestion]
             else suggestions
           else suggestions
       end)
    dimension_names [].

(** The analysis dict.  Every reader takes a key with [.get(key, {})], so
    a key that is missing and a key bound to [{}] are the same value here;
    the dict returned on an exception is the one with all four maps empty. *)
Record CulturalAnalysis := {
  cultural_scores : gmap string Q;
  dimension_analysis : gmap string (gmap string Q);
  insights : gmap string Insights;
  suggestions : gmap string (list string);
  industry_context : string
}.

Definition analyze_cultural_fit (content : string) (countries : list string)
    (industry : string) : CulturalAnalysis :=
  let analysis_results :=
    {| cultural_scores := ∅; dimension_analysis := ∅; insights := ∅;
       suggestions := ∅; industry_context := industry |} in
  fold_left
    (fun analysis_results country =>
       let dimensions := Py.get hofstede_data country ∅ in
       if Py.is_empty dimensions then analysis_results
       else
         let dimension_scores := _analyze_dimensions content dimensions country in
         let cultural_score := _calculate_cultural_score dimension_scores in
         let insights_ := _generate_insights content dimensions dimension_scores country in
         let suggestions_ := _generate_suggestions dimension_scores country industry in
         {| cultural_scores :=
              <[country := cultural_score]> (cultural_scores analysis_results);
            dimension_analysis :=
              <[country := dimension_scores]> (dimension_analysis analysis_results);
            insights := <[country := insights_]> (insights analysis_results);
            suggestions := <[country := suggestions_]> (suggestions analysis_results);
            industry_context := industry_context analysis_results |})
    countries analysis_results.

End CulturalAnalyzer.

(** ** script_2.py: the bias detector *)

Module BiasDetector.

(** A value decoded from the provider's reply: a JSON number, or a value
    that is not a number (the manual line parser stores every value as a
    string). *)
Inductive PyVal :=
| PyNum (x : Q)
| PyStr (s : string).

Inductive exn := TypeError.

Inductive result (A : Type) :=
| Ok (a : A)
| Raise (e : exn).
Arguments Ok {A} a.
Arguments Raise {A} e.

(** The per-country record of the provider; only these two keys are read. *)
Record GeminiInsights := {
  assumption_risk : option PyVal;
  assumption_description : option string
}.

(** [gemini_analysis]: the items of its [cultural_insights] dict, in
    insertion order; a missing key reads as the empty dict. *)
Record GeminiAnalysis := {
  cultural_insights : list (string * GeminiInsights)
}.

(** A flag dict.  The four scans fill different keys; the keys a scan
    does not set are [None] (or the empty list). *)
Record Flag := {
  type : string;
  pattern : option string;
  matches : list string;
  country : option string;
  risk_score : option PyVal;
  description : string;
  cultural_context : option string;
  severity : option Z
}.

(** The dict a scan returns. *)
Record Detection := {
  detected : bool;
  category : string;
  flags : list Flag;
  patterns : list string;
  max_severity : Z
}.

Definition _risk_to_severity (risk_score : Q) : Z := Py.int (risk_score * 10).

(** [max([f["severity"] for f in flags], default=0)] *)
Definition max_default (xs : list Z) : Z :=
  match xs with
  | [] => 0%Z
  | x :: rest => fold_left Z.max rest x
  end.

(** The loop body: [insights.get("assumption_risk", 0) > 0.6] raises
    [TypeError] on a string, before anything is appended. *)
Definition _detect_cultural_assumptions (content : string)
    (gemini_analysis : GeminiAnalysis) : result Detection :=
  let gemini_insights := cultural_insights gemini_analysis in
  let loop :=
    fold_left
      (fun acc '(country_, insights) =>
         match acc with
         | Raise e => Raise e
         | Ok assumption_flags =>
             match default (PyNum 0) (assumption_risk insights) with
             | PyStr _ => Raise TypeError
             | PyNum risk =>
                 if Py.gt risk 0.6 then
                   Ok (assumption_flags ++
                       [ {| type := "cultural_assumption";
                            pattern := None;
                            matches := [];
                            country := Some country_;
                            risk_score := Some (PyNum risk);
                            description :=
                              default "" (assumption_description insights);
                            cultural_context := None;
                            severity := Some (_risk_to_severity risk) |} ])
                 else Ok assumption_flags
             end
         end)
      gemini_insights (Ok []) in
  match loop with
  | Raise e => Raise e
  | Ok assumption_flags =>
      Ok {| detected := (0 <? length assumption_flags)%nat;
            category := "cultural_assumption";
            flags := assumption_flags;
            patterns := [];
            max_severity :=
              max_default (map (fun f => default 0%Z (severity f)) assumption_flags) |}
  end.

(** *** The regex scans, [detect_bias] and its two summaries *)

(** The value a pattern maps to in the pattern tables. *)
Record PatternInfo := {
  info_severity : Z;
  info_description : string;
  info_cultural_context : option string
}.

(** [_load_bias_patterns()]: two tables, each the items of a dict in
    insertion order. *)
Record BiasPatterns := {
  stereotypes : list (string * PatternInfo);
  representation : list (string * PatternInfo)
}.

Definition _load_bias_patterns : BiasPatterns :=
  {| stereotypes :=
       [ ("\b(exotic|primitive|backward|underdeveloped)\b",
          {| info_severity := 8;
             info_description := "Potentially offensive cultural descriptors";
             info_cultural_context := None |});
         ("\b(oriental|third world|native)\b",
          {| info_severity := 7;
             info_description := "Outdated or problematic cultural terms";
             info_cultural_context := None |});
         ("\b(normal|typical|standard)\s+(american|western|european)",
          {| info_severity := 6;
             info_description := "Western-centric assumptions";
             info_cultural_context := None |}) ];
     representation :=
       [ ("\b(everyone|all people|universal)\b",
          {| info_severity := 4;
             info_description := "Potentially overgeneralized statements";
             info_cultural_context := None |});
         ("\b(traditionally|culturally)\s+(they|those people)",
          {| info_severity := 5;
             info_description := "Potential cultural oversimplification";
             info_cultural_context := None |}) ] |}.

Record LanguagePatterns := {
  problematic : list (string * PatternInfo)
}.

Definition _load_language_patterns : LanguagePatterns :=
  {| problematic :=
       [ ("\b(american dream|melting pot|pull yourself up)",
          {| info_severity := 5;
             info_description := "US-centric concepts that may not resonate globally";
             info_cultural_context := Some "American individualism" |});
         ("\b(christmas|thanksgiving|easter)\s+(spirit|season|time)",
          {| info_severity := 4;
             info_description := "Christian holiday assumptions";
             info_cultural_context := Some "Religious assumptions" |});
         ("\b(nuclear family|suburb|homeowner)",
          {| info_severity := 3;
             info_description := "Western family/lifestyle assumptions";
             info_cultural_context := Some "Western lifestyle norms" |}) ] |}.

Definition cultural_bias_patterns : BiasPatterns := _load_bias_patterns.
Definition language_patterns : LanguagePatterns := _load_language_patterns.

(** The dict [detect_bias] returns.  The dict of the [except] branch has
    only [error], [flags] and [confidence_score]; its other keys read as
    empty. *)
Record BiasReport := {
  br_error : option exn;
  br_flags : list Flag;
  br_severity_scores : gmap string Q;
  br_pattern_matches : list string;
  br_confidence_score : Q;
  br_bias_categories : list string
}.

(** [_calculate_severity_scores]: one store per scan that detected. *)
Definition _calculate_severity_scores (bias_results : list Detection)
    : gmap string Q :=
  fold_left
    (fun severity_scores bias_result =>
       if detected bias_result then
         <[category bias_result := inject_Z (max_severity bias_result) / 10]>
           severity_scores
       else severity_scores)
    bias_results ∅.

Definition _calculate_confidence (bias_results : BiasReport) : Q :=
  match br_flags bias_results with
  | [] => 0.95
  | _ :: _ =>
      let num_flags := Z.of_nat (length (br_flags bias_results)) in
      let num_categories :=
        Z.of_nat (size (list_to_set (br_bias_categories bias_results) : gset string)) in
      let base_confidence := Qmin (0.5 + inject_Z num_flags * 0.1) 0.9 in
      let category_bonus := Qmin (inject_Z num_categories * 0.05) 0.1 in
      Qmin (base_confidence + category_bonus) 0.95
  end.

Section Regex.

(** [re.findall(pattern, content, re.IGNORECASE)] of Python's [re] library:
    the matches in order, each kept as one value.  The scans only test the
    list for emptiness and store it. *)
Variable findall : string -> string -> list string.

Definition _detect_stereotype_bias (content : string) : Detection :=
  let '(stereotype_flags, patterns_found) :=
    fold_left
      (fun '(stereotype_flags, patterns_found) '(pattern_, info) =>
         let matches_ := findall pattern_ content in
         match matches_ with
         | [] => (stereotype_flags, patterns_found)
         | _ :: _ =>
             (stereotype_flags ++
              [ {| type := "stereotype";
                   pattern := Some pattern_;
                   matches := matches_;
                   country := None;
                   risk_score := None;
                   description := info_description info;
                   cultural_context := None;
                   severity := Some (info_severity info) |} ],
              patterns_found ++ [pattern_])
         end)
      (stereotypes cultural_bias_patterns) ([], []) in
  {| detected := (0 <? length stereotype_flags)%nat;
     category := "stereotype_bias";
     flags := stereotype_flags;
     patterns := patterns_found;
     max_severity :=
       max_default (map (fun f => default 0%Z (severity f)) stereotype_flags) |}.

Definition _detect_linguistic_bias (content : string) : Detection :=
  let '(linguistic_flags, patterns_found) :=
    fold_left
      (fun '(linguistic_flags, patterns_found) '(pattern_, info) =>
         let matches_ := findall pattern_ content in
         match matches_ with
         | [] => (linguistic_flags, patterns_found)
         | _ :: _ =>
             (linguistic_flags ++
              [ {| type := "linguistic";
                   pattern := Some pattern_;
                   matches := matches_;
                   country := None;
                   risk_score := None;
                   description := info_description info;
                   cultural_context :=
                     Some (default "" (info_cultural_context info));
                   severity := Some (info_severity info) |} ],
              patterns_found ++ [pattern_])
         end)
      (problematic language_patterns) ([], []) in
  {| detected := (0 <? length linguistic_flags)%nat;
     category := "linguistic_bias";
     flags := linguistic_flags;
     patterns := patterns_found;
     max_severity :=
       max_default (map (fun f => default 0%Z (severity f)) linguistic_flags) |}.

Definition _detect_representation_bias (content : string) : Detection :=
  let '(representation_flags, patterns_found) :=
    fold_left
      (fun '(representation_flags, patterns_found) '(pattern_, info) =>
         let matches_ := findall pattern_ content in
         match matches_ with
         | [] => (representation_flags, patterns_found)
         | _ :: _ =>
             (representation_flags ++
              [ {| type := "representation";
                   pattern := Some pattern_;
                   matches := matches_;
                   country := None;
                   risk_score := None;
                   description := info_description info;
                   cultural_context := None;
                   severity := Some (info_severity info) |} ],
              patterns_found ++ [pattern_])
         end)
      (representation cultural_bias_patterns) ([], []) in
  {| detected := (0 <? length representation_flags)%nat;
     category := "representation_bias";
     flags := representation_flags;
     patterns := patterns_found;
     max_severity :=
       max_default (map (fun f => default 0%Z (severity f)) representation_flags) |}.

(** [detect_bias]: the four scans in order; an exception of the third is
    caught and replaced by the error dict. *)
Definition detect_bias (content : string) (gemini_analysis : GeminiAnalysis)
    : BiasReport :=
  let stereotype_bias := _detect_stereotype_bias content in
  let linguistic_bias := _detect_linguistic_bias content in
  match _detect_cultural_assumptions content gemini_analysis with
  | Raise e =>
      {| br_error := Some e; br_flags := []; br_severity_scores := ∅;
         br_pattern_matches := []; br_confidence_score := 0;
         br_bias_categories := [] |}
  | Ok cultural_assumption_bias =>
      let representation_bias := _detect_representation_bias content in
      let all_biases :=
        [stereotype_bias; linguistic_bias; cultural_assumption_bias;
         representation_bias] in
      let bias_results :=
        fold_left
          (fun bias_results bias_result =>
             if detected bias_result then
               {| br_error := br_error bias_results;
                  br_flags := br_flags bias_results ++ flags bias_result;
                  br_severity_scores := br_severity_scores bias_results;
                  br_pattern_matches :=
                    br_pattern_matches bias_results ++ patterns bias_result;
                  br_confidence_score := br_confidence_score bias_results;
                  br_bias_categories :=
                    br_bias_categories bias_results ++ [category bias_result] |}
             else bias_results)
          all_biases
          {| br_error := None; br_flags := []; br_severity_scores := ∅;
             br_pattern_matches := []; br_confidence_score := 0;
             br_bias_categories := [] |} in
      let bias_results :=
        {| br_error := br_error bias_results;
           br_flags := br_flags bias_results;
           br_severity_scores := _calculate_severity_scores all_biases;
           br_pattern_matches := br_pattern_matches bias_results;
           br_confidence_score := br_confidence_score bias_results;
           br_bias_categories := br_bias_categories bias_results |} in
      {| br_error := br_error bias_results;
         br_flags := br_flags bias_results;
         br_severity_scores := br_severity_scores bias_results;
         br_pattern_matches := br_pattern_matches bias_results;
         br_confidence_score := _calculate_confidence bias_results;
         br_bias_categories := br_bias_categories bias_results |}
  end.

End Regex.

End BiasDetector.

(** ** cultural_scorer.py *)

Module CulturalScorer.

Definition _load_hofstede_data : gmap string (gmap string Q) :=
  list_to_map
    [ ("US", list_to_map [("PDI", 40); ("IDV", 91); ("MAS", 62); ("UAI", 46); ("LTO", 26); ("IVR", 68)]);
      ("UK", list_to_map [("PDI", 35); ("IDV", 89); ("MAS", 66); ("UAI", 35); ("LTO", 51); ("IVR", 69)]);
      ("JP", list_to_map [("PDI", 54); ("IDV", 46); ("MAS", 95); ("UAI", 92); ("LTO", 88); ("IVR", 42)]);
      ("CN", list_to_map [("PDI", 80); ("IDV", 20); ("MAS", 66); ("UAI", 30); ("LTO", 87); ("IVR", 24)]);
      ("DE", list_to_map [("PDI", 35); ("IDV", 67); ("MAS", 66); ("UAI", 65); ("LTO", 83); ("IVR", 40)]);
      ("FR", list_to_map [("PDI", 68); ("IDV", 71); ("MAS", 43); ("UAI", 86); ("LTO", 63); ("IVR", 48)]);
      ("IN", list_to_map [("PDI", 77); ("IDV", 48); ("MAS", 56); ("UAI", 40); ("LTO", 51); ("IVR", 26)]);
      ("BR", list_to_map [("PDI", 69); ("IDV", 38); ("MAS", 49); ("UAI", 76); ("LTO", 44); ("IVR", 59)]) ].

Definition hofstede_data : gmap string (gmap string Q) := _load_hofstede_data.

(** The weights dict has three fixed keys, each read by subscript. *)
Record ScoringWeights := {
  weight_cultural_fit : Q;
  weight_bias_freedom : Q;
  weight_confidence_bonus : Q
}.

Definition _load_scoring_weights : ScoringWeights :=
  {| weight_cultural_fit := 0.7;
     weight_bias_freedom := 0.25;
     weight_confidence_bonus := 0.05 |}.

Definition scoring_weights : ScoringWeights := _load_scoring_weights.

(** [bias_results]: only its [flags] key is read, with [[]] as default. *)
Record BiasResults := {
  flags : list BiasDetector.Flag
}.

Definition _calculate_bias_penalty (bias_results : BiasResults) : Q :=
  let flags := flags bias_results in
  match flags with
  | [] => 0
  | _ :: _ =>
      let total_penalty :=
        fold_left
          (fun total_penalty flag =>
             let severity := default 5%Z (BiasDetector.severity flag) in
             let penalty := (inject_Z severity / 10) * 0.1 in
             total_penalty + penalty)
          flags 0 in
      Qmin 0.8 total_penalty
  end.

Definition _get_cultural_fit_score (country : string)
    (cultural_analysis : CulturalAnalyzer.CulturalAnalysis) : Q :=
  let cultural_scores := CulturalAnalyzer.cultural_scores cultural_analysis in
  Py.get cultural_scores country 0.5.

Definition _calculate_confidence_bonus (country : string)
    (cultural_analysis : CulturalAnalyzer.CulturalAnalysis) : Q :=
  let has_hofstede_data := Py.mem country hofstede_data in
  let has_cultural_analysis :=
    Py.mem country (CulturalAnalyzer.cultural_scores cultural_analysis) in
  let bonus := 0 in
  let bonus := if has_hofstede_data then bonus + 0.05 else bonus in
  let bonus := if has_cultural_analysis then bonus + 0.05 else bonus in
  bonus.

Definition _calculate_country_score (country : string) (bias_results : BiasResults)
    (cultural_analysis : CulturalAnalyzer.CulturalAnalysis) : Q :=
  let bias_penalty := _calculate_bias_penalty bias_results in
  let cultural_fit_score := _get_cultural_fit_score country cultural_analysis in
  let confidence_bonus := _calculate_confidence_bonus country cultural_analysis in
  let weights := scoring_weights in
  let base_score :=
    cultural_fit_score * weight_cultural_fit weights
    + (1 - bias_penalty) * weight_bias_freedom weights
    + confidence_bonus * weight_confidence_bonus weights in
  Qmax 0 (Qmin 1 base_score).

Definition _assess_data_quality (country : string)
    (cultural_analysis : CulturalAnalyzer.CulturalAnalysis) : Q :=
  let quality_score := 0 in
  let quality_score :=
    if Py.mem country hofstede_data then quality_score + 0.4 else quality_score in
  let quality_score :=
    if Py.mem country (CulturalAnalyzer.cultural_scores cultural_analysis)
    then quality_score + 0.3 else quality_score in
  let quality_score :=
    if Py.mem country (CulturalAnalyzer.insights cultural_analysis)
    then quality_score + 0.3 else quality_score in
  Qmin 1 quality_score.

Record ConfidenceInterval := {
  lower_bound : Q;
  upper_bound : Q;
  confidence_level : Q;
  margin_of_error : Q;
  data_quality : Q
}.

Definition _calculate_confidence_interval (country : string) (score : Q)
    (cultural_analysis : CulturalAnalyzer.CulturalAnalysis) : ConfidenceInterval :=
  let data_quality := _assess_data_quality country cultural_analysis in
  let std_error :=
    if Py.gt data_quality 0.8 then 0.05
    else if Py.gt data_quality 0.6 then 0.10
    else 0.15 in
  let margin_of_error := 1.96 * std_error in
  {| lower_bound := Qmax 0 (score - margin_of_error);
     upper_bound := Qmin 1 (score + margin_of_error);
     confidence_level := 0.95;
     margin_of_error := margin_of_error;
     data_quality := data_quality |}.

Record ScoreBreakdown := {
  cultural_fit : Q;
  bias_penalty : Q;
  confidence_bonus : Q;
  breakdown_data_quality : Q
}.

Definition _get_score_breakdown (country : string) (bias_results : BiasResults)
    (cultural_analysis : CulturalAnalyzer.CulturalAnalysis) : ScoreBreakdown :=
  {| cultural_fit := _get_cultural_fit_score country cultural_analysis;
     bias_penalty := _calculate_bias_penalty bias_results;
     confidence_bonus := _calculate_confidence_bonus country cultural_analysis;
     breakdown_data_quality := _assess_data_quality country cultural_analysis |}.

(** The result dict.  The dict returned on an exception has [overall_score]
    0.0 and no other key the callers read; its maps read as empty. *)
Record AlignmentResults := {
  overall_score : Q;
  country_scores : gmap string Q;
  confidence : gmap string ConfidenceInterval;
  score_breakdown : gmap string ScoreBreakdown
}.

(** One iteration of the loop: three stores into the result dict and one
    append to the local list of scores. *)
Definition alignment_step (bias_results : BiasResults)
    (cultural_analysis : CulturalAnalyzer.CulturalAnalysis)
    (state : AlignmentResults * list Q) (country : string)
    : AlignmentResults * list Q :=
  let '(alignment_results, scores) := state in
  let country_score := _calculate_country_score country bias_results cultural_analysis in
  let confidence_interval :=
    _calculate_confidence_interval country country_score cultural_analysis in
  ({| overall_score := overall_score alignment_results;
      country_scores := <[country := country_score]> (country_scores alignment_results);
      confidence := <[country := confidence_interval]> (confidence alignment_results);
      score_breakdown :=
        <[country := _get_score_breakdown country bias_results cultural_analysis]>
          (score_breakdown alignment_results) |},
   scores ++ [country_score]).

Definition calculate_alignment (bias_results : BiasResults)
    (cultural_analysis : CulturalAnalyzer.CulturalAnalysis)
    (target_countries : list string) : AlignmentResults :=
  let alignment_results :=
    {| overall_score := 0; country_scores := ∅; confidence := ∅;
       score_breakdown := ∅ |} in
  let '(alignment_results, scores) :=
    fold_left (alignment_step bias_results cultural_analysis)
              target_countries (alignment_results, []) in
  match scores with
  | [] => alignment_results
  | _ :: _ =>
      {| overall_score := Py.mean scores;
         country_scores := country_scores alignment_results;
         confidence := confidence alignment_results;
         score_breakdown := score_breakdown alignment_results |}
  end.

(** *** The three read-only endpoints of the scorer *)

(** The [country_names] dict literal, as its items in order. *)
Definition country_names : list (string * string) :=
  [ ("US", "United States"); ("UK", "United Kingdom"); ("JP", "Japan");
    ("CN", "China"); ("DE", "Germany"); ("FR", "France"); ("IN", "India");
    ("BR", "Brazil") ].

Record SupportedCountry := {
  code : string;
  name : string
}.

Definition get_supported_countries : list SupportedCountry :=
  map (fun '(code_, name_) => {| code := code_; name := name_ |})
      (List.filter (fun '(code_, name_) => Py.mem code_ hofstede_data) country_names).

(** The dict [get_hofstede_scores] returns; [scores.get(code)] is [None]
    for a code the row lacks. *)
Record HofstedeScores := {
  hs_country : string;
  hs_dimensions : list (string * option Q)
}.

Definition get_hofstede_scores (country_code : string) : option HofstedeScores :=
  match hofstede_data !! country_code with
  | None => None
  | Some scores =>
      Some {| hs_country := country_code;
              hs_dimensions :=
                [ ("power_distance", scores !! "PDI");
                  ("individualism", scores !! "IDV");
                  ("masculinity", scores !! "MAS");
                  ("uncertainty_avoidance", scores !! "UAI");
                  ("long_term_orientation", scores !! "LTO");
                  ("indulgence", scores !! "IVR") ] |}
  end.

Definition check_data_availability : bool :=
  (0 <? size hofstede_data)%nat.

End CulturalScorer.

(** ** app.py *)

Module App.

Record Recommendation := {
  country : string;
  priority : string;
  type : string;
  message : string;
  specific_suggestions : list string
}.

Definition _generate_recommendations
    (alignment_scores : CulturalScorer.AlignmentResults)
    (cultural_analysis : CulturalAnalyzer.CulturalAnalysis)
    (target_countries : list string) : list Recommendation :=
  fold_left
    (fun recommendations country_ =>
       let score := Py.get (CulturalScorer.country_scores alignment_scores) country_ 0 in
       if Py.lt score 0.6 then
         recommendations ++
         [ {| country := country_;
              priority := "high";
              type := "cultural_adaptation";
              message := "Consider significant cultural adaptation for " +:+ country_;
              specific_suggestions :=
                Py.get (CulturalAnalyzer.suggestions cultural_analysis) country_ [] |} ]
       else if Py.lt score 0.8 then
         recommendations ++
         [ {| country := country_;
              priority := "medium";
              type := "minor_adjustments";
              message := "Minor cultural adjustments recommended for " +:+ country_;
              specific_suggestions :=
                Py.get (CulturalAnalyzer.suggestions cultural_analysis) country_ [] |} ]
       else recommendations)
    target_countries [].

Definition _calculate_risk_level (alignment_scores : CulturalScorer.AlignmentResults)
    : string :=
  let overall_score := CulturalScorer.overall_score alignment_scores in
  if Py.ge overall_score 0.8 then "low"
  else if Py.ge overall_score 0.6 then "medium"
  else "high".

(** *** The analysis endpoint *)

(** The JSON payload of a request; each key is read with a default. *)
Record Request := {
  campaign_content : option string;
  target_countries : option (list string);
  campaign_type : option string;
  industry : option string
}.

(** The response dict, without its two time stamps. *)
Record Response := {
  overall_score : Q;
  country_scores : gmap string Q;
  bias_flags : list BiasDetector.Flag;
  cultural_insights : gmap string CulturalAnalyzer.Insights;
  recommendations : list Recommendation;
  risk_level : string;
  confidence_intervals : gmap string CulturalScorer.ConfidenceInterval
}.

Section Endpoint.

(** The two collaborators outside the code: the regex engine, and the
    provider call [gemini_client.analyze_cultural_sentiment], which returns
    a dict on every path. *)
Variable findall : string -> string -> list string.
Variable analyze_cultural_sentiment :
  string -> list string -> BiasDetector.GeminiAnalysis.

Definition analyze_campaign (data : Request) : Response :=
  let campaign_content := default "" (campaign_content data) in
  let target_countries := default [] (target_countries data) in
  let campaign_type := default "social_media" (campaign_type data) in
  let industry := default "general" (industry data) in
  let gemini_analysis := analyze_cultural_sentiment campaign_content target_countries in
  let bias_results := BiasDetector.detect_bias findall campaign_content gemini_analysis in
  let cultural_analysis :=
    CulturalAnalyzer.analyze_cultural_fit campaign_content target_countries industry in
  let alignment_scores :=
    CulturalScorer.calculate_alignment
      {| CulturalScorer.flags := BiasDetector.br_flags bias_results |}
      cultural_analysis target_countries in
  let recommendations :=
    _generate_recommendations alignment_scores cultural_analysis target_countries in
  {| overall_score := CulturalScorer.overall_score alignment_scores;
     country_scores := CulturalScorer.country_scores alignment_scores;
     bias_flags := BiasDetector.br_flags bias_results;
     cultural_insights := CulturalAnalyzer.insights cultural_analysis;
     recommendations := recommendations;
     risk_level := _calculate_risk_level alignment_scores;
     confidence_intervals := CulturalScorer.confidence alignment_scores |}.

End Endpoint.

End App.

(** ** The quantities the specification names *)

Module Spec.

(** The six dimensions of the aligner. *)
Inductive dimension :=
| PowerDistance
| Individualism
| Masculinity
| UncertaintyAvoidance
| LongTermOrientation
| Indulgence.

Definition analyze (d : dimension) : string -> Q -> Q :=
  match d with
  | PowerDistance => CulturalAnalyzer._analyze_power_distance
  | Individualism => CulturalAnalyzer._analyze_individualism
  | Masculinity => CulturalAnalyzer._analyze_masculinity
  | UncertaintyAvoidance => CulturalAnalyzer._analyze_uncertainty_avoidance
  | LongTermOrientation => CulturalAnalyzer._analyze_long_term_orientation
  | Indulgence => CulturalAnalyzer._analyze_indulgence
  end.

Definition high_keywords (d : dimension) : list string :=
  match d with
  | PowerDistance => CulturalAnalyzer.high_pd_keywords
  | Individualism => CulturalAnalyzer.individualistic_keywords
  | Masculinity => CulturalAnalyzer.masculine_keywords
  | UncertaintyAvoidance => CulturalAnalyzer.high_uai_keywords
  | LongTermOrientation => CulturalAnalyzer.long_term_keywords
  | Indulgence => CulturalAnalyzer.indulgent_keywords
  end.

Definition low_keywords (d : dimension) : list string :=
  match d with
  | PowerDistance => CulturalAnalyzer.low_pd_keywords
  | Individualism => CulturalAnalyzer.collectivistic_keywords
  | Masculinity => CulturalAnalyzer.feminine_keywords
  | UncertaintyAvoidance => CulturalAnalyzer.low_uai_keywords
  | LongTermOrientation => CulturalAnalyzer.short_term_keywords
  | Indulgence => CulturalAnalyzer.restrained_keywords
  end.

(** [contentTendency = (highCount - lowCount) / max(1, highCount + lowCount)] *)
Definition content_tendency (high_count low_count : Z) : Q :=
  inject_Z (high_count - low_count) / inject_Z (Z.max 1 (high_count + low_count)).

(** [countryTendency = (countryValue - 50) / 50] *)
Definition country_tendency (country_value : Q) : Q := (country_value - 50) / 50.

Definition content_tendency_of (d : dimension) (content : string) : Q :=
  content_tendency (Py.count_keywords (high_keywords d) content)
                   (Py.count_keywords (low_keywords d) content).

(** The aggregation as the specification words it: the weighted sum over
    the six dimensions, with 0.5 for a dimension that is missing. *)
Definition weighted_sum (dimension_scores : gmap string Q) : Q :=
  Py.get dimension_scores "power_distance" 0.5 * 0.20
  + Py.get dimension_scores "individualism" 0.5 * 0.25
  + Py.get dimension_scores "masculinity" 0.5 * 0.15
  + Py.get dimension_scores "uncertainty_avoidance" 0.5 * 0.20
  + Py.get dimension_scores "long_term_orientation" 0.5 * 0.10
  + Py.get dimension_scores "indulgence" 0.5 * 0.10.

(** All values of a score mapping lie in [0,1]. *)
Definition unit_scores (dimension_scores : gmap string Q) : Prop :=
  forall dim x, dimension_scores !! dim = Some x -> 0 <= x <= 1.

(** The three summary labels. *)
Definition excellent (country : string) : string :=
  "Excellent cultural alignment with " +:+ country.
Definition good (country : string) : string :=
  "Good cultural alignment with " +:+ country.
Definition misaligned (country : string) : string :=
  "Cultural misalignment detected for " +:+ country.

Definition summary (content : string) (dimensions scores : gmap string Q)
    (country : string) : string :=
  CulturalAnalyzer.alignment_summary
    (CulturalAnalyzer._generate_insights content dimensions scores country).

(** Python's [round(x)] on a float: to the nearest integer, a tie going
    to the even one. *)
Definition round (x : Q) : Z :=
  let f := Qfloor x in
  let r := x - inject_Z f in
  if Py.lt r 0.5 then f
  else if Py.gt r 0.5 then (f + 1)%Z
  else if Z.even f then f else (f + 1)%Z.

(** The risk a provider record carries, where it is a number or missing. *)
Definition risk_of (insights : BiasDetector.GeminiInsights) : Q :=
  match BiasDetector.assumption_risk insights with
  | Some (BiasDetector.PyNum r) => r
  | _ => 0
  end.

(** No record carries a non-numeric risk. *)
Definition numeric_risks (items : list (string * BiasDetector.GeminiInsights)) : Prop :=
  Forall (fun item => forall s,
            BiasDetector.assumption_risk (snd item) <> Some (BiasDetector.PyStr s))
         items.

Definition risky (item : string * BiasDetector.GeminiInsights) : bool :=
  Py.gt (risk_of (snd item)) 0.6.

(** The flag the scan is to emit for one risky country. *)
Definition assumption_flag (item : string * BiasDetector.GeminiInsights)
    : BiasDetector.Flag :=
  {| BiasDetector.type := "cultural_assumption";
     BiasDetector.pattern := None;
     BiasDetector.matches := [];
     BiasDetector.country := Some (fst item);
     BiasDetector.risk_score := Some (BiasDetector.PyNum (risk_of (snd item)));
     BiasDetector.description :=
       default "" (BiasDetector.assumption_description (snd item));
     BiasDetector.cultural_context := None;
     BiasDetector.severity := Some (Py.int (risk_of (snd item) * 10)) |}.

(** The severity the scorer reads off a flag: [flag.get("severity", 5)]. *)
Definition severity_of (flag : BiasDetector.Flag) : Z :=
  default 5%Z (BiasDetector.severity flag).

(** [sum over flags of (severity/10) * 0.1] *)
Definition penalty_sum (flags : list BiasDetector.Flag) : Q :=
  Py.sum (map (fun flag => (inject_Z (severity_of flag) / 10) * 0.1) flags).

(** Data-model invariants of the scorer's inputs: a severity is not
    negative, a cultural score is at most 1. *)
Definition nonneg_severities (flags : list BiasDetector.Flag) : Prop :=
  Forall (fun flag => (0 <= severity_of flag)%Z) flags.

Definition fit_at_most_one (cultural_analysis : CulturalAnalyzer.CulturalAnalysis)
    : Prop :=
  forall country x,
    CulturalAnalyzer.cultural_scores cultural_analysis !! country = Some x -> x <= 1.

(** The final score of one country. *)
Definition final_score (bias_results : CulturalScorer.BiasResults)
    (cultural_analysis : CulturalAnalyzer.CulturalAnalysis) (country : string) : Q :=
  CulturalScorer._calculate_country_score country bias_results cultural_analysis.

(** The score the recommendation generator reads for one country. *)
Definition score_read (alignment_scores : CulturalScorer.AlignmentResults)
    (country : string) : Q :=
  Py.get (CulturalScorer.country_scores alignment_scores) country 0.

(** What is emitted for one requested country: nothing, or one
    recommendation. *)
Definition recommend (alignment_scores : CulturalScorer.AlignmentResults)
    (cultural_analysis : CulturalAnalyzer.CulturalAnalysis) (country : string)
    : list App.Recommendation :=
  let suggestions :=
    Py.get (CulturalAnalyzer.suggestions cultural_analysis) country [] in
  if Py.lt (score_read alignment_scores country) 0.6 then
    [ {| App.country := country; App.priority := "high";
         App.type := "cultural_adaptation";
         App.message := "Consider significant cultural adaptation for " +:+ country;
         App.specific_suggestions := suggestions |} ]
  else if Py.lt (score_read alignment_scores country) 0.8 then
    [ {| App.country := country; App.priority := "medium";
         App.type := "minor_adjustments";
         App.message := "Minor cultural adjustments recommended for " +:+ country;
         App.specific_suggestions := suggestions |} ]
  else [].

End Spec.

(** ** Sample data for the scenarios *)

(** The flag of scenario 3 of the specification. *)
Definition exotic_flag : BiasDetector.Flag :=
  {| BiasDetector.type := "stereotype";
     BiasDetector.pattern := Some "\b(exotic|primitive|backward|underdeveloped)\b";
     BiasDetector.matches := ["exotic"];
     BiasDetector.country := None;
     BiasDetector.risk_score := None;
     BiasDetector.description := "Potentially offensive cultural descriptors";
     BiasDetector.cultural_context := None;
     BiasDetector.severity := Some 8%Z |}.

(** A text in which only the first stereotype pattern matches, once: what
    the regex engine returns for it. *)
Definition exotic_findall (pattern_ content : string) : list string :=
  if String.eqb pattern_ "\b(exotic|primitive|backward|underdeveloped)\b"
  then ["exotic"] else [].

(** A provider reply with one risky country, the default record and a
    record without a risk; and one whose risk is a string. *)
Definition sample_signal : BiasDetector.GeminiAnalysis :=
  {| BiasDetector.cultural_insights :=
       [ ("JP", {| BiasDetector.assumption_risk := Some (BiasDetector.PyNum 0.67);
                   BiasDetector.assumption_description :=
                     Some "Assumes a shared calendar" |});
         ("US", {| BiasDetector.assumption_risk := Some (BiasDetector.PyNum 0.5);
                   BiasDetector.assumption_description :=
                     Some "Analysis unavailable" |});
         ("BR", {| BiasDetector.assumption_risk := None;
                   BiasDetector.assumption_description := None |}) ] |}.

Definition string_signal : BiasDetector.GeminiAnalysis :=
  {| BiasDetector.cultural_insights :=
       [ ("US", {| BiasDetector.assumption_risk := Some (BiasDetector.PyNum 0.9);
                   BiasDetector.assumption_description := None |});
         ("JP", {| BiasDetector.assumption_risk := Some (BiasDetector.PyStr "0.7");
                   BiasDetector.assumption_description :=
                     Some "Assumes a shared calendar" |}) ] |}.

(** A cultural analysis that gives US a fit of 0.7 and JP one of 0.95. *)
Definition sample_analysis : CulturalAnalyzer.CulturalAnalysis :=
  {| CulturalAnalyzer.cultural_scores := {[ "US" := 0.7; "JP" := 0.95 ]};
     CulturalAnalyzer.dimension_analysis := ∅;
     CulturalAnalyzer.insights := ∅;
     CulturalAnalyzer.suggestions :=
       {[ "US" := ["Emphasize community, family, and collective benefits"] ]};
     CulturalAnalyzer.industry_context := "general" |}.

(** ** The scalar formulas over binary64 *)

(** The arithmetic of the scalar formulas as Python evaluates it, on IEEE
    binary64 floats, operation by operation and in the source's order. *)
(** A request for one country with a Hofstede row and one without, and a
    request that names no country. *)
Definition sample_request : App.Request :=
  {| App.campaign_content := Some "An exotic getaway for everyone";
     App.target_countries := Some ["US"; "ZZ"];
     App.campaign_type := None;
     App.industry := Some "travel" |}.

Definition empty_request : App.Request :=
  {| App.campaign_content := Some "An exotic getaway for everyone";
     App.target_countries := None;
     App.campaign_type := None;
     App.industry := None |}.

Module Binary64.

#[local] Set Warnings "-inexact-float".
Local Open Scope float_scope.

(** [max(a, b)] and [min(a, b)]: the first argument unless the second is
    strictly beyond it. *)
Definition max (a b : float) : float := if a <? b then b else a.
Definition min (a b : float) : float := if b <? a then b else a.

(** [_calculate_cultural_score] on a dict that holds all six dimensions:
    [sum] starts from 0 and adds the products in the order of [weights]. *)
Definition _calculate_cultural_score
    (power_distance individualism masculinity uncertainty_avoidance
     long_term_orientation indulgence : float) : float :=
  0 + power_distance * 0.20 + individualism * 0.25 + masculinity * 0.15
  + uncertainty_avoidance * 0.20 + long_term_orientation * 0.10
  + indulgence * 0.10.

(** The branch [_generate_insights] takes: 2 excellent, 1 good, 0 misaligned. *)
Definition summary_tier (overall_score : float) : nat :=
  if 0.8 <? overall_score then 2%nat
  else if 0.6 <? overall_score then 1%nat
  else 0%nat.

(** [_calculate_bias_penalty] for a single flag of the given severity. *)
Definition _calculate_bias_penalty (severity : float) : float :=
  min 0.8 (0.0 + (severity / 10.0) * 0.1).

Definition _calculate_country_score (cultural_fit_score bias_penalty confidence_bonus : float)
    : float :=
  max 0.0 (min 1.0 (cultural_fit_score * 0.7 + (1.0 - bias_penalty) * 0.25
                    + confidence_bonus * 0.05)).

Definition lower_bound (score std_error : float) : float :=
  max 0.0 (score - 1.96 * std_error).
Definition upper_bound (score std_error : float) : float :=
  min 1.0 (score + 1.96 * std_error).

End Binary64.

(** ** Notions for the properties of the whole pipeline *)

Module Binary64Tiers.

#[local] Set Warnings "-inexact-float".
Local Open Scope float_scope.

(** [_assess_data_quality]: [quality_score] starts at 0.0 and gains 0.4,
    0.3 and 0.3 for the three memberships that hold. *)
Definition _assess_data_quality (in_hofstede in_scores in_insights : bool) : float :=
  let quality_score := 0.0 in
  let quality_score := if in_hofstede then quality_score + 0.4 else quality_score in
  let quality_score := if in_scores then quality_score + 0.3 else quality_score in
  let quality_score := if in_insights then quality_score + 0.3 else quality_score in
  Binary64.min 1.0 quality_score.

(** The [std_error] of [_calculate_confidence_interval]. *)
Definition std_error (data_quality : float) : float :=
  if 0.8 <? data_quality then 0.05
  else if 0.6 <? data_quality then 0.10
  else 0.15.

End Binary64Tiers.

Module View.

(** What the analyzer stores for one country: its four entries. *)
Definition entry (content industry country : string) (dimensions : gmap string Q)
    : Q * gmap string Q * CulturalAnalyzer.Insights * list string :=
  let dimension_scores :=
    CulturalAnalyzer._analyze_dimensions content dimensions country in
  (CulturalAnalyzer._calculate_cultural_score dimension_scores,
   dimension_scores,
   CulturalAnalyzer._generate_insights content dimensions dimension_scores country,
   CulturalAnalyzer._generate_suggestions dimension_scores country industry).

(** The four entries an analysis holds for one country. *)
Definition stored (analysis : CulturalAnalyzer.CulturalAnalysis) (country : string)
    : option Q * option (gmap string Q) * option CulturalAnalyzer.Insights
      * option (list string) :=
  (CulturalAnalyzer.cultural_scores analysis !! country,
   CulturalAnalyzer.dimension_analysis analysis !! country,
   CulturalAnalyzer.insights analysis !! country,
   CulturalAnalyzer.suggestions analysis !! country).

Definition some4 {A B C D : Type} (x : A * B * C * D)
    : option A * option B * option C * option D :=
  let '(a, b, c, d) := x in (Some a, Some b, Some c, Some d).

(** A dimension whose score is present and below 0.6. *)
Definition low_dimension (scores : gmap string Q) (dimension : string) : bool :=
  match scores !! dimension with
  | Some score => Py.lt score 0.6
  | None => false
  end.

(** The two texts of a dimension in [suggestions_map]. *)
Definition suggestion_text (dimension tendency : string) : string :=
  Py.get (Py.get CulturalAnalyzer.suggestions_map dimension ∅) tendency "".

(** The patterns of a table that match the text. *)
Definition matched (findall : string -> string -> list string) (content : string)
    (table : list (string * BiasDetector.PatternInfo))
    : list (string * BiasDetector.PatternInfo) :=
  List.filter
    (fun entry => match findall (fst entry) content with [] => false | _ :: _ => true end)
    table.

(** The flag of one matching pattern, for each of the three regex scans. *)
Definition stereotype_flag (findall : string -> string -> list string)
    (content : string) (entry : string * BiasDetector.PatternInfo)
    : BiasDetector.Flag :=
  {| BiasDetector.type := "stereotype";
     BiasDetector.pattern := Some (fst entry);
     BiasDetector.matches := findall (fst entry) content;
     BiasDetector.country := None;
     BiasDetector.risk_score := None;
     BiasDetector.description := BiasDetector.info_description (snd entry);
     BiasDetector.cultural_context := None;
     BiasDetector.severity := Some (BiasDetector.info_severity (snd entry)) |}.

Definition linguistic_flag (findall : string -> string -> list string)
    (content : string) (entry : string * BiasDetector.PatternInfo)
    : BiasDetector.Flag :=
  {| BiasDetector.type := "linguistic";
     BiasDetector.pattern := Some (fst entry);
     BiasDetector.matches := findall (fst entry) content;
     BiasDetector.country := None;
     BiasDetector.risk_score := None;
     BiasDetector.description := BiasDetector.info_description (snd entry);
     BiasDetector.cultural_context :=
       Some (default "" (BiasDetector.info_cultural_context (snd entry)));
     BiasDetector.severity := Some (BiasDetector.info_severity (snd entry)) |}.

Definition representation_flag (findall : string -> string -> list string)
    (content : string) (entry : string * BiasDetector.PatternInfo)
    : BiasDetector.Flag :=
  {| BiasDetector.type := "representation";
     BiasDetector.pattern := Some (fst entry);
     BiasDetector.matches := findall (fst entry) content;
     BiasDetector.country := None;
     BiasDetector.risk_score := None;
     BiasDetector.description := BiasDetector.info_description (snd entry);
     BiasDetector.cultural_context := None;
     BiasDetector.severity := Some (BiasDetector.info_severity (snd entry)) |}.

(** One iteration of a regex scan, the flag made by [make_flag]. *)
Definition scan_step (findall : string -> string -> list string) (content : string)
    (make_flag : string * BiasDetector.PatternInfo -> BiasDetector.Flag)
    : list BiasDetector.Flag * list string -> string * BiasDetector.PatternInfo
      -> list BiasDetector.Flag * list string :=
  fun '(found_flags, patterns_found) '(pattern_, info) =>
    match findall pattern_ content with
    | [] => (found_flags, patterns_found)
    | _ :: _ =>
        (found_flags ++ [make_flag (pattern_, info)], patterns_found ++ [pattern_])
    end.

(** The category name a scan contributes when it detected something. *)
Definition category_if_detected (d : BiasDetector.Detection) : list string :=
  if BiasDetector.detected d then [BiasDetector.category d] else [].

(** One iteration of the loop of the cultural-assumption scan. *)
Definition assumption_step (acc : BiasDetector.result (list BiasDetector.Flag))
    (item : string * BiasDetector.GeminiInsights)
    : BiasDetector.result (list BiasDetector.Flag) :=
  let '(country_, insights) := item in
  match acc with
  | BiasDetector.Raise e => BiasDetector.Raise e
  | BiasDetector.Ok assumption_flags =>
      match default (BiasDetector.PyNum 0) (BiasDetector.assumption_risk insights) with
      | BiasDetector.PyStr _ => BiasDetector.Raise BiasDetector.TypeError
      | BiasDetector.PyNum risk =>
          if Py.gt risk 0.6 then
            BiasDetector.Ok
              (assumption_flags ++
               [ {| BiasDetector.type := "cultural_assumption";
                    BiasDetector.pattern := None;
                    BiasDetector.matches := [];
                    BiasDetector.country := Some country_;
                    BiasDetector.risk_score := Some (BiasDetector.PyNum risk);
                    BiasDetector.description :=
                      default "" (BiasDetector.assumption_description insights);
                    BiasDetector.cultural_context := None;
                    BiasDetector.severity :=
                      Some (BiasDetector._risk_to_severity risk) |} ])
          else BiasDetector.Ok assumption_flags
      end
  end.

(** A report after the flags, patterns and category of one scan are added. *)
Definition absorb (report : BiasDetector.BiasReport) (d : BiasDetector.Detection)
    : BiasDetector.BiasReport :=
  {| BiasDetector.br_error := BiasDetector.br_error report;
     BiasDetector.br_flags := BiasDetector.br_flags report ++ BiasDetector.flags d;
     BiasDetector.br_severity_scores := BiasDetector.br_severity_scores report;
     BiasDetector.br_pattern_matches :=
       BiasDetector.br_pattern_matches report ++ BiasDetector.patterns d;
     BiasDetector.br_confidence_score := BiasDetector.br_confidence_score report;
     BiasDetector.br_bias_categories :=
       BiasDetector.br_bias_categories report ++ category_if_detected d |}.

(** A scan result whose [detected] says whether it has flags, and which
    lists no pattern when it has no flag. *)
Definition coherent (d : BiasDetector.Detection) : Prop :=
  BiasDetector.detected d = (0 <? length (BiasDetector.flags d))%nat
  /\ (BiasDetector.flags d = [] -> BiasDetector.patterns d = []).

(** The report of the [except] branch of [detect_bias]. *)
Definition error_report (e : BiasDetector.exn) : BiasDetector.BiasReport :=
  {| BiasDetector.br_error := Some e; BiasDetector.br_flags := [];
     BiasDetector.br_severity_scores := ∅; BiasDetector.br_pattern_matches := [];
     BiasDetector.br_confidence_score := 0; BiasDetector.br_bias_categories := [] |}.

(** Some provider record carries a risk that is not a number. *)
Definition has_string_risk (items : list (string * BiasDetector.GeminiInsights))
    : Prop :=
  Exists (fun item => exists s,
            BiasDetector.assumption_risk (snd item) = Some (BiasDetector.PyStr s))
         items.

(** The bias results as the scorer reads them off a report. *)
Definition scorer_input (report : BiasDetector.BiasReport)
    : CulturalScorer.BiasResults :=
  {| CulturalScorer.flags := BiasDetector.br_flags report |}.

(** The recommendation for a country whose score is below 0.6. *)
Definition high_recommendation
    (cultural_analysis : CulturalAnalyzer.CulturalAnalysis) (country : string)
    : App.Recommendation :=
  {| App.country := country; App.priority := "high";
     App.type := "cultural_adaptation";
     App.message := "Consider significant cultural adaptation for " +:+ country;
     App.specific_suggestions :=
       Py.get (CulturalAnalyzer.suggestions cultural_analysis) country [] |}.

(** The severities a flag of each of the four kinds can carry. *)
Definition kind_range (f : BiasDetector.Flag) (sv : Z) : Prop :=
  (BiasDetector.type f = "stereotype" /\ (6 <= sv <= 8)%Z)
  \/ (BiasDetector.type f = "linguistic" /\ (3 <= sv <= 5)%Z)
  \/ (BiasDetector.type f = "cultural_assumption" /\ (6 <= sv)%Z)
  \/ (BiasDetector.type f = "representation" /\ (4 <= sv <= 5)%Z).

(** The note for a dimension whose value is above 80, and the test for it. *)
Definition high_note (dim_code : string) : string :=
  "Very high " +:+ dim_code
  +:+ ": Consider strong alignment with this cultural trait".

Definition very_high (dimensions : gmap string Q) (dim_code : string) : bool :=
  match dimensions !! dim_code with
  | Some value => Py.gt value 80
  | None => false
  end.

(** The countries, the text and the industry of a request. *)
Definition requested (data : App.Request) : list string :=
  default [] (App.target_countries data).
Definition content_of (data : App.Request) : string :=
  default "" (App.campaign_content data).
Definition industry_of (data : App.Request) : string :=
  default "general" (App.industry data).

(** The three intermediate results of [analyze_campaign]. *)
Definition campaign_report (findall : string -> string -> list string)
    (analyze_cultural_sentiment : string -> list string -> BiasDetector.GeminiAnalysis)
    (data : App.Request) : BiasDetector.BiasReport :=
  BiasDetector.detect_bias findall (content_of data)
    (analyze_cultural_sentiment (content_of data) (requested data)).

Definition campaign_analysis (data : App.Request)
    : CulturalAnalyzer.CulturalAnalysis :=
  CulturalAnalyzer.analyze_cultural_fit (content_of data) (requested data)
    (industry_of data).

Definition campaign_alignment (findall : string -> string -> list string)
    (analyze_cultural_sentiment : string -> list string -> BiasDetector.GeminiAnalysis)
    (data : App.Request) : CulturalScorer.AlignmentResults :=
  CulturalScorer.calculate_alignment
    (scorer_input (campaign_report findall analyze_cultural_sentiment data))
    (campaign_analysis data) (requested data).

End View.

(** ** Comparisons and sums *)

(** [lra] does not see through a division by a literal: present it as a
    multiplication by the inverse literal first. *)
Ltac qlra :=
  unfold Qdiv in *;
  change (/ 2) with (1 # 2) in *;
  change (/ 10) with (1 # 10) in *;
  change (/ 50) with (1 # 50) in *;
  lra.

Section PyFacts.

Lemma lt_true (x y : Q) : Py.lt x y = true <-> x < y.
Proof.
  unfold Py.lt. rewrite negb_true_iff.
  split; intros H.
  - apply Qnot_le_lt. intros Hle. apply Qle_bool_iff in Hle. congruence.
  - destruct (Qle_bool y x) eqn:E; [|reflexivity].
    apply Qle_bool_iff in E. exfalso. exact (Qlt_not_le _ _ H E).
Qed.

Lemma lt_false (x y : Q) : Py.lt x y = false <-> y <= x.
Proof.
  unfold Py.lt. rewrite negb_false_iff. apply Qle_bool_iff.
Qed.

Lemma gt_true (x y : Q) : Py.gt x y = true <-> y < x.
Proof. apply lt_true. Qed.

Lemma gt_false (x y : Q) : Py.gt x y = false <-> x <= y.
Proof. apply lt_false. Qed.

Lemma ge_true (x y : Q) : Py.ge x y = true <-> y <= x.
Proof. apply Qle_bool_iff. Qed.

Lemma ge_false (x y : Q) : Py.ge x y = false <-> x < y.
Proof.
  unfold Py.ge. split; intros H.
  - apply Qnot_le_lt. intros Hle. apply Qle_bool_iff in Hle. congruence.
  - destruct (Qle_bool y x) eqn:E; [|reflexivity].
    apply Qle_bool_iff in E. exfalso. exact (Qlt_not_le _ _ H E).
Qed.

Lemma fold_plus_shift (xs : list Q) (a : Q) :
  fold_left Qplus xs a == a + Py.sum xs.
Proof.
  unfold Py.sum. revert a.
  induction xs as [|x xs IH]; intros a; simpl.
  - lra.
  - rewrite (IH (a + x)), (IH (0 + x)). lra.
Qed.

Lemma sum_cons (x : Q) (xs : list Q) : Py.sum (x :: xs) == x + Py.sum xs.
Proof. unfold Py.sum at 1. simpl. rewrite fold_plus_shift. lra. Qed.

Lemma sum_app (xs ys : list Q) : Py.sum (xs ++ ys) == Py.sum xs + Py.sum ys.
Proof.
  induction xs as [|x xs IH]; simpl.
  - unfold Py.sum at 2. simpl. lra.
  - rewrite !sum_cons, IH. lra.
Qed.

Lemma is_empty_true {V : Type} (d : gmap string V) : Py.is_empty d = true <-> d = ∅.
Proof.
  unfold Py.is_empty. rewrite <- map_to_list_empty_iff.
  destruct (map_to_list d); split; intros; congruence.
Qed.

Lemma is_empty_false {V : Type} (d : gmap string V) : Py.is_empty d = false <-> d ≠ ∅.
Proof.
  rewrite <- is_empty_true. destruct (Py.is_empty d); split; intros; congruence.
Qed.

Lemma count_keywords_from (content : string) (keywords : list string) (acc : Z) :
  (acc <=
   fold_left
     (fun acc word =>
        if Py.contains (Py.lower word) (Py.lower content) then acc + 1 else acc)
     keywords acc)%Z.
Proof.
  revert acc. induction keywords as [|w ws IH]; intros acc; simpl.
  - lia.
  - destruct (Py.contains (Py.lower w) (Py.lower content)).
    + specialize (IH (acc + 1)%Z). lia.
    + apply IH.
Qed.

Lemma count_keywords_nonneg (keywords : list string) (content : string) :
  (0 <= Py.count_keywords keywords content)%Z.
Proof. apply count_keywords_from. Qed.

End PyFacts.

(** ** Dimension aligner *)

Section Aligner.

Lemma content_tendency_range (h l : Z) :
  (0 <= h)%Z -> (0 <= l)%Z ->
  -1 <= Spec.content_tendency h l <= 1.
Proof.
  intros Hh Hl. unfold Spec.content_tendency.
  assert (Hd : 0 < inject_Z (Z.max 1 (h + l))).
  { change 0 with (inject_Z 0). rewrite <- Zlt_Qlt. lia. }
  split.
  - apply Qle_shift_div_l; [exact Hd|].
    change (-1) with (inject_Z (-1)). rewrite <- inject_Z_mult, <- Zle_Qle. lia.
  - apply Qle_shift_div_r; [exact Hd|].
    change 1 with (inject_Z 1). rewrite <- inject_Z_mult, <- Zle_Qle. lia.
Qed.

Lemma country_tendency_range (v : Q) :
  0 <= v <= 100 -> -1 <= Spec.country_tendency v <= 1.
Proof. unfold Spec.country_tendency. intros [H0 H1]. split; qlra. Qed.

(** The clamp at 0 is the identity when both tendencies are in [-1, 1]. *)
Lemma alignment_formula (ct cty : Q) :
  -1 <= ct <= 1 -> -1 <= cty <= 1 ->
  Qmax 0 (1 - Qabs (ct - cty) / 2) == 1 - Qabs (ct - cty) / 2
  /\ 0 <= 1 - Qabs (ct - cty) / 2 <= 1.
Proof.
  intros [Ha Hb] [Hc Hd].
  assert (Hn := Qabs_nonneg (ct - cty)).
  assert (Hu : Qabs (ct - cty) <= 2).
  { apply Qabs_Qle_condition. split; lra. }
  split; [|split; qlra].
  apply Q.max_r. qlra.
Qed.

Lemma analyze_unfold (d : Spec.dimension) (content : string) (v : Q) :
  Spec.analyze d content v
  = Qmax 0 (1 - Qabs (Spec.content_tendency_of d content - Spec.country_tendency v) / 2).
Proof. destruct d; reflexivity. Qed.

Lemma analyze_range (d : Spec.dimension) (content : string) (v : Q) :
  0 <= v <= 100 -> 0 <= Spec.analyze d content v <= 1.
Proof.
  intros Hv. rewrite analyze_unfold.
  destruct (alignment_formula (Spec.content_tendency_of d content)
              (Spec.country_tendency v)) as [E R].
  - apply content_tendency_range; apply count_keywords_nonneg.
  - apply country_tendency_range, Hv.
  - rewrite E. exact R.
Qed.

(** C1: for every text and every country value in [0,100], each of the
    six dimension analyses returns 1 - |contentTendency - countryTendency|/2,
    a value in [0,1]; it is exactly 1 when the two tendencies are equal and
    exactly 0 when they are +1 and -1. *)
Theorem C1_dimension_alignment (d : Spec.dimension) (content : string) (v : Q) :
  0 <= v <= 100 ->
  let ct := Spec.content_tendency_of d content in
  let cty := Spec.country_tendency v in
  Spec.analyze d content v == 1 - Qabs (ct - cty) / 2
  /\ 0 <= Spec.analyze d content v <= 1
  /\ (ct == cty -> Spec.analyze d content v == 1)
  /\ ((ct == 1 /\ cty == -1) \/ (ct == -1 /\ cty == 1) ->
      Spec.analyze d content v == 0).
Proof.
  intros Hv ct cty.
  assert (F : Spec.analyze d content v == 1 - Qabs (ct - cty) / 2).
  { rewrite analyze_unfold.
    apply alignment_formula.
    - apply content_tendency_range; apply count_keywords_nonneg.
    - apply country_tendency_range, Hv. }
  split; [exact F|]. split; [apply analyze_range, Hv|]. split.
  - intros E. rewrite F.
    assert (Z0 : ct - cty == 0) by lra.
    rewrite Z0. reflexivity.
  - intros [[E1 E2]|[E1 E2]]; rewrite F.
    + assert (Z2 : ct - cty == 2) by lra. rewrite Z2. reflexivity.
    + assert (Z2 : ct - cty == -2) by lra. rewrite Z2. reflexivity.
Qed.

(** Scenario 2 of the specification: "hierarchy" and "boss", PDI 80; then
    the same text at PDI 100 (equal tendencies) and at PDI 0 (opposite
    extremes). *)
Lemma C1_dimension_alignment_witness :
  0 <= 80 <= 100
  /\ Spec.content_tendency_of Spec.PowerDistance "hierarchy boss" == 1
  /\ Spec.country_tendency 80 == 0.6
  /\ Spec.analyze Spec.PowerDistance "hierarchy boss" 80 == 0.8
  /\ Spec.analyze Spec.PowerDistance "hierarchy boss" 100 == 1
  /\ Spec.analyze Spec.PowerDistance "hierarchy boss" 0 == 0.
Proof.
  assert (H80 : 0 <= 80 <= 100) by (split; lra).
  assert (H100 : 0 <= 100 <= 100) by (split; lra).
  assert (H0 : 0 <= 0 <= 100) by (split; lra).
  destruct (C1_dimension_alignment Spec.PowerDistance "hierarchy boss" 80 H80)
    as (F & _).
  destruct (C1_dimension_alignment Spec.PowerDistance "hierarchy boss" 100 H100)
    as (_ & _ & Heq & _).
  destruct (C1_dimension_alignment Spec.PowerDistance "hierarchy boss" 0 H0)
    as (_ & _ & _ & Hopp).
  split; [exact H80|].
  split; [vm_compute; reflexivity|].
  split; [vm_compute; reflexivity|].
  split; [rewrite F; vm_compute; reflexivity|].
  split.
  - apply Heq. vm_compute. reflexivity.
  - apply Hopp. left. split; vm_compute; reflexivity.
Defined.

End Aligner.

(** ** Cultural fit aggregator *)

Section Aggregator.

Lemma get_unit (d : gmap string Q) (dim : string) :
  Spec.unit_scores d -> 0 <= Py.get d dim 0.5 <= 1.
Proof.
  intros Hd. unfold Py.get.
  destruct (d !! dim) as [x|] eqn:E; simpl.
  - exact (Hd dim x E).
  - split; lra.
Qed.

Lemma cultural_score_empty :
  CulturalAnalyzer._calculate_cultural_score ∅ == 0.
Proof. reflexivity. Qed.

Lemma cultural_score_nonempty (d : gmap string Q) :
  d ≠ ∅ -> CulturalAnalyzer._calculate_cultural_score d == Spec.weighted_sum d.
Proof.
  intros Hne. unfold CulturalAnalyzer._calculate_cultural_score.
  apply is_empty_false in Hne. rewrite Hne.
  unfold Spec.weighted_sum, Py.sum, CulturalAnalyzer.weights. simpl. lra.
Qed.

Lemma weighted_sum_unit (d : gmap string Q) :
  Spec.unit_scores d -> 0 <= Spec.weighted_sum d <= 1.
Proof.
  intros Hd. unfold Spec.weighted_sum.
  pose proof (get_unit d "power_distance" Hd).
  pose proof (get_unit d "individualism" Hd).
  pose proof (get_unit d "masculinity" Hd).
  pose proof (get_unit d "uncertainty_avoidance" Hd).
  pose proof (get_unit d "long_term_orientation" Hd).
  pose proof (get_unit d "indulgence" Hd).
  split; lra.
Qed.

Lemma cultural_score_unit (d : gmap string Q) :
  Spec.unit_scores d -> 0 <= CulturalAnalyzer._calculate_cultural_score d <= 1.
Proof.
  intros Hd. destruct (Py.is_empty d) eqn:E.
  - unfold CulturalAnalyzer._calculate_cultural_score. rewrite E. split; lra.
  - apply is_empty_false in E. rewrite (cultural_score_nonempty d E).
    apply weighted_sum_unit, Hd.
Qed.

(** C4, as stated, fails on the empty mapping: the guard returns 0.0 where
    the weighted sum with every dimension at 0.5 is 0.5. *)
Lemma C4_empty_mapping_counterexample :
  CulturalAnalyzer._calculate_cultural_score ∅ == 0
  /\ Spec.weighted_sum ∅ == 0.5
  /\ ~ (forall d : gmap string Q,
          CulturalAnalyzer._calculate_cultural_score d == Spec.weighted_sum d).
Proof.
  split; [reflexivity|]. split; [reflexivity|].
  intros H. specialize (H ∅). vm_compute in H. discriminate H.
Qed.

(** C4 (amended): for every non-empty mapping of dimension names to scores,
    also one missing some of the six dimensions, the aggregation returns the
    weighted sum with weights 0.20, 0.25, 0.15, 0.20, 0.10, 0.10 and 0.5 for
    each missing dimension; for the empty mapping it returns 0.0; for scores
    in [0,1] the result lies in [0,1]. *)
Theorem C4_cultural_score (d : gmap string Q) :
  (d ≠ ∅ -> CulturalAnalyzer._calculate_cultural_score d == Spec.weighted_sum d)
  /\ (d = ∅ -> CulturalAnalyzer._calculate_cultural_score d == 0)
  /\ (Spec.unit_scores d -> 0 <= CulturalAnalyzer._calculate_cultural_score d <= 1).
Proof.
  split; [apply cultural_score_nonempty|]. split.
  - intros ->. apply cultural_score_empty.
  - apply cultural_score_unit.
Qed.

(** A mapping with a single dimension: the five others count as 0.5. *)
Lemma C4_cultural_score_witness :
  let d : gmap string Q := {[ "individualism" := 1 ]} in
  d ≠ ∅
  /\ Spec.unit_scores d
  /\ CulturalAnalyzer._calculate_cultural_score d == 0.625
  /\ 0 <= CulturalAnalyzer._calculate_cultural_score d <= 1
  /\ CulturalAnalyzer._calculate_cultural_score ∅ == 0.
Proof.
  intros d.
  assert (Hne : d ≠ ∅) by (apply is_empty_false; reflexivity).
  assert (Hu : Spec.unit_scores d).
  { intros dim x E. unfold d in E. apply lookup_singleton_Some in E.
    destruct E as [_ <-]. split; lra. }
  destruct (C4_cultural_score d) as (Hsum & _ & Hrange).
  destruct (C4_cultural_score ∅) as (_ & Hempty & _).
  split; [exact Hne|]. split; [exact Hu|]. split; [|split].
  - rewrite (Hsum Hne). reflexivity.
  - exact (Hrange Hu).
  - exact (Hempty eq_refl).
Defined.

(** The summary label, case by case. *)
Lemma summary_cases (content : string) (dimensions scores : gmap string Q)
    (country : string) :
  scores ≠ ∅ ->
  let s := CulturalAnalyzer._calculate_cultural_score scores in
  (0.8 < s /\ Spec.summary content dimensions scores country = Spec.excellent country)
  \/ (0.6 < s <= 0.8
      /\ Spec.summary content dimensions scores country = Spec.good country)
  \/ (s <= 0.6
      /\ Spec.summary content dimensions scores country = Spec.misaligned country).
Proof.
  intros Hne s. apply is_empty_false in Hne.
  unfold Spec.summary, CulturalAnalyzer._generate_insights. simpl.
  rewrite Hne. simpl. fold s.
  destruct (Py.gt s 0.8) eqn:E1.
  - left. apply gt_true in E1. split; [exact E1|reflexivity].
  - apply gt_false in E1. destruct (Py.gt s 0.6) eqn:E2.
    + right; left. apply gt_true in E2. split; [split; assumption|reflexivity].
    + right; right. apply gt_false in E2. split; [exact E2|reflexivity].
Qed.

Lemma labels_distinct (country : string) :
  Spec.excellent country ≠ Spec.good country
  /\ Spec.excellent country ≠ Spec.misaligned country
  /\ Spec.good country ≠ Spec.misaligned country.
Proof. repeat split; intros H; discriminate H. Qed.

(** C9, as stated, fails at both thresholds: an aggregated score of exactly
    0.8 gets the "good" label and a score of exactly 0.6 the misaligned one. *)
Lemma C9_threshold_counterexample :
  let at_08 : gmap string Q :=
    list_to_map [ ("power_distance", 1); ("individualism", 1); ("masculinity", 1);
                  ("uncertainty_avoidance", 1); ("long_term_orientation", 0);
                  ("indulgence", 0) ] in
  let at_06 : gmap string Q :=
    list_to_map [ ("power_distance", 1); ("individualism", 1); ("masculinity", 1);
                  ("uncertainty_avoidance", 0); ("long_term_orientation", 0);
                  ("indulgence", 0) ] in
  CulturalAnalyzer._calculate_cultural_score at_08 == 0.8
  /\ Spec.summary "" ∅ at_08 "US" = "Good cultural alignment with US"
  /\ CulturalAnalyzer._calculate_cultural_score at_06 == 0.6
  /\ Spec.summary "" ∅ at_06 "US" = "Cultural misalignment detected for US"
  /\ ~ (forall content dimensions scores country,
          0.8 <= CulturalAnalyzer._calculate_cultural_score scores ->
          Spec.summary content dimensions scores country = Spec.excellent country).
Proof.
  intros at_08 at_06.
  split; [reflexivity|]. split; [reflexivity|].
  split; [reflexivity|]. split; [reflexivity|].
  intros H. specialize (H "" ∅ at_08 "US").
  assert (Hs : 0.8 <= CulturalAnalyzer._calculate_cultural_score at_08).
  { vm_compute. discriminate. }
  specialize (H Hs). vm_compute in H. discriminate H.
Qed.

(** C9 (amended): for every analysed country (a non-empty score mapping) the
    summary is the "excellent" variant exactly when the aggregated score is
    strictly above 0.8, the "good" variant exactly when it is strictly above
    0.6 and at most 0.8, and the misaligned variant exactly when it is at
    most 0.6; so exactly 0.8 is labelled good and exactly 0.6 misaligned. *)
Theorem C9_alignment_summary (content : string) (dimensions scores : gmap string Q)
    (country : string) :
  scores ≠ ∅ ->
  let s := CulturalAnalyzer._calculate_cultural_score scores in
  let label := Spec.summary content dimensions scores country in
  (label = Spec.excellent country <-> 0.8 < s)
  /\ (label = Spec.good country <-> 0.6 < s <= 0.8)
  /\ (label = Spec.misaligned country <-> s <= 0.6).
Proof.
  intros Hne s label.
  destruct (labels_distinct country) as (D1 & D2 & D3).
  destruct (summary_cases content dimensions scores country Hne)
    as [[Hs Hl]|[[Hs Hl]|[Hs Hl]]]; fold s in Hs; fold label in Hl;
    rewrite Hl; repeat split; intros; try congruence; try lra;
    try (exfalso; (apply D1 + apply D2 + apply D3); congruence);
    try (exfalso; lra).
Qed.

Lemma C9_alignment_summary_witness :
  let scores : gmap string Q := {[ "individualism" := 1 ]} in
  scores ≠ ∅
  /\ Spec.summary "" ∅ scores "JP" = Spec.good "JP"
  /\ 0.6 < CulturalAnalyzer._calculate_cultural_score scores <= 0.8.
Proof.
  intros scores.
  assert (Hne : scores ≠ ∅) by (apply is_empty_false; reflexivity).
  split; [exact Hne|].
  destruct (C9_alignment_summary "" ∅ scores "JP" Hne) as (_ & Hgood & _).
  split; [reflexivity|]. apply Hgood. reflexivity.
Defined.

End Aggregator.

(** ** Bias pattern matcher: the cultural-assumption scan *)

Section AssumptionScan.

Import BiasDetector.

Lemma int_floor (x : Q) : 0 <= x -> Py.int x = Qfloor x.
Proof.
  destruct x as [n d]. unfold Qle, Py.int, Qfloor. simpl. intros H.
  apply Z.quot_div_nonneg; lia.
Qed.

Lemma severity_of_risky (r : Q) :
  0.6 < r ->
  _risk_to_severity r = Qfloor (r * 10) /\ (6 <= _risk_to_severity r)%Z.
Proof.
  intros Hr. unfold _risk_to_severity.
  rewrite int_floor by lra. split; [reflexivity|].
  change 6%Z with (Qfloor 6). apply Qfloor_resp_le. lra.
Qed.

(** The loop, started from any list of flags already collected. *)
Lemma assumption_loop (items : list (string * GeminiInsights)) (acc : list Flag) :
  Spec.numeric_risks items ->
  fold_left
    (fun acc '(country_, insights) =>
       match acc with
       | Raise e => Raise e
       | Ok assumption_flags =>
           match default (PyNum 0) (assumption_risk insights) with
           | PyStr _ => Raise TypeError
           | PyNum risk =>
               if Py.gt risk 0.6 then
                 Ok (assumption_flags ++
                     [ {| type := "cultural_assumption";
                          pattern := None;
                          matches := [];
                          country := Some country_;
                          risk_score := Some (PyNum risk);
                          description :=
                            default "" (assumption_description insights);
                          cultural_context := None;
                          severity := Some (_risk_to_severity risk) |} ])
               else Ok assumption_flags
           end
       end)
    items (Ok acc)
  = Ok (acc ++ map Spec.assumption_flag (List.filter Spec.risky items)).
Proof.
  intros Hnum. revert acc.
  induction Hnum as [|[c i] items Hi _ IH]; intros acc; simpl.
  - now rewrite app_nil_r.
  - unfold Spec.risky at 1, Spec.risk_of at 1. simpl in *.
    destruct (assumption_risk i) as [[r|s]|] eqn:E; simpl.
    + destruct (Py.gt r 0.6) eqn:G.
      * rewrite IH. f_equal. rewrite <- app_assoc. simpl. f_equal. f_equal.
        unfold Spec.assumption_flag, Spec.risk_of. simpl. rewrite E. reflexivity.
      * apply IH.
    + exfalso. exact (Hi s eq_refl).
    + change (Py.gt 0 0.6) with false. cbv iota. apply IH.
Qed.

Lemma assumption_scan_flags (content : string) (gemini_analysis : GeminiAnalysis) :
  Spec.numeric_risks (cultural_insights gemini_analysis) ->
  exists d,
    _detect_cultural_assumptions content gemini_analysis = Ok d
    /\ flags d
       = map Spec.assumption_flag
             (List.filter Spec.risky (cultural_insights gemini_analysis)).
Proof.
  intros Hnum. unfold _detect_cultural_assumptions.
  rewrite (assumption_loop _ [] Hnum). simpl. eexists. split; reflexivity.
Qed.

(** A risk that is a string makes the comparison, and so the scan, raise. *)
Lemma string_risk_raises :
  _detect_cultural_assumptions ""
    {| cultural_insights :=
         [ ("JP", {| assumption_risk := Some (PyStr "0.7");
                     assumption_description := Some "Assumes a shared calendar" |}) ] |}
  = Raise TypeError.
Proof. reflexivity. Qed.

(** C5, as stated, fails on the severity: a risk of 0.67 gives severity
    [int(6.7) = 6], where [round(6.7)] is 7. *)
Lemma C5_severity_counterexample :
  let signal :=
    {| cultural_insights :=
         [ ("JP", {| assumption_risk := Some (PyNum 0.67);
                     assumption_description := Some "Assumes a shared calendar" |}) ] |} in
  (exists d, _detect_cultural_assumptions "" signal = Ok d
             /\ map severity (flags d) = [Some 6%Z])
  /\ Spec.round (0.67 * 10) = 7%Z
  /\ _risk_to_severity 0.67 <> Spec.round (0.67 * 10).
Proof.
  intros signal. split; [|split].
  - eexists. split; reflexivity.
  - reflexivity.
  - vm_compute. discriminate.
Qed.

(** C5 (amended): for every external-signal record whose risks are numbers
    or missing, the scan returns normally with exactly one flag for each
    country whose assumption_risk exceeds 0.6, in order, carrying the
    provider's description and severity = int(assumption_risk * 10), the
    risk times ten truncated (at least 6); it emits no flag for a country
    whose risk is at most 0.6 or missing, and none at all when the signal
    has no per-country records. *)
Theorem C5_assumption_scan (content : string) (gemini_analysis : GeminiAnalysis) :
  Spec.numeric_risks (cultural_insights gemini_analysis) ->
  exists d,
    _detect_cultural_assumptions content gemini_analysis = Ok d
    /\ flags d
       = map Spec.assumption_flag
             (List.filter Spec.risky (cultural_insights gemini_analysis))
    /\ (forall f, In f (flags d) ->
          exists item,
            In item (cultural_insights gemini_analysis)
            /\ 0.6 < Spec.risk_of (snd item)
            /\ country f = Some (fst item)
            /\ description f = default "" (assumption_description (snd item))
            /\ severity f = Some (Qfloor (Spec.risk_of (snd item) * 10))
            /\ (6 <= Qfloor (Spec.risk_of (snd item) * 10))%Z)
    /\ (forall item, In item (cultural_insights gemini_analysis) ->
          Spec.risk_of (snd item) <= 0.6 ->
          ~ In (Spec.assumption_flag item) (flags d))
    /\ (cultural_insights gemini_analysis = [] ->
        flags d = [] /\ detected d = false).
Proof.
  intros Hnum.
  destruct (assumption_scan_flags content gemini_analysis Hnum) as (d & Hd & Hf).
  exists d. split; [exact Hd|]. split; [exact Hf|]. split; [|split].
  - intros f Hin. rewrite Hf in Hin. apply in_map_iff in Hin.
    destruct Hin as (item & <- & Hitem). apply filter_In in Hitem.
    destruct Hitem as [Hitem Hr]. apply gt_true in Hr.
    exists item. destruct (severity_of_risky _ Hr) as [Hs H6].
    unfold _risk_to_severity in Hs, H6.
    repeat split; try assumption; try reflexivity.
    + simpl. now rewrite Hs.
    + now rewrite <- Hs.
  - intros item Hitem Hr Hin. rewrite Hf in Hin. apply in_map_iff in Hin.
    destruct Hin as (item' & Heq & Hitem'). apply filter_In in Hitem'.
    destruct Hitem' as [_ Hr']. apply gt_true in Hr'.
    assert (E : Spec.risk_of (snd item') = Spec.risk_of (snd item)).
    { apply (f_equal risk_score) in Heq. simpl in Heq. congruence. }
    rewrite E in Hr'. lra.
  - intros Hnil. unfold _detect_cultural_assumptions in Hd.
    rewrite Hnil in Hd. simpl in Hd. injection Hd as <-. split; reflexivity.
Qed.

(** JP is risky, the default record (0.5) and a record with no risk are not. *)
Lemma C5_assumption_scan_witness :
  let signal :=
    {| cultural_insights :=
         [ ("JP", {| assumption_risk := Some (PyNum 0.67);
                     assumption_description := Some "Assumes a shared calendar" |});
           ("US", {| assumption_risk := Some (PyNum 0.5);
                     assumption_description := Some "Analysis unavailable" |});
           ("BR", {| assumption_risk := None; assumption_description := None |}) ] |} in
  Spec.numeric_risks (cultural_insights signal)
  /\ exists d,
       _detect_cultural_assumptions "" signal = Ok d
       /\ map country (flags d) = [Some "JP"]
       /\ map severity (flags d) = [Some 6%Z].
Proof.
  intros signal.
  assert (Hnum : Spec.numeric_risks (cultural_insights signal)).
  { repeat constructor; intros s; discriminate. }
  split; [exact Hnum|].
  destruct (C5_assumption_scan "" signal Hnum) as (d & Hd & Hf & _).
  exists d. split; [exact Hd|]. rewrite Hf. split; reflexivity.
Defined.

End AssumptionScan.

(** ** Alignment scorer *)

Section Scorer.

Import CulturalScorer.

Lemma clamp_range (x : Q) : 0 <= Qmax 0 (Qmin 1 x) <= 1.
Proof.
  destruct (Q.max_spec 0 (Qmin 1 x)) as [[H E]|[H E]];
    destruct (Q.min_spec 1 x) as [[H' E']|[H' E']]; split; lra.
Qed.

Lemma clamp_id (x : Q) : 0 <= x <= 1 -> Qmax 0 (Qmin 1 x) == x.
Proof.
  intros [H0 H1].
  destruct (Q.max_spec 0 (Qmin 1 x)) as [[H E]|[H E]];
    destruct (Q.min_spec 1 x) as [[H' E']|[H' E']]; lra.
Qed.

Lemma penalty_fold (flags : list BiasDetector.Flag) (a : Q) :
  fold_left
    (fun total_penalty flag =>
       let severity := default 5%Z (BiasDetector.severity flag) in
       let penalty := (inject_Z severity / 10) * 0.1 in
       total_penalty + penalty)
    flags a
  == a + Spec.penalty_sum flags.
Proof.
  revert a. induction flags as [|f fs IH]; intros a.
  - simpl. unfold Spec.penalty_sum, Py.sum. simpl. lra.
  - simpl. rewrite IH. unfold Spec.penalty_sum. simpl map.
    rewrite sum_cons. unfold Spec.severity_of. lra.
Qed.

Lemma bias_penalty_formula (bias_results : BiasResults) :
  _calculate_bias_penalty bias_results
  == Qmin 0.8 (Spec.penalty_sum (flags bias_results)).
Proof.
  unfold _calculate_bias_penalty.
  destruct (flags bias_results) as [|f fs] eqn:E.
  - reflexivity.
  - rewrite penalty_fold.
    apply Q.min_compat; [reflexivity|lra].
Qed.

Lemma penalty_sum_app (xs ys : list BiasDetector.Flag) :
  Spec.penalty_sum (xs ++ ys) == Spec.penalty_sum xs + Spec.penalty_sum ys.
Proof. unfold Spec.penalty_sum. rewrite map_app. apply sum_app. Qed.

Lemma penalty_sum_single (f : BiasDetector.Flag) :
  Spec.penalty_sum [f] == inject_Z (Spec.severity_of f) / 10 * 0.1.
Proof. unfold Spec.penalty_sum, Py.sum. simpl. lra. Qed.

Lemma penalty_term_mono (a b : Z) :
  (a <= b)%Z -> inject_Z a / 10 * 0.1 <= inject_Z b / 10 * 0.1.
Proof. intros H. rewrite Zle_Qle in H. qlra. Qed.

Lemma penalty_sum_nonneg (flags : list BiasDetector.Flag) :
  Spec.nonneg_severities flags -> 0 <= Spec.penalty_sum flags.
Proof.
  induction 1 as [|f fs Hf _ IH].
  - unfold Spec.penalty_sum, Py.sum. simpl. lra.
  - change (f :: fs) with ([f] ++ fs). rewrite penalty_sum_app, penalty_sum_single.
    pose proof (penalty_term_mono 0 _ Hf) as H0.
    change (inject_Z 0 / 10 * 0.1) with (0 / 10 * 0.1) in H0. qlra.
Qed.

Lemma bias_penalty_range (bias_results : BiasResults) :
  _calculate_bias_penalty bias_results <= 0.8
  /\ (Spec.nonneg_severities (flags bias_results) ->
      0 <= _calculate_bias_penalty bias_results).
Proof.
  rewrite bias_penalty_formula. split.
  - apply Q.le_min_l.
  - intros H. apply penalty_sum_nonneg in H.
    apply Q.min_glb; lra.
Qed.

(** What the loop of [calculate_alignment] leaves behind, from any state. *)
Lemma alignment_fold (bias_results : BiasResults)
    (cultural_analysis : CulturalAnalyzer.CulturalAnalysis)
    (countries : list string) (state : AlignmentResults * list Q) :
  let state' := fold_left (alignment_step bias_results cultural_analysis)
                          countries state in
  snd state'
  = snd state ++ map (Spec.final_score bias_results cultural_analysis) countries
  /\ overall_score (fst state') = overall_score (fst state)
  /\ forall c,
       country_scores (fst state') !! c
       = (if decide (c ∈ countries)
          then Some (_calculate_country_score c bias_results cultural_analysis)
          else country_scores (fst state) !! c)
       /\ confidence (fst state') !! c
          = (if decide (c ∈ countries)
             then Some (_calculate_confidence_interval c
                          (_calculate_country_score c bias_results cultural_analysis)
                          cultural_analysis)
             else confidence (fst state) !! c)
       /\ score_breakdown (fst state') !! c
          = (if decide (c ∈ countries)
             then Some (_get_score_breakdown c bias_results cultural_analysis)
             else score_breakdown (fst state) !! c).
Proof.
  revert state. induction countries as [|c0 cs IH]; intros [ar l].
  - cbn [fold_left fst snd map]. split; [now rewrite app_nil_r|].
    split; [reflexivity|].
    intros c. rewrite !decide_False by apply not_elem_of_nil. auto.
  - simpl fold_left.
    specialize (IH (alignment_step bias_results cultural_analysis (ar, l) c0)).
    simpl in IH. destruct IH as (Hl & Ho & Hm).
    split; [|split].
    + rewrite Hl. simpl. now rewrite <- app_assoc.
    + rewrite Ho. reflexivity.
    + intros c. destruct (Hm c) as (H1 & H2 & H3).
      rewrite H1, H2, H3. simpl.
      destruct (decide (c ∈ cs)) as [Hin|Hnin].
      * rewrite !decide_True by (apply elem_of_cons; auto). auto.
      * destruct (decide (c = c0)) as [->|Hne].
        -- rewrite !decide_True by (apply elem_of_cons; auto).
           rewrite !lookup_insert_eq. auto.
        -- rewrite !decide_False
             by (intros [?|?]%elem_of_cons; congruence).
           rewrite !lookup_insert_ne by congruence. auto.
Qed.

Lemma alignment_lookup (bias_results : BiasResults)
    (cultural_analysis : CulturalAnalyzer.CulturalAnalysis)
    (countries : list string) (c : string) :
  c ∈ countries ->
  let ar := calculate_alignment bias_results cultural_analysis countries in
  country_scores ar !! c
  = Some (_calculate_country_score c bias_results cultural_analysis)
  /\ confidence ar !! c
     = Some (_calculate_confidence_interval c
               (_calculate_country_score c bias_results cultural_analysis)
               cultural_analysis)
  /\ score_breakdown ar !! c
     = Some (_get_score_breakdown c bias_results cultural_analysis).
Proof.
  intros Hin. unfold calculate_alignment.
  pose proof (alignment_fold bias_results cultural_analysis countries
    ({| overall_score := 0; country_scores := ∅; confidence := ∅;
        score_breakdown := ∅ |}, [])) as H.
  cbv zeta in H. destruct (fold_left _ countries _) as [ar l].
  cbn [fst snd] in H. destruct H as (_ & _ & Hm). destruct (Hm c) as (H1 & H2 & H3).
  rewrite decide_True in H1 by exact Hin.
  rewrite decide_True in H2 by exact Hin.
  rewrite decide_True in H3 by exact Hin.
  destruct l; cbn [country_scores confidence score_breakdown]; auto.
Qed.

Lemma alignment_overall (bias_results : BiasResults)
    (cultural_analysis : CulturalAnalyzer.CulturalAnalysis)
    (countries : list string) :
  overall_score (calculate_alignment bias_results cultural_analysis countries)
  = match countries with
    | [] => 0
    | _ :: _ =>
        Py.mean (map (Spec.final_score bias_results cultural_analysis) countries)
    end.
Proof.
  unfold calculate_alignment.
  pose proof (alignment_fold bias_results cultural_analysis countries
    ({| overall_score := 0; country_scores := ∅; confidence := ∅;
        score_breakdown := ∅ |}, [])) as H.
  cbv zeta in H. destruct (fold_left _ countries _) as [ar l].
  cbn [fst snd app] in H. destruct H as (Hl & Ho & _). subst l.
  destruct countries; cbn [map overall_score]; [exact Ho|reflexivity].
Qed.

End Scorer.

(** ** The analyzer's output, as the scorer receives it *)

Section AnalyzerOutput.

Import CulturalAnalyzer.

(** Every value of the static table lies in [0,100]. *)
Lemma hofstede_values (country : string) (dimensions : gmap string Q)
    (code : string) (v : Q) :
  hofstede_data !! country = Some dimensions ->
  dimensions !! code = Some v ->
  0 <= v <= 100.
Proof.
  intros Hc Hd. unfold hofstede_data, _load_hofstede_data in Hc.
  apply elem_of_list_to_map_2 in Hc.
  repeat (apply elem_of_cons in Hc; destruct Hc as [Hc|Hc];
          [injection Hc as _ ->;
           repeat (apply lookup_insert_Some in Hd;
                   destruct Hd as [[_ <-]|[_ Hd]]; [split; lra|]);
           rewrite lookup_empty in Hd; discriminate Hd|]).
  apply elem_of_nil in Hc. contradiction.
Qed.

Lemma dimension_value (country : string) (dimensions : gmap string Q) (code : string) :
  hofstede_data !! country = Some dimensions ->
  0 <= Py.get dimensions code 50 <= 100.
Proof.
  intros Hc. unfold Py.get.
  destruct (dimensions !! code) as [v|] eqn:E; simpl.
  - exact (hofstede_values country dimensions code v Hc E).
  - split; lra.
Qed.

Lemma analyze_dimensions_unit (content country : string) (dimensions : gmap string Q) :
  hofstede_data !! country = Some dimensions ->
  Spec.unit_scores (_analyze_dimensions content dimensions country).
Proof.
  intros Hc dim x Hx. unfold _analyze_dimensions in Hx.
  pose proof (fun d code =>
    analyze_range d content _ (dimension_value country dimensions code Hc)) as R.
  apply lookup_insert_Some in Hx. destruct Hx as [[_ <-]|[_ Hx]];
    [exact (R Spec.Indulgence "IVR")|].
  apply lookup_insert_Some in Hx. destruct Hx as [[_ <-]|[_ Hx]];
    [exact (R Spec.LongTermOrientation "LTO")|].
  apply lookup_insert_Some in Hx. destruct Hx as [[_ <-]|[_ Hx]];
    [exact (R Spec.UncertaintyAvoidance "UAI")|].
  apply lookup_insert_Some in Hx. destruct Hx as [[_ <-]|[_ Hx]];
    [exact (R Spec.Masculinity "MAS")|].
  apply lookup_insert_Some in Hx. destruct Hx as [[_ <-]|[_ Hx]];
    [exact (R Spec.Individualism "IDV")|].
  apply lookup_insert_Some in Hx. destruct Hx as [[_ <-]|[_ Hx]];
    [exact (R Spec.PowerDistance "PDI")|].
  rewrite lookup_empty in Hx. discriminate Hx.
Qed.

(** Every cultural score the analyzer stores lies in [0,1]. *)
Lemma analyzer_scores_unit (content : string) (countries : list string)
    (industry : string) :
  Spec.unit_scores (cultural_scores (analyze_cultural_fit content countries industry)).
Proof.
  unfold analyze_cultural_fit.
  set (init := {| cultural_scores := ∅; dimension_analysis := ∅; insights := ∅;
                  suggestions := ∅; industry_context := industry |}).
  assert (Hinit : Spec.unit_scores (cultural_scores init)).
  { intros c x Hx. simpl in Hx. rewrite lookup_empty in Hx. discriminate Hx. }
  revert Hinit. generalize init. clear init.
  induction countries as [|c0 cs IH]; intros st Hst; simpl.
  - exact Hst.
  - apply IH.
    destruct (Py.is_empty (Py.get hofstede_data c0 ∅)) eqn:E; [exact Hst|].
    intros c x Hx. simpl in Hx.
    apply lookup_insert_Some in Hx. destruct Hx as [[_ <-]|[_ Hx]].
    + apply cultural_score_unit.
      unfold Py.get in *.
      destruct (hofstede_data !! c0) as [dims|] eqn:Hc; simpl in *.
      * exact (analyze_dimensions_unit content c0 dims Hc).
      * discriminate E.
    + exact (Hst c x Hx).
Qed.

Lemma analyzer_fit_at_most_one (content : string) (countries : list string)
    (industry : string) :
  Spec.fit_at_most_one (analyze_cultural_fit content countries industry).
Proof.
  intros c x Hx. exact (proj2 (analyzer_scores_unit content countries industry c x Hx)).
Qed.

End AnalyzerOutput.

(** ** Bias penalty, final score, confidence interval, overall mean *)

Section ScorerClaims.

Import CulturalScorer.

(** C2: the bias penalty is min(0.8, sum over all flags of
    (severity/10) * 0.1); it does not decrease when a flag is appended or
    when one flag's severity increases, it never exceeds 0.8, and every
    country of a request gets the same penalty, the sum ranging over all
    flags. *)
Theorem C2_bias_penalty (bias_results : BiasResults) :
  _calculate_bias_penalty bias_results
  == Qmin 0.8 (Spec.penalty_sum (flags bias_results))
  /\ _calculate_bias_penalty bias_results <= 0.8
  /\ (forall flag,
        (0 <= Spec.severity_of flag)%Z ->
        _calculate_bias_penalty bias_results
        <= _calculate_bias_penalty {| flags := flags bias_results ++ [flag] |})
  /\ (forall before flag flag' after,
        flags bias_results = before ++ flag :: after ->
        (Spec.severity_of flag <= Spec.severity_of flag')%Z ->
        _calculate_bias_penalty bias_results
        <= _calculate_bias_penalty {| flags := before ++ flag' :: after |})
  /\ (forall cultural_analysis countries c,
        c ∈ countries ->
        exists b,
          score_breakdown (calculate_alignment bias_results cultural_analysis countries)
            !! c = Some b
          /\ bias_penalty b = _calculate_bias_penalty bias_results).
Proof.
  split; [apply bias_penalty_formula|].
  split; [apply bias_penalty_range|].
  split; [|split].
  - intros flag Hf. rewrite !bias_penalty_formula. simpl flags.
    apply Q.min_le_compat_l.
    rewrite penalty_sum_app, penalty_sum_single.
    pose proof (penalty_term_mono 0 _ Hf) as H0.
    change (inject_Z 0 / 10 * 0.1) with (0 / 10 * 0.1) in H0. qlra.
  - intros before flag flag' after E Hle. rewrite !bias_penalty_formula.
    rewrite E. simpl flags. apply Q.min_le_compat_l.
    change (flag :: after) with ([flag] ++ after).
    change (flag' :: after) with ([flag'] ++ after).
    rewrite !penalty_sum_app, !penalty_sum_single.
    pose proof (penalty_term_mono _ _ Hle). lra.
  - intros cultural_analysis countries c Hin.
    destruct (alignment_lookup bias_results cultural_analysis countries c Hin)
      as (_ & _ & Hb).
    eexists. split; [exact Hb|reflexivity].
Qed.

Lemma C2_bias_penalty_witness :
  let flag (n : Z) :=
    {| BiasDetector.type := "stereotype"; BiasDetector.pattern := None;
       BiasDetector.matches := ["exotic"]; BiasDetector.country := None;
       BiasDetector.risk_score := None;
       BiasDetector.description := "Potentially offensive cultural descriptors";
       BiasDetector.cultural_context := None; BiasDetector.severity := Some n |} in
  let ar := calculate_alignment {| flags := [flag 8%Z] |} sample_analysis
                                ["US"; "JP"] in
  _calculate_bias_penalty {| flags := [flag 8%Z] |} == 0.08
  /\ _calculate_bias_penalty {| flags := [flag 8%Z] |}
     <= _calculate_bias_penalty {| flags := [flag 8%Z; flag 7%Z] |}
  /\ _calculate_bias_penalty {| flags := [flag 7%Z] |}
     <= _calculate_bias_penalty {| flags := [flag 8%Z] |}
  /\ (bias_penalty <$> score_breakdown ar !! "US")
     = (bias_penalty <$> score_breakdown ar !! "JP").
Proof.
  intros flag ar.
  destruct (C2_bias_penalty {| flags := [flag 8%Z] |})
    as (_ & _ & Happ & _ & Hsame).
  destruct (C2_bias_penalty {| flags := [flag 7%Z] |}) as (_ & _ & _ & Hsev & _).
  split; [reflexivity|]. split; [|split].
  - apply (Happ (flag 7%Z)). vm_compute. discriminate.
  - apply (Hsev [] (flag 7%Z) (flag 8%Z) []); [reflexivity|].
    vm_compute. discriminate.
  - destruct (Hsame sample_analysis ["US"; "JP"] "US") as (b1 & E1 & P1);
      [apply elem_of_cons; left; reflexivity|].
    destruct (Hsame sample_analysis ["US"; "JP"] "JP") as (b2 & E2 & P2);
      [apply elem_of_cons; right; apply elem_of_cons; left; reflexivity|].
    fold ar in E1, E2. rewrite E1, E2. simpl. now rewrite P1, P2.
Defined.

Lemma fit_range (country : string)
    (cultural_analysis : CulturalAnalyzer.CulturalAnalysis) :
  Spec.fit_at_most_one cultural_analysis ->
  _get_cultural_fit_score country cultural_analysis <= 1.
Proof.
  intros H. unfold _get_cultural_fit_score, Py.get.
  destruct (CulturalAnalyzer.cultural_scores cultural_analysis !! country)
    as [x|] eqn:E; simpl.
  - exact (H country x E).
  - lra.
Qed.

Lemma bonus_range (country : string)
    (cultural_analysis : CulturalAnalyzer.CulturalAnalysis) :
  0 <= _calculate_confidence_bonus country cultural_analysis <= 0.10.
Proof.
  unfold _calculate_confidence_bonus.
  destruct (Py.mem country hofstede_data);
    destruct (Py.mem country (CulturalAnalyzer.cultural_scores cultural_analysis));
    split; lra.
Qed.

Lemma country_score_unfold (country : string) (bias_results : BiasResults)
    (cultural_analysis : CulturalAnalyzer.CulturalAnalysis) :
  _calculate_country_score country bias_results cultural_analysis
  = Qmax 0 (Qmin 1
      (_get_cultural_fit_score country cultural_analysis * 0.7
       + (1 - _calculate_bias_penalty bias_results) * 0.25
       + _calculate_confidence_bonus country cultural_analysis * 0.05)).
Proof. reflexivity. Qed.

Lemma country_score_range (country : string) (bias_results : BiasResults)
    (cultural_analysis : CulturalAnalyzer.CulturalAnalysis) :
  0 <= _calculate_country_score country bias_results cultural_analysis <= 1.
Proof. rewrite country_score_unfold. apply clamp_range. Qed.

Lemma country_score_bound (country : string) (bias_results : BiasResults)
    (cultural_analysis : CulturalAnalyzer.CulturalAnalysis) :
  Spec.nonneg_severities (flags bias_results) ->
  Spec.fit_at_most_one cultural_analysis ->
  let base :=
    _get_cultural_fit_score country cultural_analysis * 0.7
    + (1 - _calculate_bias_penalty bias_results) * 0.25
    + _calculate_confidence_bonus country cultural_analysis * 0.05 in
  base <= 0.955
  /\ Qmin 1 base == base
  /\ _calculate_country_score country bias_results cultural_analysis <= 0.955.
Proof.
  intros Hs Hf base.
  pose proof (fit_range country cultural_analysis Hf) as H1.
  pose proof (proj2 (bias_penalty_range bias_results) Hs) as H2.
  pose proof (bonus_range country cultural_analysis) as H3.
  assert (Hb : base <= 0.955) by (unfold base; lra).
  split; [exact Hb|]. split.
  - apply Q.min_r. lra.
  - rewrite country_score_unfold. fold base.
    destruct (Q.max_spec 0 (Qmin 1 base)) as [[H E]|[H E]];
      destruct (Q.min_spec 1 base) as [[H' E']|[H' E']]; lra.
Qed.

(** C10, as stated for any flags and any cultural analysis, fails: an
    analysis that stores a cultural score of 5 makes the upper clamp act and
    the final score is 1; a flag of severity -3 gives the penalty -0.03 and,
    with a perfect fit, the final score 0.9625. *)
Lemma C10_any_input_counterexample :
  let analysis_with (x : Q) :=
    {| CulturalAnalyzer.cultural_scores := {[ "US" := x ]};
       CulturalAnalyzer.dimension_analysis := ∅;
       CulturalAnalyzer.insights := ∅;
       CulturalAnalyzer.suggestions := ∅;
       CulturalAnalyzer.industry_context := "general" |} in
  let negative :=
    {| flags :=
         [ {| BiasDetector.type := "stereotype";
              BiasDetector.pattern := None;
              BiasDetector.matches := [];
              BiasDetector.country := None;
              BiasDetector.risk_score := None;
              BiasDetector.description := "";
              BiasDetector.cultural_context := None;
              BiasDetector.severity := Some (-3)%Z |} ] |} in
  let base :=
    _get_cultural_fit_score "US" (analysis_with 5) * 0.7
    + (1 - _calculate_bias_penalty {| flags := [] |}) * 0.25
    + _calculate_confidence_bonus "US" (analysis_with 5) * 0.05 in
  base == 3.755
  /\ ~ Qmin 1 base == base
  /\ Spec.final_score {| flags := [] |} (analysis_with 5) "US" == 1
  /\ _calculate_bias_penalty negative == -0.03
  /\ Spec.final_score negative (analysis_with 1) "US" == 0.9625
  /\ ~ (forall country bias_results cultural_analysis,
          Spec.final_score bias_results cultural_analysis country <= 0.955).
Proof.
  intros analysis_with negative base.
  split; [vm_compute; reflexivity|].
  split; [intros H; vm_compute in H; discriminate H|].
  split; [vm_compute; reflexivity|].
  split; [vm_compute; reflexivity|].
  split; [vm_compute; reflexivity|].
  intros H. specialize (H "US" {| flags := [] |} (analysis_with 5)).
  vm_compute in H. apply H. reflexivity.
Qed.

(** C10 (amended): with severities that are not negative and cultural
    scores at most 1, each per-country final score is at most 0.955: the
    cultural-fit term is at most 0.70, the bias-freedom term at most 0.25,
    the confidence bonus at most 0.10 * 0.05 = 0.005, and the upper clamp at
    1.0 never acts. *)
Theorem C10_final_score_bound (country : string) (bias_results : BiasResults)
    (cultural_analysis : CulturalAnalyzer.CulturalAnalysis) :
  Spec.nonneg_severities (flags bias_results) ->
  Spec.fit_at_most_one cultural_analysis ->
  let fit := _get_cultural_fit_score country cultural_analysis in
  let penalty := _calculate_bias_penalty bias_results in
  let bonus := _calculate_confidence_bonus country cultural_analysis in
  let base := fit * 0.7 + (1 - penalty) * 0.25 + bonus * 0.05 in
  fit * 0.7 <= 0.70
  /\ (1 - penalty) * 0.25 <= 0.25
  /\ bonus <= 0.10
  /\ bonus * 0.05 <= 0.005
  /\ Qmin 1 base == base
  /\ Spec.final_score bias_results cultural_analysis country <= 0.955.
Proof.
  intros Hs Hf fit penalty bonus base.
  pose proof (fit_range country cultural_analysis Hf) as H1.
  pose proof (proj2 (bias_penalty_range bias_results) Hs) as H2.
  pose proof (bonus_range country cultural_analysis) as H3.
  destruct (country_score_bound country bias_results cultural_analysis Hs Hf)
    as (_ & Hclamp & Hscore).
  fold fit penalty bonus in H1, H2, H3.
  repeat split; try lra; assumption.
Qed.

(** The bound on the scores of a whole request, the cultural analysis being
    the analyzer's own output. *)
Lemma request_score_bound (content industry : string) (countries : list string)
    (bias_results : BiasResults) (country : string) :
  Spec.nonneg_severities (flags bias_results) ->
  Spec.final_score bias_results
    (CulturalAnalyzer.analyze_cultural_fit content countries industry) country
  <= 0.955.
Proof.
  intros Hs.
  apply country_score_bound; [exact Hs|apply analyzer_fit_at_most_one].
Qed.

(** The bound is reached: a perfect fit with no flags. *)
Lemma final_score_bound_reached :
  Spec.final_score {| flags := [] |}
    {| CulturalAnalyzer.cultural_scores := {[ "US" := 1 ]};
       CulturalAnalyzer.dimension_analysis := ∅;
       CulturalAnalyzer.insights := ∅;
       CulturalAnalyzer.suggestions := ∅;
       CulturalAnalyzer.industry_context := "general" |} "US"
  == 0.955.
Proof. reflexivity. Qed.

(** A perfect fit with one flag of severity 8. *)
Lemma C10_final_score_bound_witness :
  let cultural_analysis :=
    {| CulturalAnalyzer.cultural_scores := {[ "US" := 1 ]};
       CulturalAnalyzer.dimension_analysis := ∅;
       CulturalAnalyzer.insights := ∅;
       CulturalAnalyzer.suggestions := ∅;
       CulturalAnalyzer.industry_context := "general" |} in
  let bias_results := {| flags := [exotic_flag] |} in
  Spec.nonneg_severities (flags bias_results)
  /\ Spec.fit_at_most_one cultural_analysis
  /\ Spec.final_score bias_results cultural_analysis "US" == 0.935
  /\ Spec.final_score bias_results cultural_analysis "US" <= 0.955.
Proof.
  intros cultural_analysis bias_results.
  assert (Hs : Spec.nonneg_severities (flags bias_results)).
  { repeat constructor. vm_compute. discriminate. }
  assert (Hf : Spec.fit_at_most_one cultural_analysis).
  { intros c x E. simpl in E. apply lookup_singleton_Some in E.
    destruct E as [_ <-]. lra. }
  split; [exact Hs|]. split; [exact Hf|]. split; [vm_compute; reflexivity|].
  exact (proj2 (proj2 (proj2 (proj2 (proj2
    (C10_final_score_bound "US" bias_results cultural_analysis Hs Hf)))))).
Defined.

End ScorerClaims.

Section IntervalAndMean.

Import CulturalScorer.

Lemma margin_cases (country : string) (score : Q)
    (cultural_analysis : CulturalAnalyzer.CulturalAnalysis) :
  let q := _assess_data_quality country cultural_analysis in
  let m := margin_of_error
             (_calculate_confidence_interval country score cultural_analysis) in
  (0.8 < q /\ m == 1.96 * 0.05)
  \/ (0.6 < q <= 0.8 /\ m == 1.96 * 0.10)
  \/ (q <= 0.6 /\ m == 1.96 * 0.15).
Proof.
  intros q m. unfold m, _calculate_confidence_interval. simpl. fold q.
  destruct (Py.gt q 0.8) eqn:E1.
  - left. apply gt_true in E1. split; [exact E1|reflexivity].
  - apply gt_false in E1. destruct (Py.gt q 0.6) eqn:E2.
    + right; left. apply gt_true in E2. split; [split; assumption|reflexivity].
    + right; right. apply gt_false in E2. split; [exact E2|reflexivity].
Qed.

Lemma margin_positive (country : string) (score : Q)
    (cultural_analysis : CulturalAnalyzer.CulturalAnalysis) :
  0 < margin_of_error (_calculate_confidence_interval country score cultural_analysis).
Proof.
  destruct (margin_cases country score cultural_analysis)
    as [[_ E]|[[_ E]|[_ E]]]; rewrite E; reflexivity.
Qed.

Lemma interval_order (country : string) (score : Q)
    (cultural_analysis : CulturalAnalyzer.CulturalAnalysis) :
  0 <= score <= 1 ->
  let ci := _calculate_confidence_interval country score cultural_analysis in
  0 <= lower_bound ci <= score /\ score <= upper_bound ci <= 1.
Proof.
  intros [H0 H1] ci.
  pose proof (margin_positive country score cultural_analysis) as Hm.
  unfold ci, _calculate_confidence_interval in *. simpl in *.
  set (m := 1.96 * _) in *.
  destruct (Q.max_spec 0 (score - m)) as [[H E]|[H E]];
    destruct (Q.min_spec 1 (score + m)) as [[H' E']|[H' E']];
    repeat split; lra.
Qed.

(** C6: the standard error is 0.05 for a data quality above 0.8, 0.10 above
    0.6 and 0.15 otherwise; margin_of_error = 1.96 * std_error, lower_bound =
    max(0, s - margin), upper_bound = min(1, s + margin); so for a score in
    [0,1], as every final score is, 0 <= lower_bound <= s <= upper_bound <= 1,
    and a side is clamped only when its unclamped value leaves [0,1]: for
    s = 0.97 with std_error 0.15 the interval is [0.676, 1]. *)
Theorem C6_confidence_interval (country : string) (score : Q)
    (cultural_analysis : CulturalAnalyzer.CulturalAnalysis) :
  let ci := _calculate_confidence_interval country score cultural_analysis in
  let q := _assess_data_quality country cultural_analysis in
  let m := margin_of_error ci in
  data_quality ci = q
  /\ (0.8 < q -> m == 1.96 * 0.05)
  /\ (0.6 < q <= 0.8 -> m == 1.96 * 0.10)
  /\ (q <= 0.6 -> m == 1.96 * 0.15)
  /\ lower_bound ci = Qmax 0 (score - m)
  /\ upper_bound ci = Qmin 1 (score + m)
  /\ (0 <= score <= 1 ->
      0 <= lower_bound ci <= score /\ score <= upper_bound ci <= 1)
  /\ (forall bias_results,
        let s := Spec.final_score bias_results cultural_analysis country in
        let ci' := _calculate_confidence_interval country s cultural_analysis in
        0 <= lower_bound ci' <= s /\ s <= upper_bound ci' <= 1)
  /\ (0 <= score - m -> lower_bound ci == score - m)
  /\ (score + m <= 1 -> upper_bound ci == score + m)
  /\ (q <= 0.6 -> score == 0.97 ->
      lower_bound ci == 0.676 /\ upper_bound ci == 1).
Proof.
  intros ci q m.
  pose proof (margin_cases country score cultural_analysis) as Hc.
  fold q in Hc. fold ci in Hc. fold m in Hc.
  assert (Hl : lower_bound ci = Qmax 0 (score - m)) by reflexivity.
  assert (Hu : upper_bound ci = Qmin 1 (score + m)) by reflexivity.
  split; [reflexivity|].
  split; [intros; destruct Hc as [[? ?]|[[? ?]|[? ?]]]; lra|].
  split; [intros; destruct Hc as [[? ?]|[[? ?]|[? ?]]]; lra|].
  split; [intros; destruct Hc as [[? ?]|[[? ?]|[? ?]]]; lra|].
  split; [exact Hl|]. split; [exact Hu|].
  split; [apply interval_order|].
  split; [intros bias_results s ci'; apply interval_order, country_score_range|].
  split; [|split].
  - intros H. rewrite Hl. apply Q.max_r. exact H.
  - intros H. rewrite Hu. apply Q.min_r. exact H.
  - intros Hq Hs. rewrite Hl, Hu.
    assert (Hm : m == 1.96 * 0.15)
      by (destruct Hc as [[? ?]|[[? ?]|[? ?]]]; lra).
    destruct (Q.max_spec 0 (score - m)) as [[H E]|[H E]];
      destruct (Q.min_spec 1 (score + m)) as [[H' E']|[H' E']];
      split; lra.
Qed.

(** A country without any data: quality 0, standard error 0.15.  US in
    the sample analysis: quality 0.7, standard error 0.10, nothing clamped. *)
Lemma C6_confidence_interval_witness :
  let cultural_analysis :=
    {| CulturalAnalyzer.cultural_scores := ∅;
       CulturalAnalyzer.dimension_analysis := ∅;
       CulturalAnalyzer.insights := ∅;
       CulturalAnalyzer.suggestions := ∅;
       CulturalAnalyzer.industry_context := "general" |} in
  let ci := _calculate_confidence_interval "ZZ" 0.97 cultural_analysis in
  let ci_us := _calculate_confidence_interval "US" 0.725 sample_analysis in
  _assess_data_quality "ZZ" cultural_analysis <= 0.6
  /\ 0 <= 0.97 <= 1
  /\ lower_bound ci == 0.676 /\ upper_bound ci == 1
  /\ 0 <= lower_bound ci <= 0.97 /\ 0.97 <= upper_bound ci <= 1
  /\ ~ (0.97 - lower_bound ci == upper_bound ci - 0.97)
  /\ 0.6 < _assess_data_quality "US" sample_analysis <= 0.8
  /\ margin_of_error ci_us == 0.196
  /\ lower_bound ci_us == 0.529 /\ upper_bound ci_us == 0.921.
Proof.
  intros cultural_analysis ci ci_us.
  assert (Hq : _assess_data_quality "ZZ" cultural_analysis <= 0.6)
    by (vm_compute; discriminate).
  assert (Hs : 0 <= 0.97 <= 1) by (split; lra).
  assert (Hq' : 0.6 < _assess_data_quality "US" sample_analysis <= 0.8)
    by (split; vm_compute; [reflexivity|discriminate]).
  destruct (C6_confidence_interval "ZZ" 0.97 cultural_analysis)
    as (_ & _ & _ & _ & _ & _ & Horder & _ & _ & _ & Hasym).
  destruct (C6_confidence_interval "US" 0.725 sample_analysis)
    as (_ & _ & Hmid & _ & _ & _ & _ & _ & Hlow & Hup & _).
  destruct (Hasym Hq (Qeq_refl _)) as [Hl Hu].
  destruct (Horder Hs) as [Ho1 Ho2].
  fold ci_us in Hmid, Hlow, Hup.
  split; [exact Hq|]. split; [exact Hs|].
  split; [exact Hl|]. split; [exact Hu|].
  split; [exact Ho1|]. split; [exact Ho2|].
  split; [fold ci in Hl, Hu; rewrite Hl, Hu; vm_compute; discriminate|].
  split; [exact Hq'|].
  split; [rewrite (Hmid Hq'); reflexivity|].
  split.
  - rewrite Hlow; [|rewrite (Hmid Hq'); vm_compute; discriminate].
    rewrite (Hmid Hq'). reflexivity.
  - rewrite Hup; [|rewrite (Hmid Hq'); vm_compute; discriminate].
    rewrite (Hmid Hq'). reflexivity.
Defined.

(** C7: the overall score is the arithmetic mean of the per-country final
    scores; for an empty list of countries it is 0.0, returned normally. *)
Theorem C7_overall_score (bias_results : BiasResults)
    (cultural_analysis : CulturalAnalyzer.CulturalAnalysis)
    (target_countries : list string) :
  let ar := calculate_alignment bias_results cultural_analysis target_countries in
  let finals := map (Spec.final_score bias_results cultural_analysis)
                    target_countries in
  (target_countries <> [] ->
   overall_score ar == Py.sum finals / inject_Z (Z.of_nat (length target_countries)))
  /\ (target_countries = [] -> overall_score ar = 0)
  /\ (forall c, c ∈ target_countries ->
        country_scores ar !! c
        = Some (Spec.final_score bias_results cultural_analysis c)).
Proof.
  intros ar finals. unfold ar.
  split; [|split].
  - intros Hne. rewrite alignment_overall.
    destruct target_countries as [|c cs]; [congruence|].
    unfold Py.mean. fold finals. unfold finals. rewrite length_map. reflexivity.
  - intros ->. reflexivity.
  - intros c Hin.
    exact (proj1 (alignment_lookup bias_results cultural_analysis
                    target_countries c Hin)).
Qed.

(** US scores 0.725 and a country without data 0.58: the mean is 0.6525. *)
Lemma C7_overall_score_witness :
  let cultural_analysis := sample_analysis in
  let bias_results := {| flags := [exotic_flag] |} in
  ["US"; "ZZ"] <> []
  /\ overall_score (calculate_alignment bias_results cultural_analysis ["US"; "ZZ"])
     == 0.6525
  /\ overall_score (calculate_alignment bias_results cultural_analysis []) = 0.
Proof.
  intros cultural_analysis bias_results.
  assert (Hne : ["US"; "ZZ"] <> []) by discriminate.
  destruct (C7_overall_score bias_results cultural_analysis ["US"; "ZZ"])
    as (Hmean & _ & _).
  destruct (C7_overall_score bias_results cultural_analysis [])
    as (_ & Hempty & _).
  split; [exact Hne|]. split.
  - rewrite (Hmean Hne). vm_compute. reflexivity.
  - exact (Hempty eq_refl).
Defined.

End IntervalAndMean.

(** ** Recommendation generator *)

Section Recommendations.

Import CulturalScorer.

Lemma recommendations_from (alignment_scores : AlignmentResults)
    (cultural_analysis : CulturalAnalyzer.CulturalAnalysis)
    (target_countries : list string) (acc : list App.Recommendation) :
  fold_left
    (fun recommendations country_ =>
       let score := Py.get (country_scores alignment_scores) country_ 0 in
       if Py.lt score 0.6 then
         recommendations ++
         [ {| App.country := country_;
              App.priority := "high";
              App.type := "cultural_adaptation";
              App.message := "Consider significant cultural adaptation for " +:+ country_;
              App.specific_suggestions :=
                Py.get (CulturalAnalyzer.suggestions cultural_analysis) country_ [] |} ]
       else if Py.lt score 0.8 then
         recommendations ++
         [ {| App.country := country_;
              App.priority := "medium";
              App.type := "minor_adjustments";
              App.message := "Minor cultural adjustments recommended for " +:+ country_;
              App.specific_suggestions :=
                Py.get (CulturalAnalyzer.suggestions cultural_analysis) country_ [] |} ]
       else recommendations)
    target_countries acc
  = acc ++ flat_map (Spec.recommend alignment_scores cultural_analysis)
                    target_countries.
Proof.
  revert acc. induction target_countries as [|c cs IH]; intros acc.
  - simpl. now rewrite app_nil_r.
  - cbn [fold_left flat_map]. rewrite IH.
    unfold Spec.recommend at 2, Spec.score_read. cbv zeta.
    destruct (Py.lt (Py.get (country_scores alignment_scores) c 0) 0.6);
      [now rewrite <- app_assoc|].
    destruct (Py.lt (Py.get (country_scores alignment_scores) c 0) 0.8);
      [now rewrite <- app_assoc|reflexivity].
Qed.

Lemma recommendations_flat_map (alignment_scores : AlignmentResults)
    (cultural_analysis : CulturalAnalyzer.CulturalAnalysis)
    (target_countries : list string) :
  App._generate_recommendations alignment_scores cultural_analysis target_countries
  = flat_map (Spec.recommend alignment_scores cultural_analysis) target_countries.
Proof.
  unfold App._generate_recommendations.
  now rewrite recommendations_from.
Qed.

Lemma recommend_cases (alignment_scores : AlignmentResults)
    (cultural_analysis : CulturalAnalyzer.CulturalAnalysis) (c : string) :
  let s := Spec.score_read alignment_scores c in
  (s < 0.6 ->
   exists r, Spec.recommend alignment_scores cultural_analysis c = [r]
             /\ App.country r = c /\ App.priority r = "high"
             /\ App.type r = "cultural_adaptation")
  /\ (0.6 <= s < 0.8 ->
      exists r, Spec.recommend alignment_scores cultural_analysis c = [r]
                /\ App.country r = c /\ App.priority r = "medium"
                /\ App.type r = "minor_adjustments")
  /\ (0.8 <= s -> Spec.recommend alignment_scores cultural_analysis c = []).
Proof.
  intros s. unfold Spec.recommend. fold s. cbv zeta.
  split; [|split].
  - intros H. apply lt_true in H. rewrite H.
    eexists. repeat split; reflexivity.
  - intros [H1 H2]. apply lt_false in H1. apply lt_true in H2. rewrite H1, H2.
    eexists. repeat split; reflexivity.
  - intros H.
    assert (H1 : Py.lt s 0.6 = false) by (apply lt_false; lra).
    apply lt_false in H. rewrite H1, H. reflexivity.
Qed.

Lemma score_read_final (bias_results : BiasResults)
    (cultural_analysis : CulturalAnalyzer.CulturalAnalysis)
    (target_countries : list string) (c : string) :
  c ∈ target_countries ->
  Spec.score_read
    (calculate_alignment bias_results cultural_analysis target_countries) c
  = Spec.final_score bias_results cultural_analysis c.
Proof.
  intros Hin. unfold Spec.score_read, Py.get.
  rewrite (proj1 (alignment_lookup bias_results cultural_analysis
                    target_countries c Hin)).
  reflexivity.
Qed.

(** C8: for each requested country with final score s, one recommendation
    with priority "high" and type "cultural_adaptation" when s < 0.6, one
    with priority "medium" and type "minor_adjustments" when 0.6 <= s < 0.8,
    none when s >= 0.8; the risk level is "low" when overall_score >= 0.8,
    "medium" when 0.6 <= overall_score < 0.8, "high" otherwise. *)
Theorem C8_recommendations (alignment_scores : AlignmentResults)
    (cultural_analysis : CulturalAnalyzer.CulturalAnalysis)
    (target_countries : list string) :
  App._generate_recommendations alignment_scores cultural_analysis target_countries
  = flat_map (Spec.recommend alignment_scores cultural_analysis) target_countries
  /\ (forall c,
        let s := Spec.score_read alignment_scores c in
        (s < 0.6 ->
         exists r, Spec.recommend alignment_scores cultural_analysis c = [r]
                   /\ App.country r = c /\ App.priority r = "high"
                   /\ App.type r = "cultural_adaptation")
        /\ (0.6 <= s < 0.8 ->
            exists r, Spec.recommend alignment_scores cultural_analysis c = [r]
                      /\ App.country r = c /\ App.priority r = "medium"
                      /\ App.type r = "minor_adjustments")
        /\ (0.8 <= s -> Spec.recommend alignment_scores cultural_analysis c = []))
  /\ (forall bias_results analysis c,
        alignment_scores
        = calculate_alignment bias_results analysis target_countries ->
        c ∈ target_countries ->
        Spec.score_read alignment_scores c
        = Spec.final_score bias_results analysis c)
  /\ (0.8 <= overall_score alignment_scores ->
      App._calculate_risk_level alignment_scores = "low")
  /\ (0.6 <= overall_score alignment_scores < 0.8 ->
      App._calculate_risk_level alignment_scores = "medium")
  /\ (overall_score alignment_scores < 0.6 ->
      App._calculate_risk_level alignment_scores = "high").
Proof.
  split; [apply recommendations_flat_map|].
  split; [intros c; apply recommend_cases|].
  split; [intros bias_results analysis c -> Hin; now apply score_read_final|].
  unfold App._calculate_risk_level. cbv zeta.
  split; [|split].
  - intros H. apply ge_true in H. now rewrite H.
  - intros [H1 H2]. apply ge_true in H1. apply ge_false in H2.
    now rewrite H2, H1.
  - intros H.
    assert (H1 : Py.ge (overall_score alignment_scores) 0.8 = false)
      by (apply ge_false; lra).
    apply ge_false in H. now rewrite H1, H.
Qed.

(** US scores 0.725 (medium), an unknown country 0.58 (high), JP 0.9
    (none); the mean is 0.735, a medium risk. *)
Lemma C8_recommendations_witness :
  let bias_results := {| flags := [exotic_flag] |} in
  let ar := calculate_alignment bias_results sample_analysis ["US"; "ZZ"; "JP"] in
  map (fun r => (App.country r, App.priority r, App.type r))
      (App._generate_recommendations ar sample_analysis ["US"; "ZZ"; "JP"])
  = [ ("US", "medium", "minor_adjustments");
      ("ZZ", "high", "cultural_adaptation") ]
  /\ 0.6 <= Spec.score_read ar "US" < 0.8
  /\ Spec.score_read ar "ZZ" < 0.6
  /\ 0.8 <= Spec.score_read ar "JP"
  /\ 0.6 <= overall_score ar < 0.8
  /\ App._calculate_risk_level ar = "medium".
Proof.
  intros bias_results ar.
  destruct (C8_recommendations ar sample_analysis ["US"; "ZZ"; "JP"])
    as (Hrecs & _ & _ & _ & Hmedium & _).
  assert (Ho : 0.6 <= overall_score ar < 0.8)
    by (split; vm_compute; [discriminate|reflexivity]).
  split; [rewrite Hrecs; reflexivity|].
  split; [split; vm_compute; [discriminate|reflexivity]|].
  split; [vm_compute; reflexivity|].
  split; [vm_compute; discriminate|].
  split; [exact Ho|exact (Hmedium Ho)].
Defined.

(** C3: with exactly one flag of severity 8, a cultural fit of 0.7 and a
    confidence bonus of 0.10 for a country, the scorer computes a bias
    penalty of 0.08 and a final score of 0.7*0.70 + 0.92*0.25 + 0.10*0.05 =
    0.725 for it, and the recommendation generator emits a recommendation
    with priority "medium" for it. *)
Theorem C3_scenario (country : string) (flag : BiasDetector.Flag)
    (cultural_analysis : CulturalAnalyzer.CulturalAnalysis) :
  BiasDetector.severity flag = Some 8%Z ->
  _get_cultural_fit_score country cultural_analysis == 0.7 ->
  _calculate_confidence_bonus country cultural_analysis == 0.10 ->
  let bias_results := {| flags := [flag] |} in
  let ar := calculate_alignment bias_results cultural_analysis [country] in
  _calculate_bias_penalty bias_results == 0.08
  /\ (exists b, score_breakdown ar !! country = Some b /\ bias_penalty b == 0.08)
  /\ (exists s, country_scores ar !! country = Some s
                /\ s == 0.7 * 0.70 + 0.92 * 0.25 + 0.10 * 0.05
                /\ s == 0.725)
  /\ exists r,
       App._generate_recommendations ar cultural_analysis [country] = [r]
       /\ App.country r = country
       /\ App.priority r = "medium".
Proof.
  intros Hsev Hfit Hbonus bias_results ar.
  assert (Hpen : _calculate_bias_penalty bias_results == 0.08).
  { unfold _calculate_bias_penalty, bias_results. simpl. rewrite Hsev. reflexivity. }
  assert (Hin : country ∈ [country]) by (apply elem_of_cons; left; reflexivity).
  destruct (alignment_lookup bias_results cultural_analysis [country] country Hin)
    as (Hs & _ & Hb).
  fold ar in Hs, Hb.
  assert (Hscore : _calculate_country_score country bias_results cultural_analysis
                   == 0.725).
  { rewrite country_score_unfold. rewrite clamp_id; lra. }
  split; [exact Hpen|]. split; [|split].
  - eexists. split; [exact Hb|exact Hpen].
  - eexists. split; [exact Hs|]. split; [rewrite Hscore; reflexivity|exact Hscore].
  - rewrite recommendations_flat_map. cbn [flat_map]. rewrite app_nil_r.
    destruct (recommend_cases ar cultural_analysis country) as (_ & Hmed & _).
    destruct Hmed as (r & Hr & Hc & Hp & _).
    + unfold Spec.score_read, Py.get. rewrite Hs. simpl. split; lra.
    + exists r. auto.
Qed.

(** Scenario 3 on the sample analysis, for US. *)
Lemma C3_scenario_witness :
  let bias_results := {| flags := [exotic_flag] |} in
  let ar := calculate_alignment bias_results sample_analysis ["US"] in
  BiasDetector.severity exotic_flag = Some 8%Z
  /\ _get_cultural_fit_score "US" sample_analysis == 0.7
  /\ _calculate_confidence_bonus "US" sample_analysis == 0.10
  /\ _calculate_bias_penalty bias_results == 0.08
  /\ (exists s, country_scores ar !! "US" = Some s /\ s == 0.725)
  /\ map App.priority (App._generate_recommendations ar sample_analysis ["US"])
     = ["medium"].
Proof.
  intros bias_results ar.
  assert (H1 : BiasDetector.severity exotic_flag = Some 8%Z) by reflexivity.
  assert (H2 : _get_cultural_fit_score "US" sample_analysis == 0.7) by reflexivity.
  assert (H3 : _calculate_confidence_bonus "US" sample_analysis == 0.10)
    by reflexivity.
  destruct (C3_scenario "US" exotic_flag sample_analysis H1 H2 H3)
    as (Hp & _ & (s & Hs & _ & Hv) & (r & Hr & _ & Hprio)).
  split; [exact H1|]. split; [exact H2|]. split; [exact H3|].
  split; [exact Hp|]. split.
  - exists s. split; [exact Hs|exact Hv].
  - fold bias_results ar in Hr. rewrite Hr. simpl. now rewrite Hprio.
Defined.

End Recommendations.

(** ** The concrete scenarios under binary64 rounding *)

Section Binary64Checks.

#[local] Set Warnings "-inexact-float".

(** Scores 1, 1, 1, 1, 0, 0 aggregate to the float 0.8 itself, which is
    not above 0.8: the "good" branch.  Scores 1, 1, 1, 0, 0, 0 aggregate to
    the float 0.6: the misaligned branch. *)
Example binary64_summary_thresholds :
  (Binary64._calculate_cultural_score 1 1 1 1 0 0 =? 0.8)%float = true
  /\ Binary64.summary_tier (Binary64._calculate_cultural_score 1 1 1 1 0 0) = 1%nat
  /\ (Binary64._calculate_cultural_score 1 1 1 0 0 0 =? 0.6)%float = true
  /\ Binary64.summary_tier (Binary64._calculate_cultural_score 1 1 1 0 0 0) = 0%nat.
Proof. repeat split; reflexivity. Qed.

(** 0.67 * 10 lies strictly between 6.5 and 7: [int] gives 6, [round] 7. *)
Example binary64_risk_times_ten :
  (6.5 <? 0.67 * 10)%float = true /\ (0.67 * 10 <? 7)%float = true.
Proof. split; reflexivity. Qed.

(** Scenario 3: the final score is the float 0.725, between 0.6 and 0.8. *)
Example binary64_scenario_3 :
  let score :=
    Binary64._calculate_country_score
      0.7 (Binary64._calculate_bias_penalty 8) (0.0 + 0.05 + 0.05)%float in
  (score =? 0.725)%float = true
  /\ (score <? 0.6)%float = false
  /\ (score <? 0.8)%float = true.
Proof. repeat split; reflexivity. Qed.

(** A score of 0.97 with standard error 0.15: only the upper side clamps. *)
Example binary64_interval_097 :
  (0 <? Binary64.lower_bound 0.97 0.15)%float = true
  /\ (Binary64.lower_bound 0.97 0.15 =? 0.97 - 1.96 * 0.15)%float = true
  /\ (Binary64.upper_bound 0.97 0.15 =? 1)%float = true.
Proof. repeat split; reflexivity. Qed.

(** A perfect fit, no flags, both halves of the bonus: not above 0.955. *)
Example binary64_largest_score :
  (Binary64._calculate_country_score 1 0 (0.0 + 0.05 + 0.05) <=? 0.955)%float = true.
Proof. reflexivity. Qed.

End Binary64Checks.

(** * Further properties of the code *)

(** ** The analyzer as a whole *)

Section AnalyzerWhole.

Import CulturalAnalyzer.

Lemma hofstede_rows_nonempty (country : string) (dimensions : gmap string Q) :
  hofstede_data !! country = Some dimensions -> Py.is_empty dimensions = false.
Proof.
  intros Hc. unfold hofstede_data, _load_hofstede_data in Hc.
  apply elem_of_list_to_map_2 in Hc.
  repeat (apply elem_of_cons in Hc; destruct Hc as [Hc|Hc];
          [injection Hc as _ ->; reflexivity|]).
  apply elem_of_nil in Hc. contradiction.
Qed.

(** The loop of [analyze_cultural_fit], from any state. *)
Lemma analyze_fold (content industry : string) (countries : list string)
    (c : string) :
  View.stored (analyze_cultural_fit content countries industry) c
  = match (if decide (c ∈ countries) then hofstede_data !! c else None) with
    | Some dimensions => View.some4 (View.entry content industry c dimensions)
    | None => (None, None, None, None)
    end.
Proof.
  unfold analyze_cultural_fit.
  set (init := {| cultural_scores := ∅; dimension_analysis := ∅; insights := ∅;
                  suggestions := ∅; industry_context := industry |}).
  assert (Hinit : View.stored init c = (None, None, None, None)).
  { unfold View.stored, init. simpl. now rewrite !lookup_empty. }
  rewrite <- Hinit.
  assert (Hind : industry_context init = industry) by reflexivity.
  clear Hinit. revert Hind. generalize init. clear init.
  induction countries as [|c0 cs IH]; intros st Hind.
  - cbn [fold_left]. rewrite decide_False by apply not_elem_of_nil. reflexivity.
  - cbn [fold_left].
    match goal with
    | |- View.stored (fold_left _ cs ?st1) c = _ =>
        assert (Hst1 :
          industry_context st1 = industry
          /\ View.stored st1 c
             = match (if decide (c = c0) then hofstede_data !! c0 else None) with
               | Some dimensions =>
                   View.some4 (View.entry content industry c dimensions)
               | None => View.stored st c
               end)
    end.
    { unfold Py.get. destruct (hofstede_data !! c0) as [dims|] eqn:Hc; simpl default.
      - rewrite (hofstede_rows_nonempty c0 dims Hc). split; [exact Hind|].
        destruct (decide (c = c0)) as [->|Hne].
        + unfold View.stored, View.some4, View.entry. simpl.
          rewrite !lookup_insert_eq. reflexivity.
        + unfold View.stored. simpl.
          rewrite !lookup_insert_ne by congruence. reflexivity.
      - change (Py.is_empty (∅ : gmap string Q)) with true. cbv iota.
        split; [exact Hind|]. now destruct (decide (c = c0)). }
    destruct Hst1 as [Hi Hs]. rewrite (IH _ Hi), Hs. clear IH Hi Hs.
    destruct (decide (c ∈ cs)) as [Hin|Hnin].
    + rewrite (decide_True (P := c ∈ c0 :: cs)) by (apply elem_of_cons; auto).
      destruct (hofstede_data !! c) as [dims|] eqn:Hc; [reflexivity|].
      destruct (decide (c = c0)) as [->|Hne]; [now rewrite Hc|reflexivity].
    + destruct (decide (c = c0)) as [->|Hne].
      * rewrite (decide_True (P := c0 ∈ c0 :: cs)) by (apply elem_of_cons; auto).
        reflexivity.
      * rewrite (decide_False (P := c ∈ c0 :: cs))
          by (intros [?|?]%elem_of_cons; congruence).
        reflexivity.
Qed.

Lemma stored_inv (analysis : CulturalAnalysis) (c : string)
    (e : Q * gmap string Q * Insights * list string) :
  View.stored analysis c = View.some4 e ->
  cultural_scores analysis !! c = Some (fst (fst (fst e)))
  /\ dimension_analysis analysis !! c = Some (snd (fst (fst e)))
  /\ insights analysis !! c = Some (snd (fst e))
  /\ suggestions analysis !! c = Some (snd e).
Proof.
  destruct e as [[[x ds] i] sg]. unfold View.stored, View.some4.
  intros H. injection H as -> -> -> ->. auto.
Qed.

(** What is stored comes from the table row of the country. *)
Lemma stored_cases (content industry : string) (countries : list string)
    (c : string) :
  (exists dimensions,
     c ∈ countries /\ hofstede_data !! c = Some dimensions
     /\ View.stored (analyze_cultural_fit content countries industry) c
        = View.some4 (View.entry content industry c dimensions))
  \/ ((c ∉ countries \/ hofstede_data !! c = None)
      /\ View.stored (analyze_cultural_fit content countries industry) c
         = (None, None, None, None)).
Proof.
  rewrite analyze_fold.
  destruct (decide (c ∈ countries)) as [Hin|Hnin]; [|right; auto].
  destruct (hofstede_data !! c) as [dims|] eqn:Hc; [left; eauto|right; auto].
Qed.

(** X1: [analyze_cultural_fit] stores its four entries for exactly the
    requested countries that have a table row (each computed from that row
    and the text) and nothing for any other country; an unsupported country
    is skipped, and a duplicate in the request changes nothing. *)
Theorem X1_analysis_entries (content industry : string) (countries : list string)
    (c : string) :
  let analysis := analyze_cultural_fit content countries industry in
  (forall dimensions,
     c ∈ countries -> hofstede_data !! c = Some dimensions ->
     View.stored analysis c = View.some4 (View.entry content industry c dimensions))
  /\ (c ∉ countries \/ hofstede_data !! c = None ->
      View.stored analysis c = (None, None, None, None))
  /\ View.stored (analyze_cultural_fit content (countries ++ countries) industry) c
     = View.stored analysis c.
Proof.
  intros analysis. unfold analysis. split; [|split].
  - intros dims Hin Hc. rewrite analyze_fold.
    rewrite decide_True by exact Hin. now rewrite Hc.
  - intros [Hnin|Hc]; rewrite analyze_fold.
    + now rewrite decide_False by exact Hnin.
    + rewrite Hc. now destruct (decide (c ∈ countries)).
  - rewrite !analyze_fold.
    destruct (decide (c ∈ countries)) as [Hin|Hnin].
    + rewrite decide_True by (apply elem_of_app; auto). reflexivity.
    + rewrite decide_False by (intros [?|?]%elem_of_app; contradiction).
      reflexivity.
Qed.

Lemma X1_analysis_entries_witness :
  let analysis := analyze_cultural_fit "Our team enjoys freedom now" ["US"; "ZZ"]
                                       "general" in
  "US" ∈ ["US"; "ZZ"]
  /\ is_Some (hofstede_data !! "US")
  /\ (exists x, cultural_scores analysis !! "US" = Some x /\ x == 0.7335)
  /\ View.stored analysis "ZZ" = (None, None, None, None)
  /\ View.stored analysis "JP" = (None, None, None, None).
Proof.
  intros analysis.
  assert (Hin : "US" ∈ ["US"; "ZZ"]) by (apply elem_of_cons; auto).
  assert (Hc : hofstede_data !! "US"
               = Some (list_to_map [("PDI", 40); ("IDV", 91); ("MAS", 62);
                                    ("UAI", 46); ("LTO", 26); ("IVR", 68)]))
    by reflexivity.
  destruct (X1_analysis_entries "Our team enjoys freedom now" "general"
              ["US"; "ZZ"] "US") as (Hus & _ & _).
  destruct (X1_analysis_entries "Our team enjoys freedom now" "general"
              ["US"; "ZZ"] "ZZ") as (_ & Hzz & _).
  destruct (X1_analysis_entries "Our team enjoys freedom now" "general"
              ["US"; "ZZ"] "JP") as (_ & Hjp & _).
  split; [exact Hin|]. split; [rewrite Hc; eauto|]. split; [|split].
  - destruct (stored_inv _ _ _ (Hus _ Hin Hc)) as (Hs & _).
    eexists. split; [exact Hs|]. vm_compute. reflexivity.
  - apply Hzz. right. reflexivity.
  - apply Hjp. left. intros H.
    repeat (apply elem_of_cons in H; destruct H as [H|H]; [discriminate H|]).
    now apply elem_of_nil in H.
Defined.

Lemma analyze_dimensions_keys (content country : string) (dimensions : gmap string Q)
    (dim : string) :
  is_Some (_analyze_dimensions content dimensions country !! dim)
  <-> dim ∈ dimension_names.
Proof.
  unfold _analyze_dimensions, dimension_names, weights. cbn [map fst].
  rewrite !lookup_insert_is_Some, lookup_empty, is_Some_alt.
  rewrite !elem_of_cons, elem_of_nil.
  intuition congruence.
Qed.

Lemma analyze_dimensions_nonempty (content country : string)
    (dimensions : gmap string Q) :
  _analyze_dimensions content dimensions country ≠ ∅.
Proof. unfold _analyze_dimensions. apply insert_non_empty. Qed.

(** X2: for every country the analyzer stores, the dimension scores have
    exactly the six dimension names as keys, each score lies in [0,1], and
    the stored cultural score is the weighted sum of those six scores (the
    empty-mapping guard never fires), a value in [0,1]. *)
Theorem X2_analysis_values (content industry : string) (countries : list string)
    (c : string) (ds : gmap string Q) :
  let analysis := analyze_cultural_fit content countries industry in
  dimension_analysis analysis !! c = Some ds ->
  (forall dim, is_Some (ds !! dim) <-> dim ∈ dimension_names)
  /\ Spec.unit_scores ds
  /\ exists x, cultural_scores analysis !! c = Some x
               /\ x == Spec.weighted_sum ds /\ 0 <= x <= 1.
Proof.
  intros analysis Hds.
  destruct (stored_cases content industry countries c)
    as [(dims & Hin & Hc & Hst)|[_ Hst]]; fold analysis in Hst.
  - apply stored_inv in Hst. simpl in Hst. destruct Hst as (Hx & Hd & _).
    rewrite Hd in Hds. injection Hds as <-.
    split; [intros dim; apply analyze_dimensions_keys|].
    split; [exact (analyze_dimensions_unit content c dims Hc)|].
    eexists. split; [exact Hx|]. split.
    + apply cultural_score_nonempty, analyze_dimensions_nonempty.
    + apply cultural_score_unit, (analyze_dimensions_unit content c dims Hc).
  - unfold View.stored in Hst. congruence.
Qed.

Lemma X2_analysis_values_witness :
  let analysis := analyze_cultural_fit "Our team enjoys freedom now" ["US"]
                                       "general" in
  let ds := _analyze_dimensions "Our team enjoys freedom now"
              (list_to_map [("PDI", 40); ("IDV", 91); ("MAS", 62);
                            ("UAI", 46); ("LTO", 26); ("IVR", 68)]) "US" in
  dimension_analysis analysis !! "US" = Some ds
  /\ is_Some (ds !! "masculinity")
  /\ exists x, cultural_scores analysis !! "US" = Some x
               /\ x == Spec.weighted_sum ds /\ 0 <= x <= 1.
Proof.
  intros analysis ds.
  assert (Hds : dimension_analysis analysis !! "US" = Some ds).
  { pose proof (analyze_fold "Our team enjoys freedom now" "general" ["US"] "US")
      as H.
    rewrite decide_True in H by (apply elem_of_cons; auto).
    change (hofstede_data !! "US")
      with (Some (list_to_map [("PDI", 40); ("IDV", 91); ("MAS", 62);
                               ("UAI", 46); ("LTO", 26); ("IVR", 68)]
                  : gmap string Q)) in H.
    apply stored_inv in H. exact (proj1 (proj2 H)). }
  destruct (X2_analysis_values "Our team enjoys freedom now" "general" ["US"]
              "US" ds Hds) as (Hk & _ & Hx).
  split; [exact Hds|]. split; [|exact Hx].
  apply Hk. unfold dimension_names, weights. simpl.
  apply elem_of_cons; right. apply elem_of_cons; right.
  apply elem_of_cons; left. reflexivity.
Defined.

(** X3: the summary label stored for a country agrees with the cultural
    score stored for it (excellent above 0.8, good above 0.6 and up to 0.8,
    misaligned up to 0.6) and is never the empty string. *)
Theorem X3_summary_matches_score (content industry : string)
    (countries : list string) (c : string) (i : Insights) :
  let analysis := analyze_cultural_fit content countries industry in
  insights analysis !! c = Some i ->
  exists x,
    cultural_scores analysis !! c = Some x
    /\ (alignment_summary i = Spec.excellent c <-> 0.8 < x)
    /\ (alignment_summary i = Spec.good c <-> 0.6 < x <= 0.8)
    /\ (alignment_summary i = Spec.misaligned c <-> x <= 0.6)
    /\ alignment_summary i <> "".
Proof.
  intros analysis Hi.
  destruct (stored_cases content industry countries c)
    as [(dims & Hin & Hc & Hst)|[_ Hst]]; fold analysis in Hst.
  - apply stored_inv in Hst. simpl in Hst. destruct Hst as (Hx & _ & Hi' & _).
    rewrite Hi' in Hi. injection Hi as <-.
    eexists. split; [exact Hx|].
    set (ds := _analyze_dimensions content dims c).
    pose proof (analyze_dimensions_nonempty content c dims) as Hne. fold ds in Hne.
    destruct (labels_distinct c) as (D1 & D2 & D3).
    change (alignment_summary (_generate_insights content dims ds c))
      with (Spec.summary content dims ds c).
    destruct (summary_cases content dims ds c Hne) as [[Hs Hl]|[[Hs Hl]|[Hs Hl]]];
      rewrite Hl; repeat split; intros; try congruence; try lra;
      try (exfalso; (apply D1 + apply D2 + apply D3); congruence);
      try (exfalso; lra); try discriminate.
  - unfold View.stored in Hst. congruence.
Qed.

Lemma X3_summary_matches_score_witness :
  let analysis := analyze_cultural_fit "Our team enjoys freedom now" ["US"]
                                       "general" in
  let i := {| alignment_summary := "Good cultural alignment with US";
              cultural_notes :=
                ["Very high IDV: Consider strong alignment with this cultural trait"] |} in
  insights analysis !! "US" = Some i
  /\ exists x, cultural_scores analysis !! "US" = Some x /\ 0.6 < x <= 0.8.
Proof.
  intros analysis i.
  assert (Hi : insights analysis !! "US" = Some i).
  { pose proof (analyze_fold "Our team enjoys freedom now" "general" ["US"] "US")
      as H.
    rewrite decide_True in H by (apply elem_of_cons; auto).
    change (hofstede_data !! "US")
      with (Some (list_to_map [("PDI", 40); ("IDV", 91); ("MAS", 62);
                               ("UAI", 46); ("LTO", 26); ("IVR", 68)]
                  : gmap string Q)) in H.
    apply stored_inv in H. destruct H as (_ & _ & H & _).
    unfold analysis. rewrite H. vm_compute. reflexivity. }
  destruct (X3_summary_matches_score "Our team enjoys freedom now" "general"
              ["US"] "US" i Hi) as (x & Hx & _ & Hgood & _).
  split; [exact Hi|]. exists x. split; [exact Hx|].
  apply Hgood. reflexivity.
Defined.

(** X4: the industry argument has no effect on what the analyzer stores for
    any country: scores, dimension scores, insights and suggestions are the
    same for every industry. *)
Theorem X4_industry_has_no_effect (content industry industry' : string)
    (countries : list string) :
  let a := analyze_cultural_fit content countries industry in
  let a' := analyze_cultural_fit content countries industry' in
  cultural_scores a = cultural_scores a'
  /\ dimension_analysis a = dimension_analysis a'
  /\ insights a = insights a'
  /\ suggestions a = suggestions a'.
Proof.
  intros a a'.
  assert (H : forall c, View.stored a c = View.stored a' c).
  { intros c. unfold a, a'. rewrite !analyze_fold. reflexivity. }
  repeat split; apply map_eq; intros c; specialize (H c);
    unfold View.stored in H; congruence.
Qed.

End AnalyzerWhole.

(** ** Keyword matching and suggestions *)

Section KeywordsAndSuggestions.

Import CulturalAnalyzer.

Lemma lower_ascii_idem (c : ascii) :
  Py.lower_ascii (Py.lower_ascii c) = Py.lower_ascii c.
Proof. destruct c as [[] [] [] [] [] [] [] []]; reflexivity. Qed.

Lemma lower_idem (s : string) : Py.lower (Py.lower s) = Py.lower s.
Proof.
  induction s as [|c s IH]; simpl; [reflexivity|].
  now rewrite lower_ascii_idem, IH.
Qed.

Lemma count_keywords_lower (keywords : list string) (content content' : string) :
  Py.lower content = Py.lower content' ->
  Py.count_keywords keywords content = Py.count_keywords keywords content'.
Proof.
  intros H.
  pose (g := fun lowered : string =>
               fold_left
                 (fun acc word =>
                    if Py.contains (Py.lower word) lowered then (acc + 1)%Z else acc)
                 keywords 0%Z).
  change (g (Py.lower content) = g (Py.lower content')).
  now rewrite H.
Qed.

Lemma analyze_lower (d : Spec.dimension) (content content' : string) (v : Q) :
  Py.lower content = Py.lower content' ->
  Spec.analyze d content v = Spec.analyze d content' v.
Proof.
  intros H. rewrite !analyze_unfold. unfold Spec.content_tendency_of.
  now rewrite (count_keywords_lower (Spec.high_keywords d) content content' H),
              (count_keywords_lower (Spec.low_keywords d) content content' H).
Qed.

Lemma analyze_dimensions_lower (content content' country : string)
    (dimensions : gmap string Q) :
  Py.lower content = Py.lower content' ->
  _analyze_dimensions content dimensions country
  = _analyze_dimensions content' dimensions country.
Proof.
  intros H. unfold _analyze_dimensions.
  change _analyze_power_distance with (Spec.analyze Spec.PowerDistance).
  change _analyze_individualism with (Spec.analyze Spec.Individualism).
  change _analyze_masculinity with (Spec.analyze Spec.Masculinity).
  change _analyze_uncertainty_avoidance with (Spec.analyze Spec.UncertaintyAvoidance).
  change _analyze_long_term_orientation with (Spec.analyze Spec.LongTermOrientation).
  change _analyze_indulgence with (Spec.analyze Spec.Indulgence).
  now rewrite !(fun d v => analyze_lower d content content' v H).
Qed.

(** X5: keyword matching is case-insensitive: two texts with the same
    lower-cased form get the same six dimension scores for every country
    value, and the analyzer stores the same scores, dimension scores,
    insights and suggestions for them; in particular lower-casing a text
    changes nothing. *)
Theorem X5_case_insensitive (content content' : string) :
  Py.lower content = Py.lower content' ->
  (forall d v, Spec.analyze d content v = Spec.analyze d content' v)
  /\ (forall countries industry c,
        View.stored (analyze_cultural_fit content countries industry) c
        = View.stored (analyze_cultural_fit content' countries industry) c)
  /\ (forall d v, Spec.analyze d (Py.lower content) v = Spec.analyze d content v).
Proof.
  intros H. split; [|split].
  - intros d v. now apply analyze_lower.
  - intros countries industry c. rewrite !analyze_fold.
    destruct (decide (c ∈ countries)); [|reflexivity].
    destruct (hofstede_data !! c) as [dims|]; [|reflexivity].
    unfold View.entry.
    now rewrite (analyze_dimensions_lower content content' c dims H).
  - intros d v. apply analyze_lower, lower_idem.
Qed.

Lemma X5_case_insensitive_witness :
  Py.lower "The BOSS sets the Rules" = Py.lower "the boss sets the rules"
  /\ Spec.analyze Spec.PowerDistance "The BOSS sets the Rules" 80
     = Spec.analyze Spec.PowerDistance "the boss sets the rules" 80
  /\ Spec.analyze Spec.PowerDistance "the boss sets the rules" 80 == 0.8.
Proof.
  assert (H : Py.lower "The BOSS sets the Rules" = Py.lower "the boss sets the rules")
    by reflexivity.
  destruct (X5_case_insensitive _ _ H) as (Ha & _).
  split; [exact H|]. split; [apply Ha|]. vm_compute. reflexivity.
Defined.

Lemma tendency_cases (dimension country : string) :
  _get_country_tendency dimension country = "high"
  \/ _get_country_tendency dimension country = "low".
Proof.
  unfold _get_country_tendency. cbv zeta.
  destruct (Py.gt _ 50); auto.
Qed.

Lemma suggestion_known (dimension country industry : string) :
  dimension ∈ dimension_names ->
  _get_dimension_suggestion dimension country industry
  = View.suggestion_text dimension (_get_country_tendency dimension country)
  /\ _get_dimension_suggestion dimension country industry <> "".
Proof.
  intros Hin. unfold dimension_names, weights in Hin. cbn [map fst] in Hin.
  unfold _get_dimension_suggestion, View.suggestion_text. cbv zeta.
  repeat (apply elem_of_cons in Hin; destruct Hin as [->|Hin];
          [match goal with
           | |- context [_get_country_tendency ?d country] =>
               destruct (tendency_cases d country) as [E|E]; rewrite E
           end;
           (split; [reflexivity|vm_compute; discriminate])|]).
  now apply elem_of_nil in Hin.
Qed.

(** The loop of [_generate_suggestions] over any list of known dimensions. *)
Lemma suggestions_from (scores : gmap string Q) (country industry : string)
    (dimensions : list string) (acc : list string) :
  Forall (fun dimension => dimension ∈ dimension_names) dimensions ->
  fold_left
    (fun suggestions dimension =>
       match scores !! dimension with
       | None => suggestions
       | Some score =>
           if Py.lt score 0.6 then
             let suggestion := _get_dimension_suggestion dimension country industry in
             if negb (String.eqb suggestion "") then suggestions ++ [suggestion]
             else suggestions
           else suggestions
       end)
    dimensions acc
  = acc ++ map (fun dimension =>
                  View.suggestion_text dimension
                    (_get_country_tendency dimension country))
               (List.filter (View.low_dimension scores) dimensions).
Proof.
  intros Hall. revert acc.
  induction Hall as [|dim dims Hdim _ IH]; intros acc.
  - simpl. now rewrite app_nil_r.
  - cbn [fold_left List.filter]. unfold View.low_dimension at 1.
    destruct (scores !! dim) as [x|]; [|apply IH].
    destruct (Py.lt x 0.6); [|apply IH].
    destruct (suggestion_known dim country industry Hdim) as [E Hne].
    cbv zeta.
    assert (Hb : negb (String.eqb (_get_dimension_suggestion dim country industry) "")
                 = true).
    { apply negb_true_iff. apply String.eqb_neq. exact Hne. }
    rewrite Hb, IH, E. cbn [map]. now rewrite <- app_assoc.
Qed.

Lemma filter_none {A : Type} (f : A -> bool) (l : list A) :
  (forall x, In x l -> f x = false) -> List.filter f l = [].
Proof.
  induction l as [|a l IH]; intros H; simpl; [reflexivity|].
  rewrite (H a) by (left; reflexivity). apply IH.
  intros x Hx. apply H. now right.
Qed.

Lemma dimension_names_known :
  Forall (fun dimension => dimension ∈ dimension_names) dimension_names.
Proof. apply Forall_forall. auto. Qed.

(** The loop of [_generate_suggestions] over the six names, for any score
    mapping. *)
Lemma suggestions_of_scores (scores : gmap string Q) (country industry : string) :
  let result := _generate_suggestions scores country industry in
  result
  = map (fun dimension =>
           View.suggestion_text dimension (_get_country_tendency dimension country))
        (List.filter (View.low_dimension scores) dimension_names)
  /\ (length result <= 6)%nat
  /\ (forall s, In s result -> s <> "")
  /\ (result = [] <->
      forall dimension x,
        dimension ∈ dimension_names -> scores !! dimension = Some x -> 0.6 <= x).
Proof.
  intros result.
  assert (E : result
              = map (fun dimension =>
                       View.suggestion_text dimension
                         (_get_country_tendency dimension country))
                    (List.filter (View.low_dimension scores) dimension_names)).
  { exact (suggestions_from scores country industry dimension_names []
             dimension_names_known). }
  split; [exact E|]. split; [|split].
  - rewrite E, length_map.
    etransitivity; [apply filter_length_le|]. reflexivity.
  - intros s Hs. rewrite E in Hs. apply in_map_iff in Hs.
    destruct Hs as (dim & <- & Hdim). apply filter_In in Hdim.
    destruct Hdim as [Hdim _]. apply list_elem_of_In in Hdim.
    destruct (suggestion_known dim country industry Hdim) as [E' Hne].
    now rewrite <- E'.
  - rewrite E. split.
    + intros Hnil dim x Hdim Hx.
      apply lt_false. destruct (Py.lt x 0.6) eqn:Hlt; [|reflexivity].
      exfalso.
      assert (Hin : In dim (List.filter (View.low_dimension scores) dimension_names)).
      { apply filter_In. split; [now apply list_elem_of_In|].
        unfold View.low_dimension. now rewrite Hx. }
      apply (in_map (fun dimension =>
                       View.suggestion_text dimension
                         (_get_country_tendency dimension country))) in Hin.
      rewrite Hnil in Hin. exact Hin.
    + intros Hall.
      assert (Hf : List.filter (View.low_dimension scores) dimension_names = []).
      { apply filter_none.
        intros dim Hdim. apply list_elem_of_In in Hdim.
        unfold View.low_dimension.
        destruct (scores !! dim) as [x|] eqn:Hx; [|reflexivity].
        apply lt_false. exact (Hall dim x Hdim Hx). }
      now rewrite Hf.
Qed.

(** X6: on the dimension scores [_analyze_dimensions] returns, the only
    dict that reaches it and one whose items come in the order of the six
    dimensions, [_generate_suggestions] yields in that order one suggestion
    for each dimension whose score is below 0.6, and nothing else: the text
    of that dimension for the country's tendency.  So there are at most
    six, none of them empty, and there is none exactly when every score is
    at least 0.6. *)
Theorem X6_suggestions (content : string) (dimensions : gmap string Q)
    (country industry : string) :
  let scores := _analyze_dimensions content dimensions country in
  let result := _generate_suggestions scores country industry in
  result
  = map (fun dimension =>
           View.suggestion_text dimension (_get_country_tendency dimension country))
        (List.filter (View.low_dimension scores) dimension_names)
  /\ (length result <= 6)%nat
  /\ (forall s, In s result -> s <> "")
  /\ (result = [] <-> forall dimension x, scores !! dimension = Some x -> 0.6 <= x).
Proof.
  intros scores result.
  destruct (suggestions_of_scores scores country industry) as (E & Hlen & Hne & Hnil).
  fold result in E, Hlen, Hne, Hnil.
  split; [exact E|]. split; [exact Hlen|]. split; [exact Hne|].
  rewrite Hnil. split.
  - intros H dimension x Hx. apply (H dimension x); [|exact Hx].
    apply (analyze_dimensions_keys content country dimensions dimension).
    unfold scores in Hx. rewrite Hx. eexists. reflexivity.
  - intros H dimension x _ Hx. exact (H dimension x Hx).
Qed.

(** For Japan and a text about a boss and a leader, the dimensions that
    score below 0.6 and the suggestions made for them. *)
Example suggestions_example :
  let row : gmap string Q :=
    list_to_map [ ("PDI", 54); ("IDV", 46); ("MAS", 95); ("UAI", 92);
                  ("LTO", 88); ("IVR", 42) ] in
  let scores := _analyze_dimensions "The boss and the leader decide" row "JP" in
  List.filter (View.low_dimension scores) dimension_names
  = ["power_distance"; "masculinity"; "uncertainty_avoidance"]
  /\ _generate_suggestions scores "JP" "fashion" = [ "Consider emphasizing hierarchy, authority, and formal structures";
      "Focus on achievement, competition, and performance metrics";
      "Provide security, guarantees, and detailed information" ].
Proof. split; vm_compute; reflexivity. Qed.

(** X7: the fallbacks of the suggestion texts.  A country without a table
    row has the "low" tendency on every dimension; for a country with a row
    the tendency of a dimension is "high" exactly when the row's value is
    above 50; a dimension name outside the six gets the generic text
    "Adjust <dimension> alignment for <country>". *)
Theorem X7_suggestion_fallbacks (dimension country industry : string) :
  (hofstede_data !! country = None ->
   _get_country_tendency dimension country = "low")
  /\ (forall dimensions code v,
        hofstede_data !! country = Some dimensions ->
        _dimension_code_map !! dimension = Some code ->
        dimensions !! code = Some v ->
        (_get_country_tendency dimension country = "high" <-> 50 < v))
  /\ (dimension ∉ dimension_names ->
      _get_dimension_suggestion dimension country industry
      = "Adjust " +:+ dimension +:+ " alignment for " +:+ country).
Proof.
  split; [|split].
  - intros Hc. unfold _get_country_tendency, Py.get. rewrite Hc. cbn [from_option id].
    rewrite lookup_empty. reflexivity.
  - intros dims code v Hc Hcode Hv.
    unfold _get_country_tendency, Py.get. rewrite Hc, Hcode. cbn [from_option id].
    rewrite Hv. cbn [from_option id]. destruct (Py.gt v 50) eqn:E.
    + apply gt_true in E. split; auto.
    + apply gt_false in E. split; [discriminate|intros; lra].
  - intros Hnin. unfold _get_dimension_suggestion, Py.get. cbv zeta.
    assert (Hm : suggestions_map !! dimension = None).
    { apply not_elem_of_list_to_map_1. exact Hnin. }
    rewrite Hm. cbn [from_option id]. rewrite lookup_empty. reflexivity.
Qed.

Lemma X7_suggestion_fallbacks_witness :
  hofstede_data !! "ZZ" = None
  /\ _get_country_tendency "masculinity" "ZZ" = "low"
  /\ _get_country_tendency "masculinity" "JP" = "high"
  /\ ("humour" ∉ dimension_names)
  /\ _get_dimension_suggestion "humour" "JP" "general"
     = "Adjust humour alignment for JP".
Proof.
  assert (Hzz : hofstede_data !! "ZZ" = None) by reflexivity.
  assert (Hnin : "humour" ∉ dimension_names).
  { intros H. unfold dimension_names, weights in H. cbn [map fst] in H.
    repeat (apply elem_of_cons in H; destruct H as [H|H]; [discriminate H|]).
    now apply elem_of_nil in H. }
  destruct (X7_suggestion_fallbacks "masculinity" "ZZ" "general") as (Hlow & _ & _).
  destruct (X7_suggestion_fallbacks "masculinity" "JP" "general") as (_ & Hhigh & _).
  destruct (X7_suggestion_fallbacks "humour" "JP" "general") as (_ & _ & Hgen).
  split; [exact Hzz|]. split; [exact (Hlow Hzz)|]. split; [|split].
  - apply (Hhigh (list_to_map [("PDI", 54); ("IDV", 46); ("MAS", 95);
                               ("UAI", 92); ("LTO", 88); ("IVR", 42)])
                 "MAS" 95); reflexivity.
  - exact Hnin.
  - exact (Hgen Hnin).
Defined.

End KeywordsAndSuggestions.

(** ** The parts of the bias detector that need no regex engine *)

Section DetectorParts.

Import BiasDetector.

Lemma assumption_scan_ok (content : string) (gemini_analysis : GeminiAnalysis) :
  Spec.numeric_risks (cultural_insights gemini_analysis) ->
  let fl := map Spec.assumption_flag
                (List.filter Spec.risky (cultural_insights gemini_analysis)) in
  _detect_cultural_assumptions content gemini_analysis
  = Ok {| detected := (0 <? length fl)%nat; category := "cultural_assumption";
          flags := fl; patterns := [];
          max_severity := max_default (map (fun f => default 0%Z (severity f)) fl) |}.
Proof.
  intros H fl. unfold _detect_cultural_assumptions.
  rewrite (assumption_loop _ [] H). reflexivity.
Qed.

Lemma assumption_loop_raised (items : list (string * GeminiInsights)) (e : exn) :
  fold_left View.assumption_step items (Raise e) = Raise e.
Proof. induction items as [|[c i] items IH]; [reflexivity|exact IH]. Qed.

Lemma assumption_loop_raises (items : list (string * GeminiInsights))
    (acc : list Flag) :
  View.has_string_risk items ->
  fold_left View.assumption_step items (Ok acc) = Raise TypeError.
Proof.
  intros H. revert acc.
  induction H as [[c i] items [s Hs]|[c i] items _ IH]; intros acc;
    cbn [fold_left]; unfold View.assumption_step at 2; simpl in *.
  - rewrite Hs. simpl. apply assumption_loop_raised.
  - destruct (default (PyNum 0) (assumption_risk i)) as [r|s].
    + destruct (Py.gt r 0.6); apply IH.
    + apply assumption_loop_raised.
Qed.

Lemma assumption_scan_raises (content : string) (gemini_analysis : GeminiAnalysis) :
  View.has_string_risk (cultural_insights gemini_analysis) ->
  _detect_cultural_assumptions content gemini_analysis = Raise TypeError.
Proof.
  intros H. unfold _detect_cultural_assumptions.
  change (fold_left _ (cultural_insights gemini_analysis) (Ok []))
    with (fold_left View.assumption_step (cultural_insights gemini_analysis) (Ok [])).
  now rewrite (assumption_loop_raises _ [] H).
Qed.

Lemma risks_cases (items : list (string * GeminiInsights)) :
  Spec.numeric_risks items \/ View.has_string_risk items.
Proof.
  induction items as [|[c i] items [IH|IH]].
  - left. constructor.
  - destruct (assumption_risk i) as [[r|s]|] eqn:E.
    + left. constructor; [simpl; intros s; congruence|exact IH].
    + right. apply Exists_cons_hd. simpl. eauto.
    + left. constructor; [simpl; intros s; congruence|exact IH].
  - right. now apply Exists_cons_tl.
Qed.

Lemma detect_step (report : BiasReport) (d : Detection) :
  View.coherent d ->
  (if detected d then
     {| br_error := br_error report;
        br_flags := br_flags report ++ flags d;
        br_severity_scores := br_severity_scores report;
        br_pattern_matches := br_pattern_matches report ++ patterns d;
        br_confidence_score := br_confidence_score report;
        br_bias_categories := br_bias_categories report ++ [category d] |}
   else report)
  = View.absorb report d.
Proof.
  intros [Hd Hp]. unfold View.absorb, View.category_if_detected.
  destruct (detected d) eqn:E; [reflexivity|].
  assert (Hf : flags d = []).
  { destruct (flags d); [reflexivity|]. discriminate Hd. }
  rewrite Hf, (Hp Hf), !app_nil_r. now destruct report.
Qed.

Lemma assumption_result (content : string) (gemini_analysis : GeminiAnalysis)
    (a : Detection) :
  _detect_cultural_assumptions content gemini_analysis = Ok a ->
  View.coherent a
  /\ category a = "cultural_assumption"
  /\ patterns a = []
  /\ max_severity a = max_default (map (fun f => default 0%Z (severity f)) (flags a))
  /\ flags a = map Spec.assumption_flag
                   (List.filter Spec.risky (cultural_insights gemini_analysis)).
Proof.
  intros Ha.
  destruct (risks_cases (cultural_insights gemini_analysis)) as [Hn|Hs].
  - rewrite (assumption_scan_ok content gemini_analysis Hn) in Ha.
    injection Ha as <-. unfold View.coherent. cbn [detected flags patterns].
    repeat split; reflexivity.
  - rewrite (assumption_scan_raises content gemini_analysis Hs) in Ha.
    discriminate Ha.
Qed.

Lemma collected_flags_nil (s l a r : Detection) :
  View.coherent s -> View.coherent l -> View.coherent a -> View.coherent r ->
  View.category_if_detected s ++ View.category_if_detected l
  ++ View.category_if_detected a ++ View.category_if_detected r = [] ->
  flags s ++ flags l ++ flags a ++ flags r = [].
Proof.
  unfold View.coherent, View.category_if_detected.
  intros [Hs _] [Hl _] [Ha _] [Hr _] H.
  destruct (detected s); [discriminate H|].
  destruct (detected l); [discriminate H|].
  destruct (detected a); [discriminate H|].
  destruct (detected r); [discriminate H|].
  destruct (flags s); [|discriminate Hs].
  destruct (flags l); [|discriminate Hl].
  destruct (flags a); [|discriminate Ha].
  destruct (flags r); [|discriminate Hr].
  reflexivity.
Qed.

Lemma confidence_bounds (report : BiasReport) :
  br_flags report <> [] ->
  0.6 <= _calculate_confidence report <= 0.95
  /\ (br_bias_categories report <> [] -> 0.65 <= _calculate_confidence report)
  /\ ((4 <= length (br_flags report))%nat -> br_bias_categories report <> [] ->
      _calculate_confidence report == 0.95).
Proof.
  intros Hne. unfold _calculate_confidence.
  destruct (br_flags report) as [|f fl] eqn:Ef; [congruence|].
  set (n := inject_Z (Z.of_nat (length (f :: fl)))).
  set (k := inject_Z (Z.of_nat (size (list_to_set (br_bias_categories report)
                                      : gset string)))).
  assert (Hn : 1 <= n).
  { unfold n. change 1 with (inject_Z 1). rewrite <- Zle_Qle. simpl length. lia. }
  assert (Hk : 0 <= k).
  { unfold k. change 0 with (inject_Z 0). rewrite <- Zle_Qle. lia. }
  assert (Hk1 : br_bias_categories report <> [] -> 1 <= k).
  { intros Hc. unfold k. change 1 with (inject_Z 1). rewrite <- Zle_Qle.
    destruct (br_bias_categories report) as [|c cs]; [congruence|].
    assert (Hsz : size (list_to_set (c :: cs) : gset string) ≠ 0%nat).
    { apply size_non_empty_iff. set_solver. }
    lia. }
  assert (Hn4 : (4 <= length (f :: fl))%nat -> 4 <= n).
  { intros H4. unfold n. change 4 with (inject_Z 4). rewrite <- Zle_Qle. lia. }
  cbv zeta. fold n k.
  destruct (Q.min_spec (0.5 + n * 0.1) 0.9) as [[B1 B2]|[B1 B2]];
    destruct (Q.min_spec (k * 0.05) 0.1) as [[C1 C2]|[C1 C2]];
    destruct (Q.min_spec (Qmin (0.5 + n * 0.1) 0.9 + Qmin (k * 0.05) 0.1) 0.95)
      as [[D1 D2]|[D1 D2]];
    (split; [split; lra|split; [intros Hc; specialize (Hk1 Hc); lra|
       intros H4 Hc; specialize (Hk1 Hc); specialize (Hn4 H4); lra]]).
Qed.

Lemma table_severities :
  Forall (fun e => (6 <= info_severity (snd e) <= 8)%Z)
         (stereotypes cultural_bias_patterns)
  /\ Forall (fun e => (3 <= info_severity (snd e) <= 5)%Z)
            (problematic language_patterns)
  /\ Forall (fun e => (4 <= info_severity (snd e) <= 5)%Z)
            (representation cultural_bias_patterns).
Proof. repeat split; repeat constructor; simpl; lia. Qed.

Lemma assumption_flag_severity (items : list (string * GeminiInsights)) :
  Forall (fun f => type f = "cultural_assumption"
                   /\ exists sv, severity f = Some sv /\ (6 <= sv)%Z)
         (map Spec.assumption_flag (List.filter Spec.risky items)).
Proof.
  apply List.Forall_forall. intros f Hf. apply in_map_iff in Hf.
  destruct Hf as (item & <- & Hitem). apply filter_In in Hitem.
  destruct Hitem as [_ Hr]. apply gt_true in Hr.
  destruct (severity_of_risky _ Hr) as [_ H6].
  split; [reflexivity|]. eexists. split; [reflexivity|exact H6].
Qed.

Lemma confidence_without_category (report : BiasReport) :
  (4 <= length (br_flags report))%nat ->
  br_bias_categories report = [] ->
  _calculate_confidence report == 0.9.
Proof.
  intros H4 Hc. unfold _calculate_confidence. rewrite Hc.
  destruct (br_flags report) as [|f fl] eqn:Ef; [simpl in H4; lia|].
  set (n := inject_Z (Z.of_nat (length (f :: fl)))).
  assert (Hn : 4 <= n).
  { unfold n. change 4 with (inject_Z 4). rewrite <- Zle_Qle. lia. }
  change (inject_Z (Z.of_nat (size (list_to_set [] : gset string)))) with 0.
  cbv zeta. fold n.
  destruct (Q.min_spec (0.5 + n * 0.1) 0.9) as [[B1 B2]|[B1 B2]];
    destruct (Q.min_spec (0 * 0.05) 0.1) as [[C1 C2]|[C1 C2]];
    destruct (Q.min_spec (Qmin (0.5 + n * 0.1) 0.9 + Qmin (0 * 0.05) 0.1) 0.95)
      as [[D1 D2]|[D1 D2]]; lra.
Qed.

(** X12: the confidence heuristic.  With no flag it is 0.95; with flags it
    lies in [0.6, 0.95] and is at least 0.65 when a category is recorded;
    from four flags on it is 0.95 when a category is recorded and 0.9 when
    none is.  So a report with flags never has a higher confidence than a
    report without. *)
Theorem X12_confidence (report : BiasReport) :
  (br_flags report = [] -> _calculate_confidence report = 0.95)
  /\ (br_flags report <> [] ->
      0.6 <= _calculate_confidence report <= 0.95
      /\ (br_bias_categories report <> [] -> 0.65 <= _calculate_confidence report)
      /\ ((4 <= length (br_flags report))%nat ->
          br_bias_categories report <> [] ->
          _calculate_confidence report == 0.95)
      /\ ((4 <= length (br_flags report))%nat ->
          br_bias_categories report = [] ->
          _calculate_confidence report == 0.9)).
Proof.
  split.
  - intros Hnil. unfold _calculate_confidence. now rewrite Hnil.
  - intros Hne. destruct (confidence_bounds report Hne) as (H1 & H2 & H3).
    split; [exact H1|]. split; [exact H2|]. split; [exact H3|].
    apply confidence_without_category.
Qed.



End DetectorParts.

(** ** The bias detector as a whole *)

Section DetectorWhole.

Import BiasDetector.

Variable findall : string -> string -> list string.

Lemma scan_fold (content : string) (make_flag : string * PatternInfo -> Flag)
    (table : list (string * PatternInfo)) (state : list Flag * list string) :
  fold_left (View.scan_step findall content make_flag) table state
  = (fst state ++ map make_flag (View.matched findall content table),
     snd state ++ map fst (View.matched findall content table)).
Proof.
  revert state. induction table as [|[p info] table IH]; intros [fl pf].
  - simpl. now rewrite !app_nil_r.
  - cbn [fold_left View.matched List.filter]. rewrite IH.
    unfold View.scan_step. fold (View.matched findall content table).
    cbn [fst snd].
    destruct (findall p content); [reflexivity|].
    cbn [fst snd map]. now rewrite <- !app_assoc.
Qed.

Lemma stereotype_scan (content : string) :
  let m := View.matched findall content (stereotypes cultural_bias_patterns) in
  let fl := map (View.stereotype_flag findall content) m in
  _detect_stereotype_bias findall content
  = {| detected := (0 <? length fl)%nat; category := "stereotype_bias";
       flags := fl; patterns := map fst m;
       max_severity := max_default (map (fun f => default 0%Z (severity f)) fl) |}.
Proof.
  intros m fl. unfold _detect_stereotype_bias.
  change (fold_left _ (stereotypes cultural_bias_patterns) ([], []))
    with (fold_left (View.scan_step findall content
                       (View.stereotype_flag findall content))
                    (stereotypes cultural_bias_patterns) ([], [])).
  rewrite scan_fold. reflexivity.
Qed.

Lemma linguistic_scan (content : string) :
  let m := View.matched findall content (problematic language_patterns) in
  let fl := map (View.linguistic_flag findall content) m in
  _detect_linguistic_bias findall content
  = {| detected := (0 <? length fl)%nat; category := "linguistic_bias";
       flags := fl; patterns := map fst m;
       max_severity := max_default (map (fun f => default 0%Z (severity f)) fl) |}.
Proof.
  intros m fl. unfold _detect_linguistic_bias.
  change (fold_left _ (problematic language_patterns) ([], []))
    with (fold_left (View.scan_step findall content
                       (View.linguistic_flag findall content))
                    (problematic language_patterns) ([], [])).
  rewrite scan_fold. reflexivity.
Qed.

Lemma representation_scan (content : string) :
  let m := View.matched findall content (representation cultural_bias_patterns) in
  let fl := map (View.representation_flag findall content) m in
  _detect_representation_bias findall content
  = {| detected := (0 <? length fl)%nat; category := "representation_bias";
       flags := fl; patterns := map fst m;
       max_severity := max_default (map (fun f => default 0%Z (severity f)) fl) |}.
Proof.
  intros m fl. unfold _detect_representation_bias.
  change (fold_left _ (representation cultural_bias_patterns) ([], []))
    with (fold_left (View.scan_step findall content
                       (View.representation_flag findall content))
                    (representation cultural_bias_patterns) ([], [])).
  rewrite scan_fold. reflexivity.
Qed.

Lemma matched_length (content : string) (table : list (string * PatternInfo)) :
  (length (View.matched findall content table) <= length table)%nat.
Proof. apply filter_length_le. Qed.

Lemma matched_in (content : string) (table : list (string * PatternInfo))
    (e : string * PatternInfo) :
  In e (View.matched findall content table)
  <-> In e table /\ findall (fst e) content <> [].
Proof.
  unfold View.matched. rewrite filter_In.
  destruct (findall (fst e) content); split; intros [H1 H2]; split;
    congruence || auto.
Qed.

(** X8: each of the three regex scans emits, in table order, exactly one
    flag for every pattern of its table that matches the text, however many
    matches the pattern has: the flag carries all matches and the pattern's
    fixed severity and description.  So a scan emits at most as many flags
    as its table has patterns (3, 3 and 2), lists the matching patterns
    alongside, and reports [detected] exactly when some pattern matched. *)
Theorem X8_regex_scans (content : string) :
  let ms := View.matched findall content (stereotypes cultural_bias_patterns) in
  let ml := View.matched findall content (problematic language_patterns) in
  let mr := View.matched findall content (representation cultural_bias_patterns) in
  let s := _detect_stereotype_bias findall content in
  let l := _detect_linguistic_bias findall content in
  let r := _detect_representation_bias findall content in
  (flags s = map (View.stereotype_flag findall content) ms
   /\ patterns s = map fst ms /\ (length (flags s) <= 3)%nat
   /\ (detected s = true <-> ms <> []))
  /\ (flags l = map (View.linguistic_flag findall content) ml
      /\ patterns l = map fst ml /\ (length (flags l) <= 3)%nat
      /\ (detected l = true <-> ml <> []))
  /\ (flags r = map (View.representation_flag findall content) mr
      /\ patterns r = map fst mr /\ (length (flags r) <= 2)%nat
      /\ (detected r = true <-> mr <> []))
  /\ (forall e, In e ms <->
                In e (stereotypes cultural_bias_patterns)
                /\ findall (fst e) content <> []).
Proof.
  intros ms ml mr s l r.
  unfold s, l, r. rewrite stereotype_scan, linguistic_scan, representation_scan.
  cbn [flags patterns detected]. rewrite !length_map.
  fold ms ml mr.
  assert (D : forall m : list (string * PatternInfo),
            (0 <? length m)%nat = true <-> m <> []).
  { intros [|e m]; cbn; split; intros H; try discriminate; try reflexivity.
    exfalso. now apply H. }
  pose proof (matched_length content (stereotypes cultural_bias_patterns)) as Ls.
  pose proof (matched_length content (problematic language_patterns)) as Ll.
  pose proof (matched_length content (representation cultural_bias_patterns)) as Lr.
  fold ms in Ls. fold ml in Ll. fold mr in Lr.
  split; [|split; [|split]].
  - split; [reflexivity|]. split; [reflexivity|]. split; [exact Ls|apply D].
  - split; [reflexivity|]. split; [reflexivity|]. split; [exact Ll|apply D].
  - split; [reflexivity|]. split; [reflexivity|]. split; [exact Lr|apply D].
  - intros e. apply matched_in.
Qed.

(** X9: when any provider record carries a risk that is not a number, the
    comparison with 0.6 raises inside the third scan and [detect_bias]
    returns its error dict: no flag at all, also none of the regex scans
    that had already matched, confidence 0.0, no category. *)
Theorem X9_detect_bias_error (content : string) (gemini_analysis : GeminiAnalysis) :
  View.has_string_risk (cultural_insights gemini_analysis) ->
  _detect_cultural_assumptions content gemini_analysis = Raise TypeError
  /\ detect_bias findall content gemini_analysis = View.error_report TypeError
  /\ br_flags (detect_bias findall content gemini_analysis) = []
  /\ br_confidence_score (detect_bias findall content gemini_analysis) = 0.
Proof.
  intros H. pose proof (assumption_scan_raises content gemini_analysis H) as E.
  assert (D : detect_bias findall content gemini_analysis
              = View.error_report TypeError).
  { unfold detect_bias. rewrite E. reflexivity. }
  split; [exact E|]. split; [exact D|]. now rewrite D.
Qed.

Lemma regex_scans_coherent (content : string) :
  View.coherent (_detect_stereotype_bias findall content)
  /\ View.coherent (_detect_linguistic_bias findall content)
  /\ View.coherent (_detect_representation_bias findall content).
Proof.
  rewrite stereotype_scan, linguistic_scan, representation_scan.
  unfold View.coherent. cbn [detected flags patterns].
  repeat split; try reflexivity;
    intros H; apply map_eq_nil in H; now rewrite H.
Qed.

(** The report of [detect_bias] when the third scan returns. *)
Lemma detect_bias_ok (content : string) (gemini_analysis : GeminiAnalysis)
    (a : Detection) :
  _detect_cultural_assumptions content gemini_analysis = Ok a ->
  View.coherent a ->
  let s := _detect_stereotype_bias findall content in
  let l := _detect_linguistic_bias findall content in
  let r := _detect_representation_bias findall content in
  let collected :=
    View.absorb (View.absorb (View.absorb (View.absorb
      {| br_error := None; br_flags := []; br_severity_scores := ∅;
         br_pattern_matches := []; br_confidence_score := 0;
         br_bias_categories := [] |} s) l) a) r in
  detect_bias findall content gemini_analysis
  = {| br_error := None;
       br_flags := br_flags collected;
       br_severity_scores := _calculate_severity_scores [s; l; a; r];
       br_pattern_matches := br_pattern_matches collected;
       br_confidence_score :=
         _calculate_confidence
           {| br_error := None;
              br_flags := br_flags collected;
              br_severity_scores := _calculate_severity_scores [s; l; a; r];
              br_pattern_matches := br_pattern_matches collected;
              br_confidence_score := 0;
              br_bias_categories := br_bias_categories collected |};
       br_bias_categories := br_bias_categories collected |}.
Proof.
  intros Ha Hca s l r collected.
  destruct (regex_scans_coherent content) as (Hs & Hl & Hr).
  unfold detect_bias. rewrite Ha. cbv zeta. cbn [fold_left].
  fold s l r.
  rewrite (detect_step _ s Hs), (detect_step _ l Hl), (detect_step _ a Hca),
          (detect_step _ r Hr).
  reflexivity.
Qed.

(** X10: when the third scan returns, the report of [detect_bias] has no
    error and holds the flags of the four scans concatenated in scan order
    (stereotype, linguistic, cultural assumption, representation), likewise
    the matched patterns, and the categories of the scans that detected
    something, each once.  Its confidence is 0.95 when there is no flag and
    lies in [0.65, 0.95] otherwise. *)
Theorem X10_detect_bias_report (content : string) (gemini_analysis : GeminiAnalysis)
    (a : Detection) :
  _detect_cultural_assumptions content gemini_analysis = Ok a ->
  let s := _detect_stereotype_bias findall content in
  let l := _detect_linguistic_bias findall content in
  let r := _detect_representation_bias findall content in
  let report := detect_bias findall content gemini_analysis in
  br_error report = None
  /\ br_flags report = flags s ++ flags l ++ flags a ++ flags r
  /\ br_pattern_matches report = patterns s ++ patterns l ++ patterns r
  /\ br_bias_categories report
     = View.category_if_detected s ++ View.category_if_detected l
       ++ View.category_if_detected a ++ View.category_if_detected r
  /\ NoDup (br_bias_categories report)
  /\ (br_flags report = [] -> br_confidence_score report = 0.95)
  /\ (br_flags report <> [] -> 0.65 <= br_confidence_score report <= 0.95).
Proof.
  intros Ha s l r report.
  destruct (assumption_result content gemini_analysis a Ha)
    as (Hca & Hcat & Hpa & _).
  destruct (regex_scans_coherent content) as (Hs & Hl & Hr).
  fold s in Hs. fold l in Hl. fold r in Hr.
  assert (E := detect_bias_ok content gemini_analysis a Ha Hca).
  cbv zeta in E. fold s l r in E. fold report in E.
  assert (Ef : br_flags report = flags s ++ flags l ++ flags a ++ flags r).
  { rewrite E. cbn [br_flags View.absorb]. now rewrite <- !app_assoc. }
  assert (Ec : br_bias_categories report
               = View.category_if_detected s ++ View.category_if_detected l
                 ++ View.category_if_detected a ++ View.category_if_detected r).
  { rewrite E. cbn [br_bias_categories View.absorb]. now rewrite <- !app_assoc. }
  assert (Econf : br_confidence_score report
                  = _calculate_confidence
                      {| br_error := None; br_flags := br_flags report;
                         br_severity_scores := br_severity_scores report;
                         br_pattern_matches := br_pattern_matches report;
                         br_confidence_score := 0;
                         br_bias_categories := br_bias_categories report |}).
  { rewrite E. reflexivity. }
  split; [now rewrite E|]. split; [exact Ef|]. split; [|split; [exact Ec|split]].
  - rewrite E. cbn [br_pattern_matches View.absorb]. rewrite Hpa.
    now rewrite !app_nil_r, <- ?app_assoc.
  - rewrite Ec. unfold View.category_if_detected. rewrite Hcat.
    unfold s, l, r.
    rewrite stereotype_scan, linguistic_scan, representation_scan.
    cbn [category detected].
    destruct (0 <? _)%nat; destruct (0 <? _)%nat; destruct (detected a);
      destruct (0 <? _)%nat;
      apply (bool_decide_unpack _); vm_compute; exact I.
  - split.
    + intros Hnil. rewrite Econf. unfold _calculate_confidence.
      cbn [br_flags]. now rewrite Hnil.
    + intros Hne. rewrite Econf.
      destruct (confidence_bounds
                  {| br_error := None; br_flags := br_flags report;
                     br_severity_scores := br_severity_scores report;
                     br_pattern_matches := br_pattern_matches report;
                     br_confidence_score := 0;
                     br_bias_categories := br_bias_categories report |} Hne)
        as ([_ Hu] & Hlow & _).
      split; [|exact Hu]. apply Hlow. cbn [br_bias_categories].
      intros Hnil. apply Hne. rewrite Ef.
      apply collected_flags_nil; try assumption. now rewrite <- Ec.
Qed.

Lemma matched_forall (content : string) (P : string * PatternInfo -> Prop)
    (table : list (string * PatternInfo)) :
  Forall P table -> Forall P (View.matched findall content table).
Proof.
  intros H. apply List.Forall_forall. intros e He.
  apply matched_in in He. destruct He as [He _].
  exact (proj1 (List.Forall_forall _ _) H e He).
Qed.

Lemma report_severities (content : string) (gemini_analysis : GeminiAnalysis) :
  Forall (fun f => exists sv, severity f = Some sv /\ (3 <= sv)%Z
                              /\ (type f <> "cultural_assumption" -> (sv <= 8)%Z))
         (br_flags (detect_bias findall content gemini_analysis)).
Proof.
  destruct (risks_cases (cultural_insights gemini_analysis)) as [Hn|Hs].
  - pose proof (assumption_scan_ok content gemini_analysis Hn) as Ha.
    cbv zeta in Ha.
    destruct (assumption_result content gemini_analysis _ Ha) as (Hca & _).
    rewrite (detect_bias_ok content gemini_analysis _ Ha Hca).
    cbn [br_flags View.absorb flags app].
    rewrite stereotype_scan, linguistic_scan, representation_scan.
    cbn [flags].
    destruct table_severities as (Ts & Tl & Tr).
    repeat apply Forall_app_2.
    + apply List.Forall_map.
      eapply List.Forall_impl; [|exact (matched_forall content _ _ Ts)].
      intros e He. eexists. split; [reflexivity|]. simpl in *. lia.
    + apply List.Forall_map.
      eapply List.Forall_impl; [|exact (matched_forall content _ _ Tl)].
      intros e He. eexists. split; [reflexivity|]. simpl in *. lia.
    + eapply List.Forall_impl;
        [|exact (assumption_flag_severity (cultural_insights gemini_analysis))].
      intros f (Hty & sv & Hsv & H6). exists sv. split; [exact Hsv|].
      split; [lia|]. intros Hne. contradiction.
    + apply List.Forall_map.
      eapply List.Forall_impl; [|exact (matched_forall content _ _ Tr)].
      intros e He. eexists. split; [reflexivity|]. simpl in *. lia.
  - unfold detect_bias.
    rewrite (assumption_scan_raises content gemini_analysis Hs). constructor.
Qed.

Lemma report_flag_kinds (content : string) (gemini_analysis : GeminiAnalysis) :
  Forall (fun f => exists sv, severity f = Some sv /\ View.kind_range f sv)
         (br_flags (detect_bias findall content gemini_analysis)).
Proof.
  destruct (risks_cases (cultural_insights gemini_analysis)) as [Hn|Hs].
  - pose proof (assumption_scan_ok content gemini_analysis Hn) as Ha.
    cbv zeta in Ha.
    destruct (assumption_result content gemini_analysis _ Ha) as (Hca & _).
    rewrite (detect_bias_ok content gemini_analysis _ Ha Hca).
    cbn [br_flags View.absorb flags app].
    rewrite stereotype_scan, linguistic_scan, representation_scan.
    cbn [flags].
    destruct table_severities as (Ts & Tl & Tr).
    unfold View.kind_range.
    repeat apply Forall_app_2.
    + apply List.Forall_map.
      eapply List.Forall_impl; [|exact (matched_forall content _ _ Ts)].
      intros e He. eexists. split; [reflexivity|]. left. split; [reflexivity|].
      exact He.
    + apply List.Forall_map.
      eapply List.Forall_impl; [|exact (matched_forall content _ _ Tl)].
      intros e He. eexists. split; [reflexivity|]. right; left.
      split; [reflexivity|]. exact He.
    + eapply List.Forall_impl;
        [|exact (assumption_flag_severity (cultural_insights gemini_analysis))].
      intros f (Hty & sv & Hsv & H6). exists sv. split; [exact Hsv|].
      right; right; left. split; [exact Hty|exact H6].
    + apply List.Forall_map.
      eapply List.Forall_impl; [|exact (matched_forall content _ _ Tr)].
      intros e He. eexists. split; [reflexivity|]. right; right; right.
      split; [reflexivity|]. exact He.
  - unfold detect_bias.
    rewrite (assumption_scan_raises content gemini_analysis Hs). constructor.
Qed.

(** X11: every flag [detect_bias] reports is of one of the four kinds and
    carries a severity in the range of its kind: 6 to 8 for a stereotype
    flag, 3 to 5 for a linguistic one, at least 6 for a cultural-assumption
    one, 4 or 5 for a representation one.  So every severity is at least 3,
    at most 8 unless the flag is a cultural-assumption one, and no report
    ever holds a flag of negative severity. *)
Theorem X11_flag_severities (content : string) (gemini_analysis : GeminiAnalysis) :
  let report := detect_bias findall content gemini_analysis in
  Forall (fun f => exists sv, severity f = Some sv /\ View.kind_range f sv)
         (br_flags report)
  /\ Forall (fun f => type f = "cultural_assumption" ->
                      exists sv, severity f = Some sv /\ (6 <= sv)%Z)
            (br_flags report)
  /\ Forall (fun f => exists sv, severity f = Some sv /\ (3 <= sv)%Z)
            (br_flags report)
  /\ Forall (fun f => type f <> "cultural_assumption" ->
                      exists sv, severity f = Some sv /\ (3 <= sv <= 8)%Z)
            (br_flags report)
  /\ Spec.nonneg_severities (br_flags report).
Proof.
  intros report.
  pose proof (report_flag_kinds content gemini_analysis) as H. fold report in H.
  unfold View.kind_range in H.
  split; [exact H|]. split; [|split; [|split]].
  - eapply List.Forall_impl; [|exact H].
    intros f (sv & Hsv & [[Ht Hr]|[[Ht Hr]|[[Ht Hr]|[Ht Hr]]]]) Hty;
      exists sv; (split; [exact Hsv|]);
      try exact Hr; rewrite Ht in Hty; discriminate Hty.
  - eapply List.Forall_impl; [|exact H].
    intros f (sv & Hsv & [[Ht Hr]|[[Ht Hr]|[[Ht Hr]|[Ht Hr]]]]);
      exists sv; (split; [exact Hsv|lia]).
  - eapply List.Forall_impl; [|exact H].
    intros f (sv & Hsv & [[Ht Hr]|[[Ht Hr]|[[Ht Hr]|[Ht Hr]]]]) Hty;
      exists sv; (split; [exact Hsv|]); try lia.
    contradiction.
  - eapply List.Forall_impl; [|exact H].
    intros f (sv & Hsv & [[Ht Hr]|[[Ht Hr]|[[Ht Hr]|[Ht Hr]]]]);
      unfold Spec.severity_of; rewrite Hsv; simpl; lia.
Qed.


End DetectorWhole.

(** The detector on concrete replies of the provider. *)

Lemma X9_detect_bias_error_witness :
  let content := "An exotic getaway for everyone" in
  View.has_string_risk (BiasDetector.cultural_insights string_signal)
  /\ BiasDetector.detected
       (BiasDetector._detect_stereotype_bias exotic_findall content) = true
  /\ BiasDetector.br_flags
       (BiasDetector.detect_bias exotic_findall content string_signal) = []
  /\ BiasDetector.br_error
       (BiasDetector.detect_bias exotic_findall content string_signal)
     = Some BiasDetector.TypeError.
Proof.
  intros content.
  assert (H : View.has_string_risk (BiasDetector.cultural_insights string_signal)).
  { apply Exists_cons_tl, Exists_cons_hd. simpl. eauto. }
  destruct (X9_detect_bias_error exotic_findall content string_signal H)
    as (_ & Hrep & Hfl & _).
  split; [exact H|]. split; [reflexivity|]. split; [exact Hfl|].
  now rewrite Hrep.
Defined.

Lemma X10_detect_bias_report_witness :
  let content := "An exotic getaway for everyone" in
  let report := BiasDetector.detect_bias exotic_findall content sample_signal in
  exists a,
    BiasDetector._detect_cultural_assumptions content sample_signal
    = BiasDetector.Ok a
    /\ map BiasDetector.type (BiasDetector.br_flags report)
       = ["stereotype"; "cultural_assumption"]
    /\ BiasDetector.br_bias_categories report
       = ["stereotype_bias"; "cultural_assumption"]
    /\ BiasDetector.br_flags report <> []
    /\ 0.65 <= BiasDetector.br_confidence_score report <= 0.95.
Proof.
  intros content report.
  assert (Hn : Spec.numeric_risks (BiasDetector.cultural_insights sample_signal)).
  { repeat constructor; intros s; discriminate. }
  pose proof (assumption_scan_ok content sample_signal Hn) as Ha. cbv zeta in Ha.
  eexists. split; [exact Ha|].
  destruct (X10_detect_bias_report exotic_findall content sample_signal _ Ha)
    as (_ & Hfl & _ & Hcat & _ & _ & Hconf).
  fold report in Hfl, Hcat, Hconf.
  assert (Hne : BiasDetector.br_flags report <> []).
  { rewrite Hfl. discriminate. }
  split; [rewrite Hfl; reflexivity|]. split; [rewrite Hcat; reflexivity|].
  split; [exact Hne|exact (Hconf Hne)].
Defined.

Lemma X12_confidence_witness :
  let report (fl : list BiasDetector.Flag) (cats : list string) :=
    {| BiasDetector.br_error := None; BiasDetector.br_flags := fl;
       BiasDetector.br_severity_scores := ∅;
       BiasDetector.br_pattern_matches := [];
       BiasDetector.br_confidence_score := 0;
       BiasDetector.br_bias_categories := cats |} in
  BiasDetector._calculate_confidence (report [] []) = 0.95
  /\ BiasDetector._calculate_confidence (report [exotic_flag] ["stereotype_bias"])
     == 0.65
  /\ 0.65 <= BiasDetector._calculate_confidence
               (report [exotic_flag] ["stereotype_bias"]) <= 0.95
  /\ BiasDetector._calculate_confidence
       (report [exotic_flag; exotic_flag; exotic_flag; exotic_flag]
               ["stereotype_bias"])
     == 0.95
  /\ BiasDetector._calculate_confidence
       (report [exotic_flag; exotic_flag; exotic_flag; exotic_flag] [])
     == 0.9.
Proof.
  intros report.
  destruct (X12_confidence (report [] [])) as (Hnil & _).
  destruct (X12_confidence (report [exotic_flag] ["stereotype_bias"]))
    as (_ & Hone).
  destruct (X12_confidence
              (report [exotic_flag; exotic_flag; exotic_flag; exotic_flag]
                      ["stereotype_bias"])) as (_ & Hfour).
  destruct (X12_confidence
              (report [exotic_flag; exotic_flag; exotic_flag; exotic_flag] []))
    as (_ & Hbare).
  destruct Hone as ([Hlo Hhi] & Hcat & _); [discriminate|].
  destruct Hfour as (_ & _ & H4 & _); [discriminate|].
  destruct Hbare as (_ & _ & _ & H9); [discriminate|].
  split; [exact (Hnil eq_refl)|]. split; [reflexivity|].
  split; [split; [apply Hcat; discriminate|exact Hhi]|].
  split; [apply H4; [simpl; lia|discriminate]|].
  apply H9; [simpl; lia|reflexivity].
Defined.


(** ** The scorer's result as a whole *)

Section ScorerWhole.

Import CulturalScorer.

Lemma alignment_absent (bias_results : BiasResults)
    (cultural_analysis : CulturalAnalyzer.CulturalAnalysis)
    (countries : list string) (c : string) :
  c ∉ countries ->
  let ar := calculate_alignment bias_results cultural_analysis countries in
  country_scores ar !! c = None
  /\ confidence ar !! c = None
  /\ score_breakdown ar !! c = None.
Proof.
  intros Hnin. unfold calculate_alignment.
  pose proof (alignment_fold bias_results cultural_analysis countries
    ({| overall_score := 0; country_scores := ∅; confidence := ∅;
        score_breakdown := ∅ |}, [])) as H.
  cbv zeta in H. destruct (fold_left _ countries _) as [ar l].
  cbn [fst snd] in H. destruct H as (_ & _ & Hm). destruct (Hm c) as (H1 & H2 & H3).
  rewrite decide_False in H1 by exact Hnin.
  rewrite decide_False in H2 by exact Hnin.
  rewrite decide_False in H3 by exact Hnin.
  cbn [country_scores confidence score_breakdown] in H1, H2, H3.
  rewrite lookup_empty in H1. rewrite lookup_empty in H2.
  rewrite lookup_empty in H3.
  destruct l; cbn [country_scores confidence score_breakdown]; auto.
Qed.

(** X14: the three maps of [calculate_alignment] have exactly the requested
    countries as keys.  For each of them the stored score is the clamped
    weighted sum of the stored breakdown's three components and lies in
    [0,1], the stored interval has the breakdown's data quality and contains
    the score: 0 <= lower <= score <= upper <= 1. *)
Theorem X14_alignment_entries (bias_results : BiasResults)
    (cultural_analysis : CulturalAnalyzer.CulturalAnalysis)
    (countries : list string) (c : string) :
  let ar := calculate_alignment bias_results cultural_analysis countries in
  (c ∉ countries ->
   country_scores ar !! c = None /\ confidence ar !! c = None
   /\ score_breakdown ar !! c = None)
  /\ (c ∈ countries ->
      exists s ci b,
        country_scores ar !! c = Some s /\ confidence ar !! c = Some ci
        /\ score_breakdown ar !! c = Some b
        /\ s = Qmax 0 (Qmin 1 (cultural_fit b * 0.7 + (1 - bias_penalty b) * 0.25
                               + confidence_bonus b * 0.05))
        /\ 0 <= s <= 1
        /\ data_quality ci = breakdown_data_quality b
        /\ 0 <= lower_bound ci <= s /\ s <= upper_bound ci <= 1)
  /\ dom (country_scores ar) = list_to_set countries.
Proof.
  intros ar. split; [|split].
  - intros Hnin. exact (alignment_absent bias_results cultural_analysis countries c Hnin).
  - intros Hin.
    destruct (alignment_lookup bias_results cultural_analysis countries c Hin)
      as (H1 & H2 & H3).
    eexists _, _, _. split; [exact H1|]. split; [exact H2|]. split; [exact H3|].
    split; [reflexivity|]. split; [apply country_score_range|].
    split; [reflexivity|].
    apply interval_order, country_score_range.
  - apply set_eq. intros x. rewrite elem_of_dom, elem_of_list_to_set.
    destruct (decide (x ∈ countries)) as [Hin|Hnin].
    + destruct (alignment_lookup bias_results cultural_analysis countries x Hin)
        as (H1 & _).
      fold ar in H1. rewrite H1. split; eauto.
    + destruct (alignment_absent bias_results cultural_analysis countries x Hnin)
        as (H1 & _).
      fold ar in H1. rewrite H1. split; [intros [? ?]; discriminate|contradiction].
Qed.

Lemma X14_alignment_entries_witness :
  let ar := calculate_alignment {| flags := [exotic_flag] |} sample_analysis
                                ["US"; "ZZ"; "US"] in
  ("CN" ∉ ["US"; "ZZ"; "US"])
  /\ country_scores ar !! "CN" = None
  /\ "ZZ" ∈ ["US"; "ZZ"; "US"]
  /\ (exists s, country_scores ar !! "ZZ" = Some s /\ s == 0.58)
  /\ dom (country_scores ar) = {[ "US"; "ZZ" ]}.
Proof.
  intros ar.
  assert (Hcn : "CN" ∉ ["US"; "ZZ"; "US"]).
  { intros H.
    repeat (apply elem_of_cons in H; destruct H as [H|H]; [discriminate H|]).
    now apply elem_of_nil in H. }
  assert (Hzz : "ZZ" ∈ ["US"; "ZZ"; "US"]).
  { apply elem_of_cons; right. apply elem_of_cons; left. reflexivity. }
  destruct (X14_alignment_entries {| flags := [exotic_flag] |} sample_analysis
              ["US"; "ZZ"; "US"] "CN") as (Habs & _ & Hdom).
  destruct (X14_alignment_entries {| flags := [exotic_flag] |} sample_analysis
              ["US"; "ZZ"; "US"] "ZZ") as (_ & Hpres & _).
  split; [exact Hcn|]. split; [exact (proj1 (Habs Hcn))|]. split; [exact Hzz|].
  split.
  - destruct (Hpres Hzz) as (s & ci & b & Hs & _ & Hb & Hform & _).
    exists s. split; [exact Hs|]. fold ar in Hb. vm_compute in Hb.
    injection Hb as <-. rewrite Hform. vm_compute. reflexivity.
  - fold ar in Hdom. rewrite Hdom. set_solver.
Defined.

Lemma sum_lower (t : Q) (xs : list Q) :
  Forall (fun x => t <= x) xs ->
  inject_Z (Z.of_nat (length xs)) * t <= Py.sum xs.
Proof.
  induction 1 as [|x xs Hx _ IH].
  - change (0 * t <= 0). lra.
  - rewrite sum_cons. cbn [length]. rewrite Nat2Z.inj_succ.
    unfold Z.succ. rewrite inject_Z_plus. change (inject_Z 1) with 1. lra.
Qed.

Lemma sum_upper (t : Q) (xs : list Q) :
  Forall (fun x => x <= t) xs ->
  Py.sum xs <= inject_Z (Z.of_nat (length xs)) * t.
Proof.
  induction 1 as [|x xs Hx _ IH].
  - change (0 <= 0 * t). lra.
  - rewrite sum_cons. cbn [length]. rewrite Nat2Z.inj_succ.
    unfold Z.succ. rewrite inject_Z_plus. change (inject_Z 1) with 1. lra.
Qed.

Lemma length_positive {A : Type} (xs : list A) :
  xs <> [] -> 0 < inject_Z (Z.of_nat (length xs)).
Proof.
  intros H. destruct xs; [congruence|].
  change 0 with (inject_Z 0). rewrite <- Zlt_Qlt. simpl length. lia.
Qed.

Lemma mean_lower (t : Q) (xs : list Q) :
  xs <> [] -> Forall (fun x => t <= x) xs -> t <= Py.mean xs.
Proof.
  intros Hne H. unfold Py.mean.
  apply Qle_shift_div_l; [now apply length_positive|].
  pose proof (sum_lower t xs H). lra.
Qed.

Lemma mean_upper (t : Q) (xs : list Q) :
  xs <> [] -> Forall (fun x => x <= t) xs -> Py.mean xs <= t.
Proof.
  intros Hne H. unfold Py.mean.
  apply Qle_shift_div_r; [now apply length_positive|].
  pose proof (sum_upper t xs H). lra.
Qed.

Lemma finals_forall (P : Q -> Prop) (bias_results : BiasResults)
    (cultural_analysis : CulturalAnalyzer.CulturalAnalysis)
    (countries : list string) :
  (forall c, c ∈ countries ->
     P (Spec.final_score bias_results cultural_analysis c)) ->
  Forall P (map (Spec.final_score bias_results cultural_analysis) countries).
Proof.
  intros H. apply List.Forall_map. apply List.Forall_forall.
  intros c Hc. apply H. now apply list_elem_of_In.
Qed.

Lemma overall_between (bias_results : BiasResults)
    (cultural_analysis : CulturalAnalyzer.CulturalAnalysis)
    (countries : list string) (t : Q) :
  countries <> [] ->
  ((forall c, c ∈ countries ->
      t <= Spec.final_score bias_results cultural_analysis c) ->
   t <= overall_score (calculate_alignment bias_results cultural_analysis countries))
  /\ ((forall c, c ∈ countries ->
         Spec.final_score bias_results cultural_analysis c <= t) ->
      overall_score (calculate_alignment bias_results cultural_analysis countries)
      <= t).
Proof.
  intros Hne. rewrite alignment_overall.
  destruct countries as [|c0 cs]; [congruence|].
  assert (Hm : map (Spec.final_score bias_results cultural_analysis) (c0 :: cs)
               <> []) by discriminate.
  split; intros H.
  - apply mean_lower; [exact Hm|]. now apply finals_forall.
  - apply mean_upper; [exact Hm|]. now apply finals_forall.
Qed.

(** X15: the overall score is always in [0,1], whatever the flags and the
    cultural analysis are, since every country score is clamped; it is 0
    for an empty request, and for a request that names one country it is
    that country's final score. *)
Theorem X15_overall_range (bias_results : BiasResults)
    (cultural_analysis : CulturalAnalyzer.CulturalAnalysis)
    (countries : list string) :
  let overall :=
    overall_score (calculate_alignment bias_results cultural_analysis countries) in
  0 <= overall <= 1
  /\ (countries = [] -> overall = 0)
  /\ (forall c, countries = [c] ->
        overall == Spec.final_score bias_results cultural_analysis c).
Proof.
  intros overall. unfold overall. split; [|split].
  - destruct countries as [|c0 cs].
    + rewrite alignment_overall. split; lra.
    + assert (Hne : c0 :: cs <> []) by discriminate.
      destruct (overall_between bias_results cultural_analysis (c0 :: cs) 0 Hne)
        as [Hlo _].
      destruct (overall_between bias_results cultural_analysis (c0 :: cs) 1 Hne)
        as [_ Hhi].
      split; [apply Hlo|apply Hhi]; intros c _; apply country_score_range.
  - intros ->. now rewrite alignment_overall.
  - intros c ->. rewrite alignment_overall.
    unfold Py.mean, Py.sum. cbn [map length fold_left].
    change (inject_Z (Z.of_nat 1)) with 1. unfold Qdiv. change (/ 1) with 1. lra.
Qed.

Lemma X15_overall_range_witness :
  let bias_results := {| flags := [exotic_flag] |} in
  let overall :=
    overall_score (calculate_alignment bias_results sample_analysis ["ZZ"]) in
  ["ZZ"] = ["ZZ"] /\ overall == 0.58 /\ 0 <= overall <= 1.
Proof.
  intros bias_results overall.
  destruct (X15_overall_range bias_results sample_analysis ["ZZ"])
    as (Hunit & _ & Hone).
  split; [reflexivity|]. split; [|exact Hunit].
  unfold overall. rewrite (Hone "ZZ" eq_refl). vm_compute. reflexivity.
Defined.

End ScorerWhole.

(** ** Recommendations and risk level together *)

Section RiskAndRecommendations.

Import CulturalScorer.

Lemma risk_level_cases (alignment_scores : AlignmentResults) :
  (0.8 <= overall_score alignment_scores
   /\ App._calculate_risk_level alignment_scores = "low")
  \/ (0.6 <= overall_score alignment_scores < 0.8
      /\ App._calculate_risk_level alignment_scores = "medium")
  \/ (overall_score alignment_scores < 0.6
      /\ App._calculate_risk_level alignment_scores = "high").
Proof.
  unfold App._calculate_risk_level. cbv zeta.
  destruct (Py.ge (overall_score alignment_scores) 0.8) eqn:E1.
  - left. apply ge_true in E1. auto.
  - apply ge_false in E1.
    destruct (Py.ge (overall_score alignment_scores) 0.6) eqn:E2.
    + right; left. apply ge_true in E2. auto.
    + right; right. apply ge_false in E2. auto.
Qed.

Lemma single_overall (bias_results : BiasResults)
    (cultural_analysis : CulturalAnalyzer.CulturalAnalysis) (c : string) :
  overall_score (calculate_alignment bias_results cultural_analysis [c])
  == Spec.score_read (calculate_alignment bias_results cultural_analysis [c]) c.
Proof.
  rewrite (score_read_final bias_results cultural_analysis [c] c)
    by (apply elem_of_cons; left; reflexivity).
  rewrite alignment_overall.
  unfold Py.mean, Py.sum. cbn [map length fold_left].
  change (inject_Z (Z.of_nat 1)) with 1. unfold Qdiv. change (/ 1) with 1. lra.
Qed.

(** X16: for a request that names one country, risk level and
    recommendation agree.  The risk level is "low" exactly when no
    recommendation is made, "medium" exactly when the one recommendation
    has priority "medium", and "high" exactly when it has priority "high":
    the overall score is then the country's own score, and both functions
    compare it with 0.6 and 0.8. *)
Theorem X16_risk_and_recommendations (bias_results : BiasResults)
    (cultural_analysis : CulturalAnalyzer.CulturalAnalysis) (c : string) :
  let ar := calculate_alignment bias_results cultural_analysis [c] in
  let recs := App._generate_recommendations ar cultural_analysis [c] in
  (App._calculate_risk_level ar = "low" <-> recs = [])
  /\ (App._calculate_risk_level ar = "medium" <->
      exists r, recs = [r] /\ App.country r = c /\ App.priority r = "medium")
  /\ (App._calculate_risk_level ar = "high" <->
      exists r, recs = [r] /\ App.country r = c /\ App.priority r = "high").
Proof.
  intros ar recs.
  assert (Hrecs : recs = Spec.recommend ar cultural_analysis c).
  { unfold recs. rewrite recommendations_flat_map. cbn [flat_map].
    apply app_nil_r. }
  pose proof (single_overall bias_results cultural_analysis c) as Hov.
  fold ar in Hov.
  destruct (recommend_cases ar cultural_analysis c) as (Hhigh & Hmed & Hnone).
  cbv zeta in Hhigh, Hmed, Hnone.
  destruct (risk_level_cases ar) as [[Hs Hrisk]|[[Hs Hrisk]|[Hs Hrisk]]];
    rewrite Hrisk, Hrecs.
  - rewrite Hnone by lra.
    split; [split; reflexivity|].
    split; (split; [discriminate|intros (r & E & _); discriminate E]).
  - destruct Hmed as (r & Hr & Hc & Hp & _); [lra|]. rewrite Hr.
    split; [split; discriminate|]. split; split.
    + intros _. exists r. auto.
    + reflexivity.
    + discriminate.
    + intros (r' & E & _ & Hp'). injection E as <-.
      rewrite Hp in Hp'. discriminate Hp'.
  - destruct Hhigh as (r & Hr & Hc & Hp & _); [lra|]. rewrite Hr.
    split; [split; discriminate|]. split; split.
    + discriminate.
    + intros (r' & E & _ & Hp'). injection E as <-.
      rewrite Hp in Hp'. discriminate Hp'.
    + intros _. exists r. auto.
    + reflexivity.
Qed.

Lemma X16_risk_and_recommendations_witness :
  let low := {| CulturalAnalyzer.cultural_scores := ∅;
                CulturalAnalyzer.dimension_analysis := ∅;
                CulturalAnalyzer.insights := ∅;
                CulturalAnalyzer.suggestions := ∅;
                CulturalAnalyzer.industry_context := "general" |} in
  let ar := calculate_alignment {| flags := [exotic_flag] |} low ["ZZ"] in
  App._calculate_risk_level ar = "high"
  /\ exists r, App._generate_recommendations ar low ["ZZ"] = [r]
               /\ App.priority r = "high".
Proof.
  intros low ar.
  assert (Hhigh : App._calculate_risk_level ar = "high") by reflexivity.
  destruct (X16_risk_and_recommendations {| flags := [exotic_flag] |} low "ZZ")
    as (_ & _ & H).
  destruct (proj1 H Hhigh) as (r & Hr & _ & Hp).
  split; [exact Hhigh|]. exists r. auto.
Defined.

(** X17: a requested country for which the alignment result holds no
    score is read as score 0 and gets a "high"-priority recommendation; so
    for a result without scores (the dict of the scorer's [except] branch)
    every requested country gets one, in request order. *)
Theorem X17_missing_scores (alignment_scores : AlignmentResults)
    (cultural_analysis : CulturalAnalyzer.CulturalAnalysis)
    (countries : list string) :
  (forall c, c ∈ countries -> country_scores alignment_scores !! c = None) ->
  App._generate_recommendations alignment_scores cultural_analysis countries
  = map (View.high_recommendation cultural_analysis) countries.
Proof.
  intros H. rewrite recommendations_flat_map.
  induction countries as [|c cs IH]; [reflexivity|].
  cbn [flat_map map]. rewrite IH.
  - unfold Spec.recommend, Spec.score_read, Py.get.
    rewrite (H c) by (apply elem_of_cons; auto). reflexivity.
  - intros c' Hc'. apply H. apply elem_of_cons. auto.
Qed.

Lemma X17_missing_scores_witness :
  let failed := {| overall_score := 0; country_scores := ∅; confidence := ∅;
                   score_breakdown := ∅ |} in
  (forall c, c ∈ ["US"; "JP"] -> country_scores failed !! c = None)
  /\ map (fun r => (App.country r, App.priority r, App.specific_suggestions r))
         (App._generate_recommendations failed sample_analysis ["US"; "JP"])
     = [ ("US", "high", ["Emphasize community, family, and collective benefits"]);
         ("JP", "high", []) ].
Proof.
  intros failed.
  assert (H : forall c, c ∈ ["US"; "JP"] -> country_scores failed !! c = None).
  { intros c _. apply lookup_empty. }
  split; [exact H|].
  rewrite (X17_missing_scores failed sample_analysis ["US"; "JP"] H). reflexivity.
Defined.

End RiskAndRecommendations.

(** ** The request pipeline *)

(** *** What the scorer sees of the analyzer's output *)

Section ScorerOnAnalyzer.

Lemma tables_agree : CulturalScorer.hofstede_data = CulturalAnalyzer.hofstede_data.
Proof. reflexivity. Qed.

Variables (content industry : string) (countries : list string).

Let analysis := CulturalAnalyzer.analyze_cultural_fit content countries industry.

Lemma analyzer_presence (c : string) :
  (c ∈ countries -> is_Some (CulturalAnalyzer.hofstede_data !! c) ->
   is_Some (CulturalAnalyzer.cultural_scores analysis !! c)
   /\ is_Some (CulturalAnalyzer.insights analysis !! c))
  /\ (c ∉ countries \/ CulturalAnalyzer.hofstede_data !! c = None ->
      CulturalAnalyzer.cultural_scores analysis !! c = None
      /\ CulturalAnalyzer.insights analysis !! c = None
      /\ CulturalAnalyzer.suggestions analysis !! c = None).
Proof.
  unfold analysis.
  destruct (stored_cases content industry countries c)
    as [(dims & Hin & Hd & Hst)|(Hno & Hst)].
  - apply stored_inv in Hst. destruct Hst as (H1 & _ & H3 & _). split.
    + intros _ _. rewrite H1, H3. split; eexists; reflexivity.
    + intros [Hn|Hn]; [contradiction|]. rewrite Hd in Hn. discriminate Hn.
  - unfold View.stored in Hst. injection Hst as H1 _ H3 H4. split.
    + intros Hin [d Hd]. destruct Hno as [Hn|Hn]; [contradiction|].
      rewrite Hd in Hn. discriminate Hn.
    + intros _. auto.
Qed.

Lemma tier_supported (c : string) :
  c ∈ countries -> is_Some (CulturalScorer.hofstede_data !! c) ->
  CulturalScorer._calculate_confidence_bonus c analysis == 0.10
  /\ CulturalScorer._assess_data_quality c analysis == 1.
Proof.
  intros Hin Hs. pose proof Hs as Hs'. rewrite tables_agree in Hs'.
  destruct (proj1 (analyzer_presence c) Hin Hs') as ([x Hx] & [i Hi]).
  destruct Hs as [d Hd].
  unfold CulturalScorer._calculate_confidence_bonus,
    CulturalScorer._assess_data_quality, Py.mem.
  rewrite Hd, Hx, Hi. split; vm_compute; reflexivity.
Qed.

Lemma tier_unsupported (c : string) :
  CulturalScorer.hofstede_data !! c = None ->
  CulturalScorer._calculate_confidence_bonus c analysis = 0
  /\ CulturalScorer._assess_data_quality c analysis == 0
  /\ CulturalScorer._get_cultural_fit_score c analysis = 0.5
  /\ Py.get (CulturalAnalyzer.suggestions analysis) c [] = [].
Proof.
  intros Hn. pose proof Hn as Hn'. rewrite tables_agree in Hn'.
  destruct (proj2 (analyzer_presence c) (or_intror Hn')) as (Hx & Hi & Hsg).
  unfold CulturalScorer._calculate_confidence_bonus,
    CulturalScorer._assess_data_quality, CulturalScorer._get_cultural_fit_score,
    Py.mem, Py.get.
  rewrite Hn, Hx, Hi, Hsg. repeat split; vm_compute; reflexivity.
Qed.

Lemma fit_nonneg (c : string) :
  0 <= CulturalScorer._get_cultural_fit_score c analysis <= 1.
Proof.
  unfold CulturalScorer._get_cultural_fit_score. cbv zeta.
  apply get_unit. apply analyzer_scores_unit.
Qed.

Lemma pipeline_score (bias_results : CulturalScorer.BiasResults) (c : string) :
  Spec.nonneg_severities (CulturalScorer.flags bias_results) ->
  let base :=
    CulturalScorer._get_cultural_fit_score c analysis * 0.7
    + (1 - CulturalScorer._calculate_bias_penalty bias_results) * 0.25
    + CulturalScorer._calculate_confidence_bonus c analysis * 0.05 in
  CulturalScorer._calculate_country_score c bias_results analysis == base
  /\ 0.05 <= base <= 0.955.
Proof.
  intros Hsev base.
  pose proof (fit_nonneg c) as Hf.
  pose proof (bonus_range c analysis) as Hb.
  destruct (bias_penalty_range bias_results) as (Hp8 & Hp0).
  specialize (Hp0 Hsev).
  assert (Hbase : 0.05 <= base <= 0.955) by (unfold base; lra).
  split; [|exact Hbase].
  rewrite country_score_unfold. fold base. apply clamp_id. lra.
Qed.

End ScorerOnAnalyzer.

(** A flag list whose severities are at least 3 costs at least 0.03,
    unless it is empty. *)
Lemma penalty_positive (flags : list BiasDetector.Flag) :
  Forall (fun f => (3 <= Spec.severity_of f)%Z) flags ->
  flags <> [] ->
  0.03 <= CulturalScorer._calculate_bias_penalty
            {| CulturalScorer.flags := flags |} <= 0.8.
Proof.
  intros Hall Hne.
  assert (Hnn : Spec.nonneg_severities flags).
  { unfold Spec.nonneg_severities. eapply Forall_impl; [exact Hall|].
    cbv beta. intros f Hf. lia. }
  destruct (bias_penalty_range {| CulturalScorer.flags := flags |}) as (H8 & _).
  split; [|exact H8].
  rewrite bias_penalty_formula. cbn [CulturalScorer.flags].
  destruct flags as [|f fs]; [contradiction|].
  apply Forall_cons_1 in Hall. destruct Hall as (Hf & Hfs).
  assert (Hrest : 0 <= Spec.penalty_sum fs).
  { apply penalty_sum_nonneg. unfold Spec.nonneg_severities.
    eapply Forall_impl; [exact Hfs|]. cbv beta. intros g Hg. lia. }
  change (f :: fs) with ([f] ++ fs).
  rewrite penalty_sum_app, penalty_sum_single.
  assert (Hq : inject_Z 3 <= inject_Z (Spec.severity_of f)).
  { rewrite <- Zle_Qle. exact Hf. }
  change (inject_Z 3) with 3 in Hq.
  apply Q.min_glb; qlra.
Qed.

(** *** The read-only endpoints of the scorer *)

Lemma supported_codes (c : string) :
  c ∈ map CulturalScorer.code CulturalScorer.get_supported_countries
  <-> is_Some (CulturalScorer.hofstede_data !! c).
Proof.
  change (map CulturalScorer.code CulturalScorer.get_supported_countries)
    with ["US"; "UK"; "JP"; "CN"; "DE"; "FR"; "IN"; "BR"].
  split.
  - intros H.
    repeat (apply elem_of_cons in H; destruct H as [->|H];
            [eexists; reflexivity|]).
    now apply elem_of_nil in H.
  - intros [d Hd].
    unfold CulturalScorer.hofstede_data, CulturalScorer._load_hofstede_data in Hd.
    apply elem_of_list_to_map_2 in Hd.
    repeat (apply elem_of_cons in Hd; destruct Hd as [Hd|Hd];
            [injection Hd as -> _; set_solver|]).
    now apply elem_of_nil in Hd.
Qed.

(** X23: the countries endpoint lists each country once, and lists a code
    exactly when the dimensions endpoint answers for it; the answer then
    names the code asked for and gives all six dimensions a value between
    0 and 100. *)
Theorem X23_supported_countries (c : string) :
  NoDup (map CulturalScorer.code CulturalScorer.get_supported_countries)
  /\ (c ∈ map CulturalScorer.code CulturalScorer.get_supported_countries
      <-> is_Some (CulturalScorer.get_hofstede_scores c))
  /\ (forall answer, CulturalScorer.get_hofstede_scores c = Some answer ->
        CulturalScorer.hs_country answer = c
        /\ map fst (CulturalScorer.hs_dimensions answer)
           = map fst CulturalAnalyzer.weights
        /\ Forall (fun item => exists v, snd item = Some v /\ 0 <= v <= 100)
                  (CulturalScorer.hs_dimensions answer)).
Proof.
  split; [|split].
  - apply (bool_decide_unpack _). vm_compute. exact I.
  - rewrite supported_codes. unfold CulturalScorer.get_hofstede_scores.
    destruct (CulturalScorer.hofstede_data !! c) as [d|];
      split; intros [x Hx]; try discriminate; eexists; reflexivity.
  - intros answer. unfold CulturalScorer.get_hofstede_scores.
    destruct (CulturalScorer.hofstede_data !! c) as [d|] eqn:Hd; [|discriminate].
    intros Ha. injection Ha as <-.
    cbn [CulturalScorer.hs_country CulturalScorer.hs_dimensions].
    split; [reflexivity|]. split; [reflexivity|].
    unfold CulturalScorer.hofstede_data, CulturalScorer._load_hofstede_data in Hd.
    apply elem_of_list_to_map_2 in Hd.
    repeat (apply elem_of_cons in Hd; destruct Hd as [Hd|Hd];
            [injection Hd as _ ->;
             repeat (apply Forall_cons; split;
                     [eexists; split;
                      [vm_compute; reflexivity
                      |split; apply Qle_bool_iff; vm_compute; reflexivity]|]);
             apply Forall_nil_2|]).
    now apply elem_of_nil in Hd.
Qed.

Lemma interval_quality (country : string) (score : Q)
    (cultural_analysis : CulturalAnalyzer.CulturalAnalysis) :
  CulturalScorer.data_quality
    (CulturalScorer._calculate_confidence_interval country score cultural_analysis)
  = CulturalScorer._assess_data_quality country cultural_analysis.
Proof. reflexivity. Qed.

(** *** The endpoint *)

Section Campaign.

Variable findall : string -> string -> list string.
Variable analyze_cultural_sentiment :
  string -> list string -> BiasDetector.GeminiAnalysis.

#[local] Abbreviation report :=
  (View.campaign_report findall analyze_cultural_sentiment).
#[local] Abbreviation alignment :=
  (View.campaign_alignment findall analyze_cultural_sentiment).
#[local] Abbreviation respond :=
  (App.analyze_campaign findall analyze_cultural_sentiment).

Lemma campaign_response (data : App.Request) :
  respond data
  = {| App.overall_score := CulturalScorer.overall_score (alignment data);
       App.country_scores := CulturalScorer.country_scores (alignment data);
       App.bias_flags := BiasDetector.br_flags (report data);
       App.cultural_insights :=
         CulturalAnalyzer.insights (View.campaign_analysis data);
       App.recommendations :=
         App._generate_recommendations (alignment data)
           (View.campaign_analysis data) (View.requested data);
       App.risk_level := App._calculate_risk_level (alignment data);
       App.confidence_intervals := CulturalScorer.confidence (alignment data) |}.
Proof. reflexivity. Qed.

Lemma campaign_severities (data : App.Request) :
  Forall (fun f => (3 <= Spec.severity_of f)%Z) (BiasDetector.br_flags (report data)).
Proof.
  unfold View.campaign_report.
  eapply Forall_impl; [apply report_severities|].
  cbv beta. intros f (sv & Hsv & H3 & _).
  unfold Spec.severity_of. rewrite Hsv. exact H3.
Qed.

Lemma campaign_nonneg (data : App.Request) :
  Spec.nonneg_severities (CulturalScorer.flags (View.scorer_input (report data))).
Proof.
  unfold Spec.nonneg_severities, View.scorer_input. cbn [CulturalScorer.flags].
  eapply Forall_impl; [apply campaign_severities|].
  cbv beta. intros f Hf. lia.
Qed.

Lemma campaign_lookup (data : App.Request) (c : string) :
  c ∈ View.requested data ->
  CulturalScorer.country_scores (alignment data) !! c
  = Some (Spec.final_score (View.scorer_input (report data))
            (View.campaign_analysis data) c)
  /\ CulturalScorer.confidence (alignment data) !! c
     = Some (CulturalScorer._calculate_confidence_interval c
               (Spec.final_score (View.scorer_input (report data))
                  (View.campaign_analysis data) c)
               (View.campaign_analysis data)).
Proof.
  intros Hc. unfold View.campaign_alignment, Spec.final_score.
  destruct (alignment_lookup (View.scorer_input (report data))
              (View.campaign_analysis data) (View.requested data) c Hc)
    as (H1 & H2 & _).
  split; assumption.
Qed.

Lemma campaign_final (data : App.Request) (c : string) :
  let base :=
    CulturalScorer._get_cultural_fit_score c (View.campaign_analysis data) * 0.7
    + (1 - CulturalScorer._calculate_bias_penalty (View.scorer_input (report data)))
      * 0.25
    + CulturalScorer._calculate_confidence_bonus c (View.campaign_analysis data)
      * 0.05 in
  Spec.final_score (View.scorer_input (report data)) (View.campaign_analysis data) c
  == base
  /\ 0.05 <= base <= 0.955.
Proof.
  unfold Spec.final_score, View.campaign_analysis.
  apply pipeline_score. apply campaign_nonneg.
Qed.

(** X18: a request without target countries (the key missing, or an empty
    list) is answered with overall score 0, no country scores, intervals,
    insights or recommendations, and risk level "high", whatever the text
    says. *)
Theorem X18_empty_request (data : App.Request) :
  View.requested data = [] ->
  let response := respond data in
  App.overall_score response = 0
  /\ App.country_scores response = ∅
  /\ App.confidence_intervals response = ∅
  /\ App.cultural_insights response = ∅
  /\ App.recommendations response = []
  /\ App.risk_level response = "high".
Proof.
  intros H response. unfold response. rewrite campaign_response.
  cbn [App.overall_score App.country_scores App.confidence_intervals
       App.cultural_insights App.recommendations App.risk_level].
  unfold View.campaign_alignment, View.campaign_analysis. rewrite H.
  repeat split; reflexivity.
Qed.

(** X19: every requested country gets the unclamped weighted sum of its
    three components as score, a value between 0.05 and 0.955: neither
    clamp of the country score is ever active in the pipeline.  No other
    country gets a score, and for a non-empty request the overall score
    lies in the same range. *)
Theorem X19_campaign_scores (data : App.Request) :
  let response := respond data in
  (forall c, c ∈ View.requested data ->
     exists s, App.country_scores response !! c = Some s
               /\ s == CulturalScorer._get_cultural_fit_score c
                         (View.campaign_analysis data) * 0.7
                       + (1 - CulturalScorer._calculate_bias_penalty
                                {| CulturalScorer.flags := App.bias_flags response |})
                         * 0.25
                       + CulturalScorer._calculate_confidence_bonus c
                           (View.campaign_analysis data) * 0.05
               /\ 0.05 <= s <= 0.955)
  /\ (forall c, c ∉ View.requested data -> App.country_scores response !! c = None)
  /\ (View.requested data <> [] -> 0.05 <= App.overall_score response <= 0.955).
Proof.
  intros response. unfold response. rewrite campaign_response.
  cbn [App.overall_score App.country_scores App.bias_flags].
  fold (View.scorer_input (report data)).
  assert (Hrange : forall c,
             0.05 <= Spec.final_score (View.scorer_input (report data))
                       (View.campaign_analysis data) c <= 0.955).
  { intros c. destruct (campaign_final data c) as (He & Hb).
    cbv zeta in He, Hb. rewrite He. exact Hb. }
  split; [|split].
  - intros c Hc. destruct (campaign_lookup data c Hc) as (H1 & _).
    eexists. split; [exact H1|]. split; [|apply Hrange].
    exact (proj1 (campaign_final data c)).
  - intros c Hc. unfold View.campaign_alignment.
    apply (alignment_absent (View.scorer_input (report data))
             (View.campaign_analysis data) (View.requested data) c Hc).
  - intros Hne. unfold View.campaign_alignment.
    destruct (overall_between (View.scorer_input (report data))
                (View.campaign_analysis data) (View.requested data) 0.05 Hne)
      as (Hlo & _).
    destruct (overall_between (View.scorer_input (report data))
                (View.campaign_analysis data) (View.requested data) 0.955 Hne)
      as (_ & Hhi).
    split; [apply Hlo|apply Hhi]; intros c _; apply Hrange.
Qed.

(** X20: the pipeline knows two data tiers only.  A requested country with
    a Hofstede row has data quality 1 and margin of error 1.96 * 0.05; one
    without has data quality 0 and margin 1.96 * 0.15.  The middle tier
    (standard error 0.10) is never reached. *)
Theorem X20_data_tiers (data : App.Request) (c : string) :
  c ∈ View.requested data ->
  exists ci,
    App.confidence_intervals (respond data) !! c = Some ci
    /\ CulturalScorer.confidence_level ci = 0.95
    /\ ((is_Some (CulturalScorer.hofstede_data !! c)
         /\ CulturalScorer.data_quality ci == 1
         /\ CulturalScorer.margin_of_error ci == 1.96 * 0.05)
        \/ (CulturalScorer.hofstede_data !! c = None
            /\ CulturalScorer.data_quality ci == 0
            /\ CulturalScorer.margin_of_error ci == 1.96 * 0.15)).
Proof.
  intros Hc. rewrite campaign_response. cbn [App.confidence_intervals].
  destruct (campaign_lookup data c Hc) as (_ & H2).
  eexists. split; [exact H2|]. split; [reflexivity|].
  match goal with
  | |- context [CulturalScorer._calculate_confidence_interval c ?s ?a] =>
      pose proof (margin_cases c s a) as Hm
  end.
  cbv zeta in Hm.
  rewrite !interval_quality.
  destruct (CulturalScorer.hofstede_data !! c) as [d|] eqn:Hd.
  - left. split; [eexists; reflexivity|].
    assert (Hs : is_Some (CulturalScorer.hofstede_data !! c))
      by (rewrite Hd; eexists; reflexivity).
    destruct (tier_supported (View.content_of data) (View.industry_of data)
                (View.requested data) c Hc Hs) as (_ & Hq).
    fold (View.campaign_analysis data) in Hq.
    split; [exact Hq|].
    destruct Hm as [(_ & Hm)|[(Hr & _)|(Hr & _)]]; [exact Hm|lra|lra].
  - right. split; [reflexivity|].
    destruct (tier_unsupported (View.content_of data) (View.industry_of data)
                (View.requested data) c Hd) as (_ & Hq & _).
    fold (View.campaign_analysis data) in Hq.
    split; [exact Hq|].
    destruct Hm as [(Hr & _)|[(Hr & _)|(_ & Hm)]]; [lra|lra|exact Hm].
Qed.

(** X21: a requested country without a Hofstede row is scored
    0.6 - 0.25 * penalty, gets no insights, and always gets one
    recommendation with no suggestions: of priority "medium" when no flag
    was raised (the score is then 0.6 itself), of priority "high" as soon
    as one flag is raised. *)
Theorem X21_unsupported_country (data : App.Request) (c : string) :
  c ∈ View.requested data ->
  CulturalScorer.hofstede_data !! c = None ->
  let response := respond data in
  let penalty :=
    CulturalScorer._calculate_bias_penalty
      {| CulturalScorer.flags := App.bias_flags response |} in
  (exists s, App.country_scores response !! c = Some s
             /\ s == 0.6 - 0.25 * penalty /\ 0.4 <= s <= 0.6)
  /\ App.cultural_insights response !! c = None
  /\ exists r, In r (App.recommendations response)
               /\ App.country r = c
               /\ App.specific_suggestions r = []
               /\ App.priority r
                  = match App.bias_flags response with
                    | [] => "medium"
                    | _ :: _ => "high"
                    end.
Proof.
  intros Hc Hd response penalty. unfold penalty, response.
  rewrite campaign_response.
  cbn [App.country_scores App.bias_flags App.cultural_insights App.recommendations].
  fold (View.scorer_input (report data)).
  destruct (campaign_lookup data c Hc) as (H1 & _).
  destruct (campaign_final data c) as (He & _). cbv zeta in He.
  destruct (tier_unsupported (View.content_of data) (View.industry_of data)
              (View.requested data) c Hd) as (Hb & _ & Hf & Hsg).
  fold (View.campaign_analysis data) in Hb, Hf, Hsg.
  rewrite Hb, Hf in He.
  destruct (bias_penalty_range (View.scorer_input (report data))) as (Hp8 & Hp0).
  specialize (Hp0 (campaign_nonneg data)).
  set (p := CulturalScorer._calculate_bias_penalty (View.scorer_input (report data)))
    in *.
  set (s := Spec.final_score (View.scorer_input (report data))
              (View.campaign_analysis data) c) in *.
  assert (Hs : s == 0.6 - 0.25 * p) by (rewrite He; lra).
  split; [|split].
  - exists s. split; [exact H1|]. split; [exact Hs|]. rewrite Hs. lra.
  - pose proof Hd as Hd'. rewrite tables_agree in Hd'.
    destruct (proj2 (analyzer_presence (View.content_of data)
                       (View.industry_of data) (View.requested data) c)
                (or_intror Hd')) as (_ & Hi & _).
    exact Hi.
  - rewrite recommendations_flat_map.
    assert (Hread : Spec.score_read (alignment data) c = s).
    { unfold Spec.score_read, Py.get. rewrite H1. reflexivity. }
    assert (Hin : forall r,
               Spec.recommend (alignment data) (View.campaign_analysis data) c = [r] ->
               In r (flat_map (Spec.recommend (alignment data)
                                 (View.campaign_analysis data))
                       (View.requested data))).
    { intros r Hr. apply in_flat_map. exists c.
      split; [now apply list_elem_of_In|]. rewrite Hr. now left. }
    destruct (BiasDetector.br_flags (report data)) as [|f fs] eqn:Hfl.
    + assert (Hp : p == 0).
      { unfold p, View.scorer_input. rewrite Hfl. reflexivity. }
      assert (E1 : Py.lt s 0.6 = false) by (apply lt_false; rewrite Hs, Hp; lra).
      assert (E2 : Py.lt s 0.8 = true) by (apply lt_true; rewrite Hs, Hp; lra).
      eexists. split; [apply Hin; unfold Spec.recommend; cbv zeta;
                       rewrite Hread, E1, E2; reflexivity|].
      cbn [App.country App.specific_suggestions App.priority].
      rewrite Hsg. auto.
    + assert (Hp : 0.03 <= p).
      { unfold p, View.scorer_input.
        apply penalty_positive; [apply campaign_severities|].
        rewrite Hfl. discriminate. }
      assert (E1 : Py.lt s 0.6 = true) by (apply lt_true; rewrite Hs; lra).
      eexists. split; [apply Hin; unfold Spec.recommend; cbv zeta;
                       rewrite Hread, E1; reflexivity|].
      cbn [App.country App.specific_suggestions App.priority].
      rewrite Hsg. auto.
Qed.

(** X22: one record of the provider's reply whose risk is not a number
    empties the bias flags of the whole response, also those the regular
    expressions raised, and every requested country is scored without any
    bias penalty. *)
Theorem X22_malformed_signal (data : App.Request) :
  View.has_string_risk
    (BiasDetector.cultural_insights
       (analyze_cultural_sentiment (View.content_of data) (View.requested data))) ->
  let response := respond data in
  App.bias_flags response = []
  /\ forall c, c ∈ View.requested data ->
       exists s, App.country_scores response !! c = Some s
                 /\ s == CulturalScorer._get_cultural_fit_score c
                           (View.campaign_analysis data) * 0.7
                         + 0.25
                         + CulturalScorer._calculate_confidence_bonus c
                             (View.campaign_analysis data) * 0.05.
Proof.
  intros H response. unfold response. rewrite campaign_response.
  cbn [App.country_scores App.bias_flags].
  assert (Hfl : BiasDetector.br_flags (report data) = []).
  { unfold View.campaign_report, BiasDetector.detect_bias.
    rewrite (assumption_scan_raises _ _ H). reflexivity. }
  split; [exact Hfl|].
  intros c Hc. destruct (campaign_lookup data c Hc) as (H1 & _).
  eexists. split; [exact H1|].
  destruct (campaign_final data c) as (He & _). cbv zeta in He.
  rewrite He. unfold View.scorer_input. rewrite Hfl.
  change (CulturalScorer._calculate_bias_penalty {| CulturalScorer.flags := [] |})
    with 0.
  lra.
Qed.

(** X24: the response holds insights for exactly the requested countries
    that the countries endpoint lists. *)
Theorem X24_insights_for_supported (data : App.Request) (c : string) :
  is_Some (App.cultural_insights (respond data) !! c)
  <-> c ∈ View.requested data
      /\ c ∈ map CulturalScorer.code CulturalScorer.get_supported_countries.
Proof.
  rewrite campaign_response. cbn [App.cultural_insights].
  rewrite supported_codes.
  pose proof (analyzer_presence (View.content_of data) (View.industry_of data)
                (View.requested data) c) as (Hyes & Hno).
  fold (View.campaign_analysis data) in Hyes, Hno.
  rewrite tables_agree.
  split.
  - intros Hi.
    destruct (decide (c ∈ View.requested data)) as [Hc|Hc].
    + split; [exact Hc|].
      destruct (CulturalAnalyzer.hofstede_data !! c) as [d|] eqn:Hd;
        [eexists; reflexivity|].
      destruct (Hno (or_intror eq_refl)) as (_ & Hn & _).
      rewrite Hn in Hi. now destruct Hi.
    + destruct (Hno (or_introl Hc)) as (_ & Hn & _).
      rewrite Hn in Hi. now destruct Hi.
  - intros (Hc & Hs). apply (Hyes Hc Hs).
Qed.

End Campaign.

Lemma X18_empty_request_witness :
  let response :=
    App.analyze_campaign exotic_findall (fun _ _ => sample_signal) empty_request in
  View.requested empty_request = []
  /\ App.risk_level response = "high"
  /\ App.recommendations response = []
  /\ length (App.bias_flags response) = 2%nat.
Proof.
  intros response.
  assert (H : View.requested empty_request = []) by reflexivity.
  destruct (X18_empty_request exotic_findall (fun _ _ => sample_signal)
              empty_request H) as (_ & _ & _ & _ & Hrec & Hrisk).
  split; [exact H|]. split; [exact Hrisk|]. split; [exact Hrec|].
  vm_compute. reflexivity.
Defined.

Lemma X20_data_tiers_witness :
  let response :=
    App.analyze_campaign exotic_findall (fun _ _ => sample_signal) sample_request in
  "ZZ" ∈ View.requested sample_request
  /\ exists ci, App.confidence_intervals response !! "ZZ" = Some ci
                /\ CulturalScorer.data_quality ci == 0
                /\ CulturalScorer.margin_of_error ci == 0.294.
Proof.
  intros response.
  assert (H : "ZZ" ∈ View.requested sample_request).
  { apply elem_of_cons; right. apply elem_of_cons; left. reflexivity. }
  split; [exact H|].
  destruct (X20_data_tiers exotic_findall (fun _ _ => sample_signal)
              sample_request "ZZ" H) as (ci & Hci & _ & [(Hs & _)|(_ & Hq & Hm)]).
  - destruct Hs as [d Hd]. vm_compute in Hd. discriminate Hd.
  - exists ci. split; [exact Hci|]. split; [exact Hq|]. rewrite Hm. reflexivity.
Defined.

Lemma X21_unsupported_country_witness :
  let response :=
    App.analyze_campaign exotic_findall (fun _ _ => sample_signal) sample_request in
  "ZZ" ∈ View.requested sample_request
  /\ CulturalScorer.hofstede_data !! "ZZ" = None
  /\ (exists s, App.country_scores response !! "ZZ" = Some s /\ s == 0.565)
  /\ exists r, In r (App.recommendations response)
               /\ App.country r = "ZZ" /\ App.priority r = "high".
Proof.
  intros response.
  assert (H : "ZZ" ∈ View.requested sample_request).
  { apply elem_of_cons; right. apply elem_of_cons; left. reflexivity. }
  assert (Hd : CulturalScorer.hofstede_data !! "ZZ" = None) by reflexivity.
  destruct (X21_unsupported_country exotic_findall (fun _ _ => sample_signal)
              sample_request "ZZ" H Hd)
    as ((s & Hs & Hform & _) & _ & (r & Hin & Hc & _ & Hp)).
  split; [exact H|]. split; [exact Hd|]. split.
  - exists s. split; [exact Hs|]. rewrite Hform. vm_compute. reflexivity.
  - exists r. split; [exact Hin|]. split; [exact Hc|]. rewrite Hp. reflexivity.
Defined.

Lemma X22_malformed_signal_witness :
  let response :=
    App.analyze_campaign exotic_findall (fun _ _ => string_signal) sample_request in
  View.has_string_risk
    (BiasDetector.cultural_insights
       ((fun _ _ => string_signal) (View.content_of sample_request)
          (View.requested sample_request)))
  /\ App.bias_flags response = []
  /\ exists s, App.country_scores response !! "ZZ" = Some s /\ s == 0.6.
Proof.
  intros response.
  assert (H : View.has_string_risk
                (BiasDetector.cultural_insights
                   ((fun (_ : string) (_ : list string) => string_signal)
                      (View.content_of sample_request)
                      (View.requested sample_request)))).
  { apply Exists_cons_tl, Exists_cons_hd. simpl. eauto. }
  assert (Hzz : "ZZ" ∈ View.requested sample_request).
  { apply elem_of_cons; right. apply elem_of_cons; left. reflexivity. }
  destruct (X22_malformed_signal exotic_findall (fun _ _ => string_signal)
              sample_request H) as (Hfl & Hsc).
  split; [exact H|]. split; [exact Hfl|].
  destruct (Hsc "ZZ" Hzz) as (s & Hs & Hform).
  exists s. split; [exact Hs|]. rewrite Hform. vm_compute. reflexivity.
Defined.

(** ** The tiers and the unsupported-country score in binary64 *)

Section Binary64TierChecks.

#[local] Set Warnings "-inexact-float".

(** 0.0 + 0.4 + 0.3 + 0.3 is the float 1.0, so a country with all three
    kinds of data is in the first tier; with none it is in the last. *)
Example binary64_data_tiers :
  (Binary64Tiers._assess_data_quality true true true =? 1)%float = true
  /\ (Binary64Tiers.std_error (Binary64Tiers._assess_data_quality true true true)
      =? 0.05)%float = true
  /\ (Binary64Tiers._assess_data_quality false false false =? 0)%float = true
  /\ (Binary64Tiers.std_error (Binary64Tiers._assess_data_quality false false false)
      =? 0.15)%float = true.
Proof. repeat split; reflexivity. Qed.

(** Fit 0.5, no penalty, no bonus: the float 0.6, which is not below 0.6;
    with one flag of the smallest table severity the score is below 0.6. *)
Example binary64_unsupported_country :
  (Binary64._calculate_country_score 0.5 0 0 =? 0.6)%float = true
  /\ (Binary64._calculate_country_score 0.5 0 0 <? 0.6)%float = false
  /\ (Binary64._calculate_country_score 0.5 (Binary64._calculate_bias_penalty 3) 0
      <? 0.6)%float = true.
Proof. repeat split; reflexivity. Qed.

End Binary64TierChecks.

(** ** The cultural notes *)

Section Notes.

Import CulturalAnalyzer.

Lemma notes_of_row (country : string) (dimensions : gmap string Q) :
  hofstede_data !! country = Some dimensions ->
  _get_cultural_notes country dimensions
  = map View.high_note (List.filter (View.very_high dimensions) dimension_codes).
Proof.
  intros Hc. unfold hofstede_data, _load_hofstede_data in Hc.
  apply elem_of_list_to_map_2 in Hc.
  repeat (apply elem_of_cons in Hc; destruct Hc as [Hc|Hc];
          [injection Hc as _ ->; vm_compute; reflexivity|]).
  apply elem_of_nil in Hc. contradiction.
Qed.

(** X25: the notes stored for a country are one "Very high" note for each
    Hofstede code whose table value exceeds 80, in the order of the row;
    no table value is below 20, so a "Very low" note is never produced, and
    the notes do not depend on the campaign text. *)
Theorem X25_cultural_notes (content industry : string) (countries : list string)
    (c : string) (i : Insights) :
  insights (analyze_cultural_fit content countries industry) !! c = Some i ->
  exists dimensions,
    hofstede_data !! c = Some dimensions
    /\ cultural_notes i
       = map View.high_note
           (List.filter (View.very_high dimensions) dimension_codes).
Proof.
  intros Hi.
  destruct (stored_cases content industry countries c)
    as [(dims & Hin & Hc & Hst)|[_ Hst]].
  - apply stored_inv in Hst. destruct Hst as (_ & _ & Hi' & _).
    rewrite Hi' in Hi. injection Hi as <-.
    exists dims. split; [exact Hc|].
    apply (notes_of_row c dims Hc).
  - unfold View.stored in Hst. congruence.
Qed.

Lemma X25_cultural_notes_witness :
  exists i,
    insights (analyze_cultural_fit "Our team enjoys freedom now" ["JP"] "travel")
      !! "JP" = Some i
    /\ cultural_notes i
       = [ View.high_note "MAS"; View.high_note "UAI"; View.high_note "LTO" ].
Proof.
  pose proof (analyze_fold "Our team enjoys freedom now" "travel" ["JP"] "JP") as H.
  rewrite decide_True in H by (apply elem_of_cons; auto).
  change (hofstede_data !! "JP")
    with (Some (list_to_map [("PDI", 54); ("IDV", 46); ("MAS", 95);
                             ("UAI", 92); ("LTO", 88); ("IVR", 42)]
                : gmap string Q)) in H.
  apply stored_inv in H. destruct H as (_ & _ & Hi & _).
  eexists. split; [exact Hi|].
  destruct (X25_cultural_notes _ _ _ _ _ Hi) as (dims & Hd & Hn).
  rewrite Hn.
  change (hofstede_data !! "JP")
    with (Some (list_to_map [("PDI", 54); ("IDV", 46); ("MAS", 95);
                             ("UAI", 92); ("LTO", 88); ("IVR", 42)]
                : gmap string Q)) in Hd.
  apply (inj Some) in Hd. rewrite <- Hd. vm_compute. reflexivity.
Defined.

End Notes.
